(** * Connection lifecycle and credential rotation core: a shallow embedding

    The development follows the four source files of the repository:

    - [connutil]        plugins/helper/database/connutil/sql.go
    - [database]        builtin/logical/database/backend.go
    - [ldap]            helper/ldap/config.go
    - [activedirectory] helper/activedirectory/client.go

    Go strings are byte strings ([string]); Go [int] values are kept in [Z]
    (no arithmetic is performed on them, only comparisons); a Go [error] is
    an inhabitant of [error], with [nil] rendered by [option] or [result].
    Calls that leave the process (database driver, network, plugin) are
    transitions of an abstract environment supplied through a type class, and
    every such call is appended to a trace so that statements of the form
    "no request is issued" or "the handle is closed" can be read off it. *)

From Stdlib Require Import ZArith String Ascii List Bool Lia.
From stdpp Require Import base option list gmap strings.
Import ListNotations.

Set Implicit Arguments.
Local Open Scope string_scope.
Local Open Scope list_scope.
Local Open Scope Z_scope.

(** ** Go runtime vocabulary shared by the packages *)

Module Go.

(** Error values.  [Foreign] is an error produced outside the modelled
    packages (driver, network, decoder); sentinels are constructors of their
    own because Go compares them by identity. *)
#[local] Unset Elimination Schemes.
Inductive error : Type :=
| Foreign (msg : string)
| ErrNotInitialized
| Panic (msg : string)
| fmt_Errorf (format : string) (args : list fmt_arg)
| multierror (errs : list error)
with fmt_arg : Type :=
| ArgString (s : string)
| ArgError (e : error)
| ArgOpaque.
#[local] Set Elimination Schemes.

(** A Go pair [(v, err)] in which exactly one side is meaningful. *)
Inductive result (A : Type) : Type :=
| Ok (a : A)
| Err (e : error).
Arguments Ok {A} a.
Arguments Err {A} e.

Definition is_Ok {A} (r : result A) : bool :=
  match r with Ok _ => true | Err _ => false end.

(** [len(s)] *)
Definition len (s : string) : Z := Z.of_nat (String.length s).

(** [strings.HasPrefix(s, prefix)] *)
Definition HasPrefix (s p : string) : bool := String.prefix p s.

(** [strings.Contains(s, substr)] *)
Fixpoint Contains (s substr : string) : bool :=
  String.prefix substr s ||
  match s with
  | EmptyString => false
  | String _ s' => Contains s' substr
  end.

(** [strings.Split(s, sep)] for a one-byte separator: always at least one
    piece, empty pieces kept. *)
Fixpoint Split (s : string) (sep : ascii) : list string :=
  match s with
  | EmptyString => [EmptyString]
  | String a s' =>
      if Ascii.eqb a sep then EmptyString :: Split s' sep
      else match Split s' sep with
           | [] => [String a EmptyString]
           | piece :: pieces => String a piece :: pieces
           end
  end.

(** [a < b] on strings: bytewise lexicographic order. *)
Definition string_lt (a b : string) : bool := String.ltb a b.

(** [s[n:]] *)
Fixpoint slice_from (n : nat) (s : string) : string :=
  match n, s with
  | O, _ => s
  | S n', String _ s' => slice_from n' s'
  | S _, EmptyString => EmptyString
  end.

(** [strings.TrimPrefix(s, prefix)] *)
Definition TrimPrefix (s p : string) : string :=
  if HasPrefix s p then slice_from (String.length p) s else s.

End Go.
Import Go.

(** ** A state monad for effectful code *)

Module StateM.

Definition M (S A : Type) : Type := S -> A * S.

Definition ret {S A} (a : A) : M S A := fun s => (a, s).

Definition bind {S A B} (m : M S A) (k : A -> M S B) : M S B :=
  fun s => let (a, s') := m s in k a s'.

Definition get {S} : M S S := fun s => (s, s).

Definition modify {S} (f : S -> S) : M S unit := fun s => (tt, f s).

End StateM.
Import StateM.

Declare Scope go_scope.
Delimit Scope go_scope with go.
Notation "x <- m ;; k" := (bind m (fun x => k))
  (at level 100, m at next level, right associativity) : go_scope.
Notation "m ;;; k" := (bind m (fun _ => k))
  (at level 100, right associativity) : go_scope.
Local Open Scope go_scope.

(** ** plugins/helper/database/connutil/sql.go *)

Module connutil.

(** Values of type [interface{}] found in a configuration map. *)
Inductive value : Type :=
| VString (s : string)
| VInt (n : Z)
| VBool (b : bool).

(** [map[string]interface{}] *)
Abbreviation Conf := (gmap string value).

(** [*sql.DB]: a pooled handle, identified by the driver. *)
Definition DB : Type := nat.

Record SQLConnectionProducer : Type := mkProducer {
  ConnectionURL : string;
  MaxOpenConnections : Z;
  MaxIdleConnections : Z;
  MaxConnectionLifetimeRaw : option value;
  Username : string;
  Password : string;
  Type_ : string;
  maxConnectionLifetime : Z;
  Initialized : bool;
  db : option DB
}.

(** The zero value [SQLConnectionProducer{}] with a driver type. *)
Definition zero (ty : string) : SQLConnectionProducer :=
  mkProducer "" 0 0 None "" "" ty 0 false None.

Definition set_MaxOpenConnections (n : Z) (c : SQLConnectionProducer) :=
  mkProducer (ConnectionURL c) n (MaxIdleConnections c)
    (MaxConnectionLifetimeRaw c) (Username c) (Password c) (Type_ c)
    (maxConnectionLifetime c) (Initialized c) (db c).

Definition set_MaxIdleConnections (n : Z) (c : SQLConnectionProducer) :=
  mkProducer (ConnectionURL c) (MaxOpenConnections c) n
    (MaxConnectionLifetimeRaw c) (Username c) (Password c) (Type_ c)
    (maxConnectionLifetime c) (Initialized c) (db c).

Definition set_MaxConnectionLifetimeRaw (r : option value) (c : SQLConnectionProducer) :=
  mkProducer (ConnectionURL c) (MaxOpenConnections c) (MaxIdleConnections c)
    r (Username c) (Password c) (Type_ c)
    (maxConnectionLifetime c) (Initialized c) (db c).

Definition set_maxConnectionLifetime (d : Z) (c : SQLConnectionProducer) :=
  mkProducer (ConnectionURL c) (MaxOpenConnections c) (MaxIdleConnections c)
    (MaxConnectionLifetimeRaw c) (Username c) (Password c) (Type_ c)
    d (Initialized c) (db c).

Definition set_Initialized (b : bool) (c : SQLConnectionProducer) :=
  mkProducer (ConnectionURL c) (MaxOpenConnections c) (MaxIdleConnections c)
    (MaxConnectionLifetimeRaw c) (Username c) (Password c) (Type_ c)
    (maxConnectionLifetime c) b (db c).

Definition set_db (h : option DB) (c : SQLConnectionProducer) :=
  mkProducer (ConnectionURL c) (MaxOpenConnections c) (MaxIdleConnections c)
    (MaxConnectionLifetimeRaw c) (Username c) (Password c) (Type_ c)
    (maxConnectionLifetime c) (Initialized c) h.

(** Library functions used by [Initialize] whose code is not part of the
    package: [mapstructure.WeakDecode(conf, c)] decodes into the existing
    producer and may fail; [parseutil.ParseDurationSecond] returns a
    duration and possibly an error. *)
Class Decoding : Type := {
  WeakDecode : Conf -> SQLConnectionProducer -> option string * SQLConnectionProducer;
  ParseDurationSecond : value -> Z * option string
}.

(** The [database/sql] side: opening a pool, pinging it, closing it.  Each
    call is a transition of the environment [Env]. *)
Class Driver (Env : Type) : Type := {
  sql_Open : string -> string -> Env -> (string + DB) * Env;
  db_PingContext : DB -> Env -> option string * Env;
  db_Close : DB -> Env -> option string * Env
}.

(** What the producer asked of the driver, in order. *)
Inductive event : Type :=
| EvOpen (driverName dataSourceName : string)
| EvPing (h : DB)
| EvClose (h : DB)
| EvSetMaxOpenConns (h : DB) (n : Z)
| EvSetMaxIdleConns (h : DB) (n : Z)
| EvSetConnMaxLifetime (h : DB) (d : Z).

Record state (Env : Type) : Type := mkState {
  c : SQLConnectionProducer;
  env : Env;
  trace : list event
}.
Arguments mkState {Env} c env trace.

Section Producer.
Context {Env : Type} `{Driver Env} `{Decoding}.

Abbreviation M := (StateM.M (state Env)).

Definition get_c : M SQLConnectionProducer := fun s => (c s, s).

Definition modify_c (f : SQLConnectionProducer -> SQLConnectionProducer) : M unit :=
  fun s => (tt, mkState (f (c s)) (env s) (trace s)).

Definition emit (e : event) : M unit :=
  fun s => (tt, mkState (c s) (env s) (trace s ++ [e])).

Definition call {A} (e : event) (f : Env -> A * Env) : M A :=
  fun s => let (a, env') := f (env s) in (a, mkState (c s) env' (trace s ++ [e])).

Definition Open (driverName dataSourceName : string) : M (string + DB) :=
  call (EvOpen driverName dataSourceName) (sql_Open driverName dataSourceName).

Definition PingContext (h : DB) : M (option string) :=
  call (EvPing h) (db_PingContext h).

Definition DB_Close (h : DB) : M (option string) :=
  call (EvClose h) (db_Close h).

(** The driver type handed to [sql.Open]. *)
Definition dbType (c : SQLConnectionProducer) : string :=
  if String.eqb (Type_ c) "mssql" then "sqlserver" else Type_ c.

(** The connection string handed to [sql.Open]. *)
Definition connString (c : SQLConnectionProducer) : string :=
  let conn := ConnectionURL c in
  if HasPrefix conn "postgres://" || HasPrefix conn "postgresql://" then
    if Contains conn "?" then conn +:+ "&timezone=utc"
    else conn +:+ "?timezone=utc"
  else conn.

(** [func (c *SQLConnectionProducer) Connection(ctx) (interface{}, error)] *)
Definition Connection : M (result DB) :=
  c0 <- get_c ;;
  if negb (Initialized c0) then ret (Err ErrNotInitialized)
  else
    alive <- match db c0 with
             | Some h =>
                 err <- PingContext h ;;
                 match err with
                 | None => ret (Some h)
                 | Some _ => _ <- DB_Close h ;; ret None
                 end
             | None => ret None
             end ;;
    match alive with
    | Some h => ret (Ok h)
    | None =>
        r <- Open (dbType c0) (connString c0) ;;
        match r with
        | inl e => modify_c (set_db None) ;;; ret (Err (Foreign e))
        | inr h =>
            modify_c (set_db (Some h)) ;;;
            emit (EvSetMaxOpenConns h (MaxOpenConnections c0)) ;;;
            emit (EvSetMaxIdleConns h (MaxIdleConnections c0)) ;;;
            emit (EvSetConnMaxLifetime h (maxConnectionLifetime c0)) ;;;
            ret (Ok h)
        end
    end.

(** The outcome of the rebuild branch of [Connection], as a function of what
    [sql.Open] answered: [t] is the trace up to the call. *)
Definition rebuilt (c0 : SQLConnectionProducer) (t : list event)
    (o : (string + DB) * Env) : result DB * state Env :=
  match o with
  | (inr h, e) =>
      (Ok h,
       mkState (set_db (Some h) c0) e
         (t ++ [EvOpen (dbType c0) (connString c0)]
            ++ [EvSetMaxOpenConns h (MaxOpenConnections c0)]
            ++ [EvSetMaxIdleConns h (MaxIdleConnections c0)]
            ++ [EvSetConnMaxLifetime h (maxConnectionLifetime c0)]))
  | (inl err, e) =>
      (Err (Foreign err),
       mkState (set_db None c0) e (t ++ [EvOpen (dbType c0) (connString c0)]))
  end.

(** The [sql.Open] calls of a trace. *)
Definition is_open (e : event) : bool :=
  match e with EvOpen _ _ => true | _ => false end.

Definition opens (t : list event) : list event := List.filter is_open t.

(** The pool defaults of [Initialize], one assignment per source statement. *)
Definition defaultMaxOpen (c : SQLConnectionProducer) : SQLConnectionProducer :=
  if MaxOpenConnections c =? 0 then set_MaxOpenConnections 2 c else c.

Definition defaultMaxIdle (c : SQLConnectionProducer) : SQLConnectionProducer :=
  if MaxIdleConnections c =? 0
  then set_MaxIdleConnections (MaxOpenConnections c) c else c.

Definition clampMaxIdle (c : SQLConnectionProducer) : SQLConnectionProducer :=
  if MaxIdleConnections c >? MaxOpenConnections c
  then set_MaxIdleConnections (MaxOpenConnections c) c else c.

Definition defaultLifetimeRaw (c : SQLConnectionProducer) : SQLConnectionProducer :=
  match MaxConnectionLifetimeRaw c with
  | None => set_MaxConnectionLifetimeRaw (Some (VString "0s")) c
  | Some _ => c
  end.

Definition rawLifetime (c : SQLConnectionProducer) : value :=
  match MaxConnectionLifetimeRaw c with
  | Some v => v
  | None => VString "0s"
  end.

(** The verification step of [Initialize]: a connection, then a ping of
    [c.db]. *)
Definition verify : M (option error) :=
  r <- Connection ;;
  match r with
  | Err e => ret (Some (fmt_Errorf "error verifying connection: %s" [ArgError e]))
  | Ok _ =>
      c1 <- get_c ;;
      match db c1 with
      | None => ret (Some (Panic "nil pointer dereference"))
      | Some h =>
          err <- PingContext h ;;
          match err with
          | Some e =>
              ret (Some (fmt_Errorf "error verifying connection: %s" [ArgError (Foreign e)]))
          | None => ret None
          end
      end
  end.

(** [func (c *SQLConnectionProducer) Initialize(ctx, conf, verifyConnection)]
    The call to [dbutil.QueryHelper] discards its result and is omitted. *)
Definition Initialize (conf : Conf) (verifyConnection : bool) : M (result Conf) :=
  c0 <- get_c ;;
  let (derr, c1) := WeakDecode conf c0 in
  modify_c (fun _ => c1) ;;;
  match derr with
  | Some e => ret (Err (Foreign e))
  | None =>
      let connURL := ConnectionURL c1 in
      if len connURL =? 0
      then ret (Err (fmt_Errorf "connection_url cannot be empty" []))
      else if negb (len (Username c1) =? 0) && negb (len (Password c1) =? 0)
              && (negb (Contains connURL "{{username}}")
                  || negb (Contains connURL "{{password}}"))
      then ret (Err (fmt_Errorf
             "connection_url must be templated if username and password are provided" []))
      else
        modify_c defaultMaxOpen ;;;
        modify_c defaultMaxIdle ;;;
        modify_c clampMaxIdle ;;;
        modify_c defaultLifetimeRaw ;;;
        c2 <- get_c ;;
        let (d, perr) := ParseDurationSecond (rawLifetime c2) in
        modify_c (set_maxConnectionLifetime d) ;;;
        match perr with
        | Some e =>
            ret (Err (fmt_Errorf "invalid max_connection_lifetime: %s" [ArgError (Foreign e)]))
        | None =>
            modify_c (set_Initialized true) ;;;
            if verifyConnection then
              verr <- verify ;;
              match verr with
              | Some e => ret (Err e)
              | None => ret (Ok conf)
              end
            else ret (Ok conf)
        end
  end.

(** The producer as [Initialize] leaves it once validation has passed, before
    the optional verification: [c1] is the decoded producer, [d] the parsed
    lifetime. *)
Definition validated (c1 : SQLConnectionProducer) : SQLConnectionProducer :=
  let c2 := defaultLifetimeRaw (clampMaxIdle (defaultMaxIdle (defaultMaxOpen c1))) in
  set_Initialized true
    (set_maxConnectionLifetime (fst (ParseDurationSecond (rawLifetime c2))) c2).

(** What the validation of [Initialize] asks of the outcome of the decoding:
    no decoding error, a connection URL, both placeholders in it when a user
    name and a password are given, a lifetime that parses. *)
Definition valid (derr : option string) (c1 : SQLConnectionProducer) : Prop :=
  derr = None
  /\ ConnectionURL c1 <> ""
  /\ (Username c1 <> "" -> Password c1 <> "" ->
      Contains (ConnectionURL c1) "{{username}}" = true
      /\ Contains (ConnectionURL c1) "{{password}}" = true)
  /\ snd (ParseDurationSecond (rawLifetime c1)) = None.

(** [func (c *SQLConnectionProducer) Close() error] *)
Definition Close : M (option error) :=
  c0 <- get_c ;;
  match db c0 with
  | Some h => _ <- DB_Close h ;; ret tt
  | None => ret tt
  end ;;;
  modify_c (set_db None) ;;;
  ret None.

End Producer.

End connutil.

(** ** builtin/logical/database/backend.go *)

Module database.

(** [dbplugin.Statements]: the four statement fields of a role.  Their type
    is fixed by the assignments in [Role], which copy the [string] fields of
    [upgradeStatements] into them. *)
Record Statements_ : Type := mkStatements {
  CreationStatements : string;
  RevocationStatements : string;
  RollbackStatements : string;
  RenewStatements : string
}.

(** [type upgradeStatements struct], the legacy shape; its JSON tags are kept
    with the decoder in [json_decoding]. *)
Record upgradeStatements : Type := mkUpgradeStatements {
  up_CreationStatements : string;
  up_RevocationStatements : string;
  up_RollbackStatements : string;
  up_RenewStatements : string
}.

(** [type upgradeCheck struct] *)
Record upgradeCheck : Type := mkUpgradeCheck {
  up_Statements : upgradeStatements
}.

#[global] Instance upgradeStatements_eq_dec : EqDecision upgradeStatements.
Proof. solve_decision. Defined.

#[global] Instance upgradeCheck_eq_dec : EqDecision upgradeCheck.
Proof. solve_decision. Defined.

(** [upgradeCheck{}] *)
Definition empty : upgradeCheck := mkUpgradeCheck (mkUpgradeStatements "" "" "" "").

(** Modelled from the spec: the canonical role record ("name, statement set
    (creation / revocation / rollback / renew)"); [roleEntry] is declared in
    a file of the package that is not part of the sources at hand.  The
    fields other than the statement set are kept abstract in [Rest]. *)
Record roleEntry (Rest : Type) : Type := mkRoleEntry {
  Statements : Statements_;
  rest : Rest
}.
Arguments mkRoleEntry {Rest} Statements rest.

(** Modelled from the spec: the connection config record ("backend/plugin
    type identifier, opaque backend-specific connection details (map)");
    [DatabaseConfig] is declared outside the sources at hand, and
    [GetConnection] reads exactly these two fields. *)
Record DatabaseConfig_ : Type := mkDatabaseConfig {
  PluginName : string;
  ConnectionDetails : connutil.Conf
}.

(** [logical.Storage]: [s.Get(ctx, path)]. *)
Record Storage (StorageEntry : Type) : Type := mkStorage {
  Get : string -> result (option StorageEntry)
}.

(** [entry.DecodeJSON(&out)] at the three types the package decodes into. *)
Class ConfigDecoder (StorageEntry : Type) : Type := {
  DecodeJSON_DatabaseConfig : StorageEntry -> result DatabaseConfig_
}.

Class RoleDecoder (StorageEntry Rest : Type) : Type := {
  DecodeJSON_upgradeCheck : StorageEntry -> result upgradeCheck;
  DecodeJSON_roleEntry : StorageEntry -> result (roleEntry Rest)
}.

(** The capability interface [dbplugin.Database] as the cache uses it, and
    [dbplugin.PluginFactory].  [Database] is the type of interface values
    (references to live instances); the instances themselves live in [Env]. *)
Class Capability (Env Database : Type) : Type := {
  PluginFactory : string -> Env -> result Database * Env;
  db_Initialize : Database -> connutil.Conf -> bool -> Env -> option error * Env;
  db_Close : Database -> Env -> option error * Env
}.

Inductive event (Database : Type) : Type :=
| EvPluginFactory (pluginName : string)
| EvInitialize (d : Database) (details : connutil.Conf) (verifyConnection : bool)
| EvClose (d : Database).
Arguments EvPluginFactory {Database} pluginName.
Arguments EvInitialize {Database} d details verifyConnection.
Arguments EvClose {Database} d.

(** [databaseBackend]: the cache map, with the world the instances live in. *)
Record databaseBackend (Env Database : Type) : Type := mkBackend {
  connections : gmap string Database;
  env : Env;
  trace : list (event Database)
}.
Arguments mkBackend {Env Database} connections env trace.

Section Roles.
Context {StorageEntry Rest : Type} `{RoleDecoder StorageEntry Rest}.

(** The four assignments guarded by [upgradeCh != empty]. *)
Definition override (result : roleEntry Rest) (upgradeCh : upgradeCheck) : roleEntry Rest :=
  mkRoleEntry
    (mkStatements
       (up_CreationStatements (up_Statements upgradeCh))
       (up_RevocationStatements (up_Statements upgradeCh))
       (up_RollbackStatements (up_Statements upgradeCh))
       (up_RenewStatements (up_Statements upgradeCh)))
    (rest result).

(** [func (b *databaseBackend) Role(ctx, s, roleName)], returning a pointer
    to a [roleEntry] (nil when the record is absent) or an error. *)
Definition Role (s : Storage StorageEntry) (roleName : string)
  : result (option (roleEntry Rest)) :=
  match Get s ("role/" +:+ roleName) with
  | Err err => Err err
  | Ok None => Ok None
  | Ok (Some entry) =>
      match DecodeJSON_upgradeCheck entry with
      | Err err => Err err
      | Ok upgradeCh =>
          match DecodeJSON_roleEntry entry with
          | Err err => Err err
          | Ok result =>
              if decide (upgradeCh = empty) then Ok (Some result)
              else Ok (Some (override result upgradeCh))
          end
      end
  end.

End Roles.

Section Cache.
Context {Env Database StorageEntry : Type}
        `{Capability Env Database} `{ConfigDecoder StorageEntry}.

Abbreviation M := (StateM.M (databaseBackend Env Database)).

Definition get_connections : M (gmap string Database) := fun b => (connections b, b).

Definition modify_connections (f : gmap string Database -> gmap string Database) : M unit :=
  fun b => (tt, mkBackend (f (connections b)) (env b) (trace b)).

Definition call {A} (e : event Database) (f : Env -> A * Env) : M A :=
  fun b => let (a, env') := f (env b) in
           (a, mkBackend (connections b) env' (trace b ++ [e])).

(** [func (b *databaseBackend) DatabaseConfig(ctx, s, name)] *)
Definition DatabaseConfig (s : Storage StorageEntry) (name : string) : result DatabaseConfig_ :=
  match Get s ("config/" +:+ name) with
  | Err err =>
      Err (fmt_Errorf "failed to read connection configuration: %s" [ArgError err])
  | Ok None =>
      Err (fmt_Errorf "failed to find entry for connection with name: %s" [ArgString name])
  | Ok (Some entry) => DecodeJSON_DatabaseConfig entry
  end.

(** [func (b *databaseBackend) GetConnection(ctx, s, name)].  The read lock,
    its upgrade and the second lookup are kept in program order; no other
    thread runs in between. *)
Definition GetConnection (s : Storage StorageEntry) (name : string) : M (result Database) :=
  conns <- get_connections ;;
  match conns !! name with
  | Some d => ret (Ok d)
  | None =>
      conns <- get_connections ;;
      match conns !! name with
      | Some d => ret (Ok d)
      | None =>
          match DatabaseConfig s name with
          | Err err => ret (Err err)
          | Ok config =>
              r <- call (EvPluginFactory (PluginName config))
                        (PluginFactory (PluginName config)) ;;
              match r with
              | Err err => ret (Err err)
              | Ok d =>
                  err <- call (EvInitialize d (ConnectionDetails config) true)
                              (db_Initialize d (ConnectionDetails config) true) ;;
                  match err with
                  | Some err =>
                      _ <- call (EvClose d) (db_Close d) ;;
                      ret (Err err)
                  | None =>
                      modify_connections (fun m => <[name := d]> m) ;;;
                      ret (Ok d)
                  end
              end
          end
      end
  end.

(** [func (b *databaseBackend) ClearConnection(name string) error] *)
Definition ClearConnection (name : string) : M (option error) :=
  conns <- get_connections ;;
  match conns !! name with
  | Some d =>
      err <- call (EvClose d) (db_Close d) ;;
      match err with
      | Some err => ret (Some err)
      | None =>
          modify_connections (fun m => delete name m) ;;;
          ret None
      end
  | None => ret None
  end.

(** [const databaseConfigPath] *)
Definition databaseConfigPath : string := "database/config/".

(** [func (b *databaseBackend) invalidate(ctx, key string)]; the result of
    [ClearConnection] is dropped. *)
Definition invalidate (key : string) : M unit :=
  if HasPrefix key databaseConfigPath then
    _ <- ClearConnection (TrimPrefix key databaseConfigPath) ;; ret tt
  else ret tt.

(** [func (b *databaseBackend) CloseIfShutdown(name string, err error)].
    [is_shutdown err] is the test of the [switch]: [err] is one of the two
    values [rpc.ErrShutdown] and [dbplugin.ErrPluginShutdown], both declared
    outside the sources at hand. *)
Definition CloseIfShutdown (is_shutdown : error -> bool) (name : string) (err : error)
  : M unit :=
  if is_shutdown err then _ <- ClearConnection name ;; ret tt
  else ret tt.

(** The body of the loop of [closeAllDBs] over the instances it visits: the
    result of each [Close] is dropped. *)
Fixpoint closeEach (ds : list Database) : M unit :=
  match ds with
  | [] => ret tt
  | d :: ds' => _ <- call (EvClose d) (db_Close d) ;; closeEach ds'
  end.

(** [func (b *databaseBackend) closeAllDBs(ctx)].  A [range] over a Go map
    visits its entries in an order the language leaves open; [visit] is that
    order, a permutation of the entries of the map. *)
Definition closeAllDBs (visit : list (string * Database)) : M unit :=
  closeEach (map snd visit) ;;;
  modify_connections (fun _ => ∅).

End Cache.

End database.

(** ** Stored records as JSON

    [entry.DecodeJSON] hands the stored bytes to [encoding/json].  The module
    gives the part of that decoder the role records exercise: objects whose
    members are matched against struct field tags and decoded in order. *)

Module json.

#[local] Unset Elimination Schemes.
Inductive value : Type :=
| JNull
| JBool (b : bool)
| JNumber (literal : string)
| JString (s : string)
| JArray (elems : list value)
| JObject (members : list (string * value)).
#[local] Set Elimination Schemes.

(** A stored entry: [None] stands for bytes that are not a JSON text. *)
Definition StorageEntry : Type := option value.

Definition syntaxError : error := Foreign "json: invalid syntax".
Definition typeError : error := Foreign "json: cannot unmarshal value into Go struct field".

(** [b & caseMask], clearing bit 0x20. *)
Definition caseMask (a : ascii) : ascii :=
  let 'Ascii b0 b1 b2 b3 b4 _ b6 b7 := a in Ascii b0 b1 b2 b3 b4 false b6 b7.

Definition isUpperLetter (a : ascii) : bool :=
  (65 <=? N_of_ascii a)%N && (N_of_ascii a <=? 90)%N.

Definition isASCII (a : ascii) : bool := (N_of_ascii a <? 128)%N.

(** Key matching for a field tag made of ASCII bytes that contains the
    letter [s] or [k], as all tags below do: letters match without regard to
    case, other bytes exactly, and the two code points U+017F and U+212A
    (UTF-8 [C5 BF] and [E2 84 AA]) match [s] and [k]. *)
Fixpoint equalFoldRight (s t : string) : bool :=
  match s with
  | EmptyString => match t with EmptyString => true | String _ _ => false end
  | String sb s' =>
      match t with
      | EmptyString => false
      | String tb t' =>
          if isASCII tb then
            if Ascii.eqb sb tb then equalFoldRight s' t'
            else isUpperLetter (caseMask sb)
                 && Ascii.eqb (caseMask sb) (caseMask tb)
                 && equalFoldRight s' t'
          else if Ascii.eqb (caseMask sb) "S" then
            match t with
            | String "197" (String "191" t'') => equalFoldRight s' t''
            | _ => false
            end
          else if Ascii.eqb (caseMask sb) "K" then
            match t with
            | String "226" (String "132" (String "170" t'')) => equalFoldRight s' t''
            | _ => false
            end
          else false
      end
  end.

(** Decoding the members of an object one after the other into a struct
    value; the first member that does not fit decides the error. *)
Fixpoint fold_members {S : Type} (f : string -> value -> S -> result S)
    (members : list (string * value)) (s : S) : result S :=
  match members with
  | [] => Ok s
  | (k, v) :: members' =>
      match f k v s with
      | Err e => Err e
      | Ok s' => fold_members f members' s'
      end
  end.

(** A JSON value decoded into a struct: [null] leaves it as it is. *)
Definition into_struct {S : Type} (f : string -> value -> S -> result S)
    (v : value) (s : S) : result S :=
  match v with
  | JObject members => fold_members f members s
  | JNull => Ok s
  | _ => Err typeError
  end.

(** A JSON value decoded into a [string] field. *)
Definition into_string (v : value) (old : string) : result string :=
  match v with
  | JString s => Ok s
  | JNull => Ok old
  | _ => Err typeError
  end.

Import database.

(** [upgradeStatements], with the tags of the source:
    [creation_statments] (sic), [revocation_statements],
    [rollback_statements], [renew_statements]. *)
Definition member_upgradeStatements (k : string) (v : value) (u : upgradeStatements)
  : result upgradeStatements :=
  if equalFoldRight "creation_statments" k then
    match into_string v (up_CreationStatements u) with
    | Err e => Err e
    | Ok s => Ok (mkUpgradeStatements s (up_RevocationStatements u)
                    (up_RollbackStatements u) (up_RenewStatements u))
    end
  else if equalFoldRight "revocation_statements" k then
    match into_string v (up_RevocationStatements u) with
    | Err e => Err e
    | Ok s => Ok (mkUpgradeStatements (up_CreationStatements u) s
                    (up_RollbackStatements u) (up_RenewStatements u))
    end
  else if equalFoldRight "rollback_statements" k then
    match into_string v (up_RollbackStatements u) with
    | Err e => Err e
    | Ok s => Ok (mkUpgradeStatements (up_CreationStatements u)
                    (up_RevocationStatements u) s (up_RenewStatements u))
    end
  else if equalFoldRight "renew_statements" k then
    match into_string v (up_RenewStatements u) with
    | Err e => Err e
    | Ok s => Ok (mkUpgradeStatements (up_CreationStatements u)
                    (up_RevocationStatements u) (up_RollbackStatements u) s)
    end
  else Ok u.

(** [upgradeCheck], with the tag of the source: [statments] (sic). *)
Definition member_upgradeCheck (k : string) (v : value) (u : upgradeCheck)
  : result upgradeCheck :=
  if equalFoldRight "statments" k then
    match into_struct member_upgradeStatements v (up_Statements u) with
    | Err e => Err e
    | Ok s => Ok (mkUpgradeCheck s)
    end
  else Ok u.

Definition decode_upgradeCheck (entry : StorageEntry) : result upgradeCheck :=
  match entry with
  | None => Err syntaxError
  | Some v => into_struct member_upgradeCheck v empty
  end.

(** Modelled from the spec: the canonical statement set, stored under the
    field names without the typo ("the new version does not" have it):
    [creation_statements], [revocation_statements], [rollback_statements],
    [renew_statements]; the struct itself is declared outside the sources
    at hand. *)
Definition member_Statements (k : string) (v : value) (u : Statements_)
  : result Statements_ :=
  if equalFoldRight "creation_statements" k then
    match into_string v (CreationStatements u) with
    | Err e => Err e
    | Ok s => Ok (mkStatements s (RevocationStatements u)
                    (RollbackStatements u) (RenewStatements u))
    end
  else if equalFoldRight "revocation_statements" k then
    match into_string v (RevocationStatements u) with
    | Err e => Err e
    | Ok s => Ok (mkStatements (CreationStatements u) s
                    (RollbackStatements u) (RenewStatements u))
    end
  else if equalFoldRight "rollback_statements" k then
    match into_string v (RollbackStatements u) with
    | Err e => Err e
    | Ok s => Ok (mkStatements (CreationStatements u)
                    (RevocationStatements u) s (RenewStatements u))
    end
  else if equalFoldRight "renew_statements" k then
    match into_string v (RenewStatements u) with
    | Err e => Err e
    | Ok s => Ok (mkStatements (CreationStatements u)
                    (RevocationStatements u) (RollbackStatements u) s)
    end
  else Ok u.

(** The fields of a role entry other than its statement set: their zero
    value and how one object member is decoded into them. *)
Class RestDecoder (Rest : Type) : Type := {
  rest_zero : Rest;
  rest_member : string -> value -> Rest -> result Rest
}.

Section RoleEntry.
Context {Rest : Type} `{RestDecoder Rest}.

(** Modelled from the spec: the canonical role record keeps its statement
    set under [statements]; every other member goes to the remaining
    fields. *)
Definition member_roleEntry (k : string) (v : value) (r : roleEntry Rest)
  : result (roleEntry Rest) :=
  if equalFoldRight "statements" k then
    match into_struct member_Statements v (Statements r) with
    | Err e => Err e
    | Ok s => Ok (mkRoleEntry s (rest r))
    end
  else
    match rest_member k v (rest r) with
    | Err e => Err e
    | Ok o => Ok (mkRoleEntry (Statements r) o)
    end.

Definition decode_roleEntry (entry : StorageEntry) : result (roleEntry Rest) :=
  match entry with
  | None => Err syntaxError
  | Some v =>
      into_struct member_roleEntry v
        (mkRoleEntry (mkStatements "" "" "" "") rest_zero)
  end.

#[export] Instance json_RoleDecoder : RoleDecoder StorageEntry Rest := {
  DecodeJSON_upgradeCheck := decode_upgradeCheck;
  DecodeJSON_roleEntry := decode_roleEntry
}.

End RoleEntry.

(** The statement set as an object, the creation statement stored under
    [creation_key]. *)
Definition statements_object (creation_key : string) (st : Statements_) : value :=
  JObject [ (creation_key, JString (CreationStatements st));
            ("revocation_statements", JString (RevocationStatements st));
            ("rollback_statements", JString (RollbackStatements st));
            ("renew_statements", JString (RenewStatements st)) ].

(** A record as the legacy version wrote it, and the same record under the
    canonical field names; [before] and [after] are the members of the other
    fields. *)
Definition legacy_record (before after : list (string * value)) (st : Statements_) : value :=
  JObject (before ++ ("statments", statements_object "creation_statments" st) :: after).

Definition canonical_record (before after : list (string * value)) (st : Statements_) : value :=
  JObject (before ++ ("statements", statements_object "creation_statements" st) :: after).

(** The legacy view that carries the statement set [st]. *)
Definition as_upgrade (st : Statements_) : upgradeCheck :=
  mkUpgradeCheck
    (mkUpgradeStatements (CreationStatements st) (RevocationStatements st)
       (RollbackStatements st) (RenewStatements st)).

(** A record that carries a statement set under the legacy names and
    another one under the canonical names. *)
Definition mixed_record (before mid after : list (string * value))
    (legacy canonical : Statements_) : value :=
  JObject (before
           ++ ("statments", statements_object "creation_statments" legacy)
           :: mid
           ++ ("statements", statements_object "creation_statements" canonical)
           :: after).

(** A record whose legacy key holds [v]. *)
Definition legacy_keyed_record (before after : list (string * value)) (v : value) : value :=
  JObject (before ++ ("statments", v) :: after).

(** The JSON values a struct can be decoded from. *)
Definition struct_like (v : value) : bool :=
  match v with
  | JObject _ | JNull => true
  | _ => false
  end.

(** A member that neither decoder takes for a statement set. *)
Definition other_member (m : string * value) : bool :=
  negb (equalFoldRight "statments" (fst m)) && negb (equalFoldRight "statements" (fst m)).

(** A store holding one role record. *)
Definition store_of (roleName : string) (record : value) : Storage StorageEntry :=
  mkStorage (fun path =>
    if String.eqb path ("role/" +:+ roleName) then Ok (Some (Some record)) else Ok None).

End json.

(** ** helper/tlsutil: the supported-version table

    [tlsutil.TLSLookup] maps a version identifier to the protocol version
    number; the table is declared outside the sources at hand and is a
    parameter of everything that consults it. *)

Module tlsutil.

Class Lookup : Type := {
  TLSLookup : gmap string Z
}.

(** The identifiers are ordered like the versions they name. *)
Definition ordered_like_versions `{Lookup} : Prop :=
  forall a b va vb,
    TLSLookup !! a = Some va -> TLSLookup !! b = Some vb ->
    (string_lt a b = true <-> va < vb).

End tlsutil.

(** ** helper/ldap/config.go *)

Module ldap.
Import tlsutil.

(** [type Configuration struct] *)
Record Configuration : Type := mkConfiguration {
  Url : string;
  UserDN : string;
  GroupDN : string;
  GroupFilter : string;
  GroupAttr : string;
  UPNDomain : string;
  UserAttr : string;
  Certificate : string;
  InsecureTLS : bool;
  StartTLS : bool;
  BindDN : string;
  BindPassword : string;
  DenyNullBind : bool;
  DiscoverDN : bool;
  TLSMinVersion : string;
  TLSMaxVersion : string
}.

(** [*framework.FieldData]: one projection per [fieldData.Get(key)] of the
    source, at the type its type assertion asks for. *)
Record FieldData : Type := mkFieldData {
  Get_url : string;
  Get_userattr : string;
  Get_userdn : string;
  Get_groupdn : string;
  Get_groupfilter : string;
  Get_groupattr : string;
  Get_upndomain : string;
  Get_certificate : string;
  Get_insecure_tls : bool;
  Get_tls_min_version : string;
  Get_tls_max_version : string;
  Get_starttls : bool;
  Get_binddn : string;
  Get_bindpass : string;
  Get_deny_null_bind : bool;
  Get_discoverdn : bool
}.

(** [*pem.Block] *)
Record Block : Type := mkBlock {
  Block_Type : string;
  Block_Bytes : string
}.

(** Library functions of the standard distribution used while parsing:
    [strings.ToLower], [template.New(..).Parse], [pem.Decode] (its first
    result, [None] for nil) and [x509.ParseCertificate]. *)
Class Parsers : Type := {
  strings_ToLower : string -> string;
  template_Parse : string -> option string;
  pem_Decode : string -> option Block;
  x509_ParseCertificate : string -> option string
}.

Definition nonempty (s : string) : bool := negb (String.eqb s "").

Section NewConfiguration.
Context `{Parsers} `{Lookup}.

(** The group filter check: the template must parse. *)
Definition check_groupfilter (groupfilter : string) : option error :=
  if nonempty groupfilter then
    match template_Parse groupfilter with
    | Some err => Some (fmt_Errorf "invalid groupfilter (%v)" [ArgError (Foreign err)])
    | None => None
    end
  else None.

(** The certificate check: a PEM block of type CERTIFICATE that parses. *)
Definition check_certificate (certificate : string) : option error :=
  if nonempty certificate then
    match pem_Decode certificate with
    | None => Some (fmt_Errorf "failed to decode PEM block in the certificate" [])
    | Some block =>
        if negb (String.eqb (Block_Type block) "CERTIFICATE")
        then Some (fmt_Errorf "failed to decode PEM block in the certificate" [])
        else
          match x509_ParseCertificate (Block_Bytes block) with
          | Some err =>
              Some (fmt_Errorf "failed to parse certificate %s" [ArgString err])
          | None => None
          end
    end
  else None.

(** The protocol version checks, lines 68 to 90 of the source. *)
Definition check_tls_versions (tlsMin tlsMax : string) : option error :=
  if String.eqb tlsMin "" then
    Some (fmt_Errorf "failed to get 'tls_min_version' value" [])
  else
    match TLSLookup !! tlsMin with
    | None => Some (fmt_Errorf "invalid 'tls_min_version'" [])
    | Some _ =>
        if String.eqb tlsMax "" then
          Some (fmt_Errorf "failed to get 'tls_max_version' value" [])
        else
          match TLSLookup !! tlsMax with
          | None => Some (fmt_Errorf "invalid 'tls_max_version'" [])
          | Some _ =>
              if string_lt tlsMax tlsMin then
                Some (fmt_Errorf
                  "'tls_max_version' must be greater than or equal to 'tls_min_version'" [])
              else None
          end
    end.

(** [func NewConfiguration(fieldData *framework.FieldData)].  Every field of
    [conf] is assigned at most once, starting from the zero value, so the
    result is built in one step once the three checks have passed, each
    field keeping the guard of its assignment. *)
Definition NewConfiguration (fieldData : FieldData) : result Configuration :=
  let url := Get_url fieldData in
  let userattr := Get_userattr fieldData in
  let userdn := Get_userdn fieldData in
  let groupdn := Get_groupdn fieldData in
  let groupfilter := Get_groupfilter fieldData in
  match check_groupfilter groupfilter with
  | Some err => Err err
  | None =>
      let groupattr := Get_groupattr fieldData in
      let upndomain := Get_upndomain fieldData in
      let certificate := Get_certificate fieldData in
      match check_certificate certificate with
      | Some err => Err err
      | None =>
          let insecureTLS := Get_insecure_tls fieldData in
          let tlsMin := Get_tls_min_version fieldData in
          let tlsMax := Get_tls_max_version fieldData in
          match check_tls_versions tlsMin tlsMax with
          | Some err => Err err
          | None =>
              let startTLS := Get_starttls fieldData in
              let bindDN := Get_binddn fieldData in
              let bindPass := Get_bindpass fieldData in
              let denyNullBind := Get_deny_null_bind fieldData in
              let discoverDN := Get_discoverdn fieldData in
              Ok {| Url := if nonempty url then strings_ToLower url else "";
                    UserDN := if nonempty userdn then userdn else "";
                    GroupDN := if nonempty groupdn then groupdn else "";
                    GroupFilter := if nonempty groupfilter then groupfilter else "";
                    GroupAttr := if nonempty groupattr then groupattr else "";
                    UPNDomain := if nonempty upndomain then upndomain else "";
                    UserAttr := if nonempty userattr then strings_ToLower userattr else "";
                    Certificate := if nonempty certificate then certificate else "";
                    InsecureTLS := if insecureTLS then insecureTLS else false;
                    StartTLS := if startTLS then startTLS else false;
                    BindDN := if nonempty bindDN then bindDN else "";
                    BindPassword := if nonempty bindPass then bindPass else "";
                    DenyNullBind := if denyNullBind then denyNullBind else false;
                    DiscoverDN := if discoverDN then discoverDN else false;
                    TLSMinVersion := tlsMin;
                    TLSMaxVersion := tlsMax |}
          end
      end
  end.

End NewConfiguration.

End ldap.

(** ** helper/activedirectory/client.go *)

Module activedirectory.
Import tlsutil.
Import ldap.

(** [*ldap.Conn]: a transport connection, identified by the network. *)
Definition Conn : Type := nat.

(** [*ldap.Entry] *)
Record Entry : Type := mkEntry {
  DN : string;
  Attributes : list (string * list string)
}.

(** [ldap.SearchRequest], the fields the client sets. *)
Record SearchRequest : Type := mkSearchRequest {
  BaseDN : string;
  Scope : Z;
  Filter : string
}.

(** [ldap.PartialAttribute] *)
Record PartialAttribute : Type := mkPartialAttribute {
  AttrType : string;
  AttrVals : list string
}.

(** [ldap.ModifyRequest], the fields the client sets. *)
Record ModifyRequest : Type := mkModifyRequest {
  ModifyDN : string;
  ReplaceAttributes : list PartialAttribute
}.

(** [tls.Config], the fields the client sets; [RootCAs] is the pool built
    from the configured PEM text. *)
Record tlsConfig_ : Type := mkTlsConfig {
  ServerName : string;
  MinVersion : Z;
  MaxVersion : Z;
  InsecureSkipVerify : bool;
  RootCAs : option string
}.

(** [*url.URL], the fields the client reads. *)
Record URL : Type := mkURL {
  Scheme : string;
  Host : string
}.

(** Pure library functions: [url.Parse], [net.SplitHostPort] ([None] when it
    reports an error), [AppendCertsFromPEM] of a certificate pool and the
    UTF-16 little-endian encoder of [golang.org/x/text]. *)
Class Library : Type := {
  url_Parse : string -> string + URL;
  net_SplitHostPort : string -> option (string * string);
  AppendCertsFromPEM : string -> bool;
  utf16le_String : string -> string + string
}.

(** The directory servers: every call is a transition of [Env]. *)
Class Network (Env : Type) : Type := {
  ldap_Dial : string -> string -> Env -> (string + Conn) * Env;
  ldap_DialTLS : string -> string -> tlsConfig_ -> Env -> (string + Conn) * Env;
  conn_StartTLS : Conn -> tlsConfig_ -> Env -> option string * Env;
  conn_Search : Conn -> SearchRequest -> Env -> (string + list Entry) * Env;
  conn_Modify : Conn -> ModifyRequest -> Env -> option string * Env;
  conn_Close : Conn -> Env -> Env
}.

Inductive event : Type :=
| EvDial (network address : string)
| EvDialTLS (network address : string) (config : tlsConfig_)
| EvStartTLS (conn : Conn) (config : tlsConfig_)
| EvSearch (conn : Conn) (req : SearchRequest)
| EvModify (conn : Conn) (req : ModifyRequest)
| EvClose (conn : Conn).

Definition is_modify (e : event) : bool :=
  match e with EvModify _ _ => true | _ => false end.

Definition is_dial (e : event) : bool :=
  match e with EvDial _ _ | EvDialTLS _ _ _ => true | _ => false end.

(** The events of establishing a connection: dialling and upgrading. *)
Definition is_setup (e : event) : bool :=
  match e with
  | EvDial _ _ | EvDialTLS _ _ _ | EvStartTLS _ _ => true
  | _ => false
  end.

Record world (Env : Type) : Type := mkWorld {
  env : Env;
  trace : list event
}.
Arguments mkWorld {Env} env trace.

(** [type client struct] *)
Record client : Type := mkClient {
  conf : Configuration
}.

(** [net.JoinHostPort(host, port)]: a host with a colon is put in
    brackets. *)
Definition net_JoinHostPort (host port : string) : string :=
  if Contains host ":"
  then "[" +:+ host +:+ "]:" +:+ port
  else host +:+ ":" +:+ port.

Section Client.
Context {Env : Type} `{Network Env} `{Library} `{Lookup}.

Abbreviation M := (StateM.M (world Env)).

Definition call {A} (e : event) (f : Env -> A * Env) : M A :=
  fun w => let (a, env') := f (env w) in (a, mkWorld env' (trace w ++ [e])).

(** [func (c *client) getTLSConfig(host string)] *)
Definition getTLSConfig (c : client) (host : string) : result tlsConfig_ :=
  let tlsConfig := mkTlsConfig host 0 0 false None in
  match
    (if nonempty (TLSMinVersion (conf c)) then
       match TLSLookup !! TLSMinVersion (conf c) with
       | None => Err (fmt_Errorf "invalid 'tls_min_version' in config" [])
       | Some tlsMinVersion =>
           Ok (mkTlsConfig (ServerName tlsConfig) tlsMinVersion (MaxVersion tlsConfig)
                 (InsecureSkipVerify tlsConfig) (RootCAs tlsConfig))
       end
     else Ok tlsConfig)
  with
  | Err e => Err e
  | Ok tlsConfig =>
  match
    (if nonempty (TLSMaxVersion (conf c)) then
       match TLSLookup !! TLSMaxVersion (conf c) with
       | None => Err (fmt_Errorf "invalid 'tls_max_version' in config" [])
       | Some tlsMaxVersion =>
           Ok (mkTlsConfig (ServerName tlsConfig) (MinVersion tlsConfig) tlsMaxVersion
                 (InsecureSkipVerify tlsConfig) (RootCAs tlsConfig))
       end
     else Ok tlsConfig)
  with
  | Err e => Err e
  | Ok tlsConfig =>
      let tlsConfig :=
        if InsecureTLS (conf c)
        then mkTlsConfig (ServerName tlsConfig) (MinVersion tlsConfig)
               (MaxVersion tlsConfig) true (RootCAs tlsConfig)
        else tlsConfig in
      if nonempty (Certificate (conf c)) then
        if AppendCertsFromPEM (Certificate (conf c)) then
          Ok (mkTlsConfig (ServerName tlsConfig) (MinVersion tlsConfig)
                (MaxVersion tlsConfig) (InsecureSkipVerify tlsConfig)
                (Some (Certificate (conf c))))
        else Err (fmt_Errorf "could not append CA certificate" [])
      else Ok tlsConfig
  end
  end.

(** Host and port as [connect] takes them from a parsed URL. *)
Definition hostPort (u : URL) : string * string :=
  match net_SplitHostPort (Host u) with
  | Some hp => hp
  | None => (Host u, "")
  end.

(** [func (c *client) connect(uut string)] *)
Definition connect (c : client) (uut : string) : M (result Conn) :=
  match url_Parse uut with
  | inl err => ret (Err (Foreign err))
  | inr u =>
      let (host, port) := hostPort u in
      if String.eqb (Scheme u) "ldap" then
        let port := if String.eqb port "" then "389" else port in
        r <- call (EvDial "tcp" (net_JoinHostPort host port))
                  (ldap_Dial "tcp" (net_JoinHostPort host port)) ;;
        match r with
        | inl err => ret (Err (Foreign err))
        | inr conn =>
            if StartTLS (conf c) then
              match getTLSConfig c host with
              | Err err => ret (Err err)
              | Ok tlsConfig =>
                  serr <- call (EvStartTLS conn tlsConfig) (conn_StartTLS conn tlsConfig) ;;
                  match serr with
                  | Some err => ret (Err (Foreign err))
                  | None => ret (Ok conn)
                  end
              end
            else ret (Ok conn)
        end
      else if String.eqb (Scheme u) "ldaps" then
        let port := if String.eqb port "" then "636" else port in
        match getTLSConfig c host with
        | Err err => ret (Err err)
        | Ok tlsConfig =>
            r <- call (EvDialTLS "tcp" (net_JoinHostPort host port) tlsConfig)
                      (ldap_DialTLS "tcp" (net_JoinHostPort host port) tlsConfig) ;;
            match r with
            | inl err => ret (Err (Foreign err))
            | inr conn => ret (Ok conn)
            end
        end
      else
        ret (Err (fmt_Errorf "invalid LDAP scheme in url %q"
                    [ArgString (net_JoinHostPort host port)]))
  end.

(** The entry [getConnection] appends to its error for a host that failed. *)
Definition hostError (uut : string) (err : error) : error :=
  fmt_Errorf "error parsing url %q: %s" [ArgString uut; ArgError err].

(** [all_fail c urls w errs w']: tried one after the other from world [w],
    every URL of [urls] fails; [errs] lists the failures in that order and
    [w'] is the world after the last attempt. *)
Inductive all_fail (c : client) : list string -> world Env -> list error -> world Env -> Prop :=
| all_fail_nil (w : world Env) : all_fail c [] w [] w
| all_fail_cons (uut : string) (urls : list string) (w w1 w2 : world Env)
    (err : error) (errs : list error) :
    connect c uut w = (Err err, w1) ->
    all_fail c urls w1 errs w2 ->
    all_fail c (uut :: urls) w (hostError uut err :: errs) w2.

(** [failures c urls w causes w']: tried one after the other from world [w],
    each attempt starting in the world the one before it left, every URL of
    [urls] fails in [connect]; [causes] lists the errors [connect] returned,
    in that order, and [w'] is the world after the last attempt. *)
Inductive failures (c : client) : list string -> world Env -> list error -> world Env -> Prop :=
| failures_nil (w : world Env) : failures c [] w [] w
| failures_cons (uut : string) (urls : list string) (w w1 w2 : world Env)
    (cause : error) (causes : list error) :
    connect c uut w = (Err cause, w1) ->
    failures c urls w1 causes w2 ->
    failures c (uut :: urls) w (cause :: causes) w2.

(** The modify requests of a trace. *)
Definition modifies (t : list event) : list event := List.filter is_modify t.

(** The loop of [getConnection] over the URLs still to try, [retErr] holding
    the failures so far. *)
Fixpoint tryURLs (c : client) (urls : list string) (retErr : list error)
  : M (result Conn) :=
  match urls with
  | [] => ret (Err (multierror retErr))
  | uut :: urls' =>
      r <- connect c uut ;;
      match r with
      | Err err => tryURLs c urls' (retErr ++ [hostError uut err])
      | Ok conn => ret (Ok conn)
      end
  end.

(** [func (c *client) getConnection()] *)
Definition getConnection (c : client) : M (result Conn) :=
  tryURLs c (Split (Url (conf c)) ",") [].

Definition Close (conn : Conn) : M unit :=
  call (EvClose conn) (fun e => (tt, conn_Close conn e)).

(** [func (c *client) Search(baseDN, filter)] *)
Definition Search (c : client) (baseDN filter : string) : M (result (list Entry)) :=
  let req := mkSearchRequest baseDN 2 filter in
  r <- getConnection c ;;
  match r with
  | Err err => ret (Err err)
  | Ok conn =>
      sr <- call (EvSearch conn req) (conn_Search conn req) ;;
      Close conn ;;;
      match sr with
      | inl err => ret (Err (Foreign err))
      | inr entries => ret (Ok entries)
      end
  end.

(** The request [UpdatePassword] sends for the entry it found. *)
Definition passReq (entry : Entry) (pwdEncoded : string) : ModifyRequest :=
  mkModifyRequest (DN entry) [mkPartialAttribute "unicodePwd" [pwdEncoded]].

(** The one-byte string holding a double quote (byte 34). *)
Definition quote : string := String "034" EmptyString.

(** [func (c *client) UpdatePassword(baseDN, filter, newPassword) error] *)
Definition UpdatePassword (c : client) (baseDN filter newPassword : string)
  : M (option error) :=
  r <- Search c baseDN filter ;;
  match r with
  | Err err => ret (Some err)
  | Ok entries =>
      if negb (Nat.eqb (List.length entries) 1) then
        ret (Some (fmt_Errorf "password filter of %s doesn't match just one entry: %s"
                     [ArgString filter; ArgOpaque]))
      else
        match utf16le_String (quote +:+ newPassword +:+ quote) with
        | inl err => ret (Some (Foreign err))
        | inr pwdEncoded =>
            match entries with
            | [] => ret (Some (Panic "index out of range"))
            | entry0 :: _ =>
                r <- getConnection c ;;
                match r with
                | Err err => ret (Some err)
                | Ok conn =>
                    merr <- call (EvModify conn (passReq entry0 pwdEncoded))
                                 (conn_Modify conn (passReq entry0 pwdEncoded)) ;;
                    Close conn ;;;
                    match merr with
                    | Some err => ret (Some (Foreign err))
                    | None => ret None
                    end
                end
            end
        end
  end.

(** The request [UpdateUsername] sends for the entry it found. *)
Definition modifyRequest (entry : Entry) (newUsername : string) : ModifyRequest :=
  mkModifyRequest (DN entry) [mkPartialAttribute "givenName" [newUsername]].

(** [func (c *client) UpdateUsername(baseDN, filter, newUsername) error] *)
Definition UpdateUsername (c : client) (baseDN filter newUsername : string)
  : M (option error) :=
  r <- Search c baseDN filter ;;
  match r with
  | Err err => ret (Some err)
  | Ok entries =>
      if negb (Nat.eqb (List.length entries) 1) then
        ret (Some (fmt_Errorf "update filter of %s doesn't match just one entry: %s"
                     [ArgString filter; ArgOpaque]))
      else
        match entries with
        | [] => ret (Some (Panic "index out of range"))
        | entry0 :: _ =>
            r <- getConnection c ;;
            match r with
            | Err err => ret (Some err)
            | Ok conn =>
                merr <- call (EvModify conn (modifyRequest entry0 newUsername))
                             (conn_Modify conn (modifyRequest entry0 newUsername)) ;;
                Close conn ;;;
                match merr with
                | Some err => ret (Some (Foreign err))
                | None => ret None
                end
            end
        end
  end.

(** The releases and the dials of a trace. *)
Definition is_close (e : event) : bool :=
  match e with EvClose _ => true | _ => false end.

Definition closes (t : list event) : list event := List.filter is_close t.

End Client.

End activedirectory.

(** ** A capability backed by SQL producers

    The cache of [database] holds [dbplugin.Database] values.  Here such a
    value is a reference to a [SQLConnectionProducer] kept in a store, and
    [Initialize] and [Close] are the producer's own methods run on the
    referenced object. *)

Module sqlplugin.

Record Env (E : Type) : Type := mkEnv {
  heap : gmap nat connutil.SQLConnectionProducer;
  next : nat;
  driver_env : E;
  driver_trace : list connutil.event
}.
Arguments mkEnv {E} heap next driver_env driver_trace.

Section Plugin.
Context {E : Type} `{connutil.Driver E} `{connutil.Decoding}.

(** Run a method of the producer referenced by [h], writing the object
    back. *)
Definition on_producer {A} (h : nat) (m : StateM.M (connutil.state E) A)
    (dangling : A) (e : Env E) : A * Env E :=
  match heap e !! h with
  | None => (dangling, e)
  | Some p =>
      let (a, s) := m (connutil.mkState p (driver_env e) (driver_trace e)) in
      (a, mkEnv (<[h := connutil.c s]> (heap e)) (next e)
            (connutil.env s) (connutil.trace s))
  end.

Definition new_producer (pluginName : string) (e : Env E) : result nat * Env E :=
  (Ok (next e),
   mkEnv (<[next e := connutil.zero pluginName]> (heap e)) (S (next e))
     (driver_env e) (driver_trace e)).

Definition initialize (h : nat) (conf : connutil.Conf) (verifyConnection : bool)
  : Env E -> option error * Env E :=
  on_producer h
    (r <- connutil.Initialize conf verifyConnection ;;
     match r with
     | Ok _ => ret None
     | Err err => ret (Some err)
     end)
    (Some (Panic "nil pointer dereference")).

Definition close (h : nat) : Env E -> option error * Env E :=
  on_producer h connutil.Close (Some (Panic "nil pointer dereference")).

#[export] Instance capability : database.Capability (Env E) nat := {
  database.PluginFactory := new_producer;
  database.db_Initialize := initialize;
  database.db_Close := close
}.

End Plugin.

End sqlplugin.

(** ** Stand-ins for the outside world, used to run the code on inputs *)

Module sim.

(** *** A database server and driver registry *)

Record sql_env : Type := mk_sql_env {
  registered : list string;
  reachable : bool;
  next_handle : nat
}.

(** [sql.Open] fails exactly for a driver name that is not registered; it
    does not look at the data source name and does not contact the
    server. *)
Definition sim_Open (driverName dataSourceName : string) (e : sql_env)
  : (string + connutil.DB) * sql_env :=
  if negb (existsb (String.eqb driverName) (registered e))
  then (inl "sql: unknown driver", e)
  else (inr (next_handle e), mk_sql_env (registered e) (reachable e) (S (next_handle e))).

Definition sim_Ping (h : connutil.DB) (e : sql_env) : option string * sql_env :=
  if reachable e then (None, e) else (Some "dial tcp: connection refused", e).

Definition sim_Close (h : connutil.DB) (e : sql_env) : option string * sql_env :=
  (None, e).

#[export] Instance sql_driver : connutil.Driver sql_env := {
  connutil.sql_Open := sim_Open;
  connutil.db_PingContext := sim_Ping;
  connutil.db_Close := sim_Close
}.

(** A decoder for configuration maps whose values already have the type of
    the field they are meant for. *)
Definition field_string (conf : connutil.Conf) (key : string) (old : string)
  : option string :=
  match conf !! key with
  | None => Some old
  | Some (connutil.VString s) => Some s
  | Some _ => None
  end.

Definition field_int (conf : connutil.Conf) (key : string) (old : Z) : option Z :=
  match conf !! key with
  | None => Some old
  | Some (connutil.VInt n) => Some n
  | Some _ => None
  end.

Definition field_bool (conf : connutil.Conf) (key : string) (old : bool)
  : option bool :=
  match conf !! key with
  | None => Some old
  | Some (connutil.VBool b) => Some b
  | Some _ => None
  end.

(** The tagged fields are decoded from the keys their tags name; the
    exported fields [Type] and [Initialized] carry no tag and are decoded
    from the keys of their own names.  A key that is absent leaves its field
    as it is. *)
Definition sim_WeakDecode (conf : connutil.Conf) (p : connutil.SQLConnectionProducer)
  : option string * connutil.SQLConnectionProducer :=
  match field_string conf "connection_url" (connutil.ConnectionURL p),
        field_int conf "max_open_connections" (connutil.MaxOpenConnections p),
        field_int conf "max_idle_connections" (connutil.MaxIdleConnections p),
        field_string conf "username" (connutil.Username p),
        field_string conf "password" (connutil.Password p),
        field_string conf "Type" (connutil.Type_ p),
        field_bool conf "Initialized" (connutil.Initialized p) with
  | Some url, Some mo, Some mi, Some u, Some pw, Some ty, Some ini =>
      (None,
       connutil.mkProducer url mo mi
         (match conf !! "max_connection_lifetime" with
          | Some v => Some v
          | None => connutil.MaxConnectionLifetimeRaw p
          end)
         u pw ty (connutil.maxConnectionLifetime p) ini (connutil.db p))
  | _, _, _, _, _, _, _ => (Some "mapstructure: cannot decode", p)
  end.

Definition sim_ParseDurationSecond (v : connutil.value) : Z * option string :=
  match v with
  | connutil.VInt n => (n * 1000000000, None)
  | connutil.VString s =>
      if String.eqb s "0s" then (0, None) else (0, Some "time: invalid duration")
  | connutil.VBool _ => (0, Some "could not parse duration")
  end.

#[export] Instance decoding : connutil.Decoding := {
  connutil.WeakDecode := sim_WeakDecode;
  connutil.ParseDurationSecond := sim_ParseDurationSecond
}.

(** A fresh producer for [driverName], facing a server that answers pings
    or does not. *)
Definition fresh (driverName : string) (up : bool) : connutil.state sql_env :=
  connutil.mkState (connutil.zero driverName)
    (mk_sql_env ["postgres"; "mysql"] up 0) [].

Definition conf_5_0 : connutil.Conf :=
  {[ "connection_url" := connutil.VString "postgres://db/app";
     "max_open_connections" := connutil.VInt 5 ]}.

Definition conf_5_10 : connutil.Conf :=
  {[ "connection_url" := connutil.VString "postgres://db/app";
     "max_open_connections" := connutil.VInt 5;
     "max_idle_connections" := connutil.VInt 10 ]}.

Definition conf_mysql : connutil.Conf :=
  {[ "connection_url" := connutil.VString "app:secret@tcp(db:3306)/" ]}.

Definition conf_retype : connutil.Conf :=
  {[ "Type" := connutil.VString "oracle" ]}.

(** A producer of type mysql that was initialized, handed out a handle, and
    was then initialized again, without verification, with a map that sets
    [Type] to a driver name that is not registered; the server does not
    answer pings. *)
Definition reconfigured : connutil.state sql_env :=
  let s1 := snd (connutil.Initialize conf_mysql false (fresh "mysql" false)) in
  let s2 := snd (connutil.Connection s1) in
  snd (connutil.Initialize conf_retype false s2).

(** A producer after [Initialize] without verification. *)
Definition initialized : connutil.state sql_env :=
  snd (connutil.Initialize conf_5_10 false (fresh "postgres" true)).

(** *** Stored connection configurations, already decoded *)

#[export] Instance config_decoder : database.ConfigDecoder database.DatabaseConfig_ := {
  database.DecodeJSON_DatabaseConfig := fun entry => Ok entry
}.

Definition one_config (name : string) (config : database.DatabaseConfig_)
  : database.Storage database.DatabaseConfig_ :=
  database.mkStorage (fun path =>
    if String.eqb path ("config/" +:+ name) then Ok (Some config) else Ok None).

(** An empty cache over SQL producers, a store with one configuration, and
    the cache after a first [GetConnection]. *)
Definition backend0 (up : bool)
  : database.databaseBackend (sqlplugin.Env sql_env) nat :=
  database.mkBackend ∅
    (sqlplugin.mkEnv ∅ 0%nat (mk_sql_env ["postgres"; "mysql"] up 0) []) [].

Definition store_pg (details : connutil.Conf) : database.Storage database.DatabaseConfig_ :=
  one_config "pg" (database.mkDatabaseConfig "postgres" details).

#[local] Existing Instance sqlplugin.capability.

Definition cached : database.databaseBackend (sqlplugin.Env sql_env) nat :=
  snd (database.GetConnection (store_pg conf_5_10) "pg" (backend0 true)).

(** A capability whose instances refuse to close while the flag is set. *)
Definition stubborn : database.Capability bool nat := {|
  database.PluginFactory := fun (_ : string) (e : bool) => (Ok 0%nat, e);
  database.db_Initialize :=
    fun (_ : nat) (_ : connutil.Conf) (_ : bool) (e : bool) => (None, e);
  database.db_Close := fun (_ : nat) (e : bool) =>
    if e then (Some (Foreign "rpc: close failed"), e) else (None, e)
|}.

Definition stuck : database.databaseBackend bool nat :=
  database.mkBackend {[ "pg" := 0%nat ]} true [].

(** *** A role entry whose only other field is a database name *)

#[export] Instance rest_db_name : json.RestDecoder string := {
  json.rest_zero := "";
  json.rest_member := fun k v old =>
    if json.equalFoldRight "db_name" k then json.into_string v old else Ok old
}.

(** *** The table of version identifiers: tls10, tls11, tls12 *)

#[export] Instance tls_table : tlsutil.Lookup := {
  tlsutil.TLSLookup := {[ "tls10" := 769; "tls11" := 770; "tls12" := 771 ]}
}.

Definition role_statements : database.Statements_ :=
  database.mkStatements
    "CREATE ROLE {{name}} WITH LOGIN PASSWORD '{{password}}';"
    "DROP ROLE {{name}};" "" "".

Definition role_before : list (string * json.value) :=
  [("db_name", json.JString "app")].

Definition role_after : list (string * json.value) :=
  [("default_ttl", json.JNumber "3600")].

Definition legacy_creation_only : database.Statements_ :=
  database.mkStatements "CREATE USER {{name}};" "" "" "".

(** *** Parsers for the directory configuration *)

Definition lower (a : ascii) : ascii :=
  if json.isUpperLetter a then ascii_of_N (N_of_ascii a + 32) else a.

Fixpoint sim_ToLower (s : string) : string :=
  match s with
  | EmptyString => EmptyString
  | String a s' => String (lower a) (sim_ToLower s')
  end.

(** A template with an action that is opened and never closed does not
    parse; a text without the PEM armour decodes to no block. *)
#[export] Instance parsers : ldap.Parsers := {
  ldap.strings_ToLower := sim_ToLower;
  ldap.template_Parse := fun s =>
    if Contains s "{{" && negb (Contains s "}}")
    then Some "template: queryTemplate:1: unclosed action" else None;
  ldap.pem_Decode := fun s =>
    if Contains s "-----BEGIN CERTIFICATE-----"
    then Some (ldap.mkBlock "CERTIFICATE" s) else None;
  ldap.x509_ParseCertificate := fun _ => None
}.

(** Field data with the given certificate text and version identifiers. *)
Definition field_data (certificate tlsMin tlsMax : string) : ldap.FieldData :=
  ldap.mkFieldData "LDAP://DC1.example.com" "cn" "" "" "" "" "" certificate false
    tlsMin tlsMax false "" "" false false.

(** *** Directory servers *)

(** [dials_left] connections are still accepted; [directory] lists, for a
    filter, the entries it matches. *)
Record net_env : Type := mk_net_env {
  dials_left : nat;
  next_conn : nat;
  directory : list (string * activedirectory.Entry)
}.

Definition sim_dial (e : net_env) : (string + activedirectory.Conn) * net_env :=
  match dials_left e with
  | O => (inl "LDAP Result Code 200: connection refused", e)
  | S n => (inr (next_conn e), mk_net_env n (S (next_conn e)) (directory e))
  end.

Definition matching (e : net_env) (req : activedirectory.SearchRequest)
  : list activedirectory.Entry :=
  map snd (List.filter (fun fe => String.eqb (fst fe) (activedirectory.Filter req))
             (directory e)).

#[export] Instance network : activedirectory.Network net_env := {
  activedirectory.ldap_Dial := fun _ _ => sim_dial;
  activedirectory.ldap_DialTLS := fun _ _ _ => sim_dial;
  activedirectory.conn_StartTLS := fun _ _ e => (None, e);
  activedirectory.conn_Search := fun _ req e => (inr (matching e req), e);
  activedirectory.conn_Modify := fun _ _ e => (None, e);
  activedirectory.conn_Close := fun _ e => e
}.

(** The same servers, refusing the STARTTLS extended operation. *)
Definition refusing_starttls : activedirectory.Network net_env := {|
  activedirectory.ldap_Dial := fun (_ _ : string) => sim_dial;
  activedirectory.ldap_DialTLS :=
    fun (_ _ : string) (_ : activedirectory.tlsConfig_) => sim_dial;
  activedirectory.conn_StartTLS :=
    fun (_ : activedirectory.Conn) (_ : activedirectory.tlsConfig_) (e : net_env) =>
      (Some "LDAP Result Code 2: unsupported extended operation", e);
  activedirectory.conn_Search :=
    fun (_ : activedirectory.Conn) (req : activedirectory.SearchRequest) (e : net_env) =>
      (inr (matching e req), e);
  activedirectory.conn_Modify :=
    fun (_ : activedirectory.Conn) (_ : activedirectory.ModifyRequest) (e : net_env) =>
      (None, e);
  activedirectory.conn_Close := fun (_ : activedirectory.Conn) (e : net_env) => e
|}.

(** URLs of the form scheme://host or scheme://host:port. *)
Fixpoint split_at_scheme (s : string) : option (string * string) :=
  match s with
  | EmptyString => None
  | String a s' =>
      if String.prefix "://" s then Some (EmptyString, substring 3 (String.length s) s)
      else match split_at_scheme s' with
           | Some (scheme, host) => Some (String a scheme, host)
           | None => None
           end
  end.

Definition sim_url_Parse (s : string) : string + activedirectory.URL :=
  match split_at_scheme s with
  | Some (scheme, host) => inr (activedirectory.mkURL scheme host)
  | None => inr (activedirectory.mkURL "" "")
  end.

Fixpoint sim_SplitHostPort (s : string) : option (string * string) :=
  match s with
  | EmptyString => None
  | String a s' =>
      match sim_SplitHostPort s' with
      | Some (host, port) => Some (String a host, port)
      | None => if Ascii.eqb a ":" then Some (EmptyString, s') else None
      end
  end.

(** UTF-16 little-endian for 7-bit text: every byte followed by a zero. *)
Fixpoint utf16le_ascii (s : string) : string :=
  match s with
  | EmptyString => EmptyString
  | String a s' => String a (String "000" (utf16le_ascii s'))
  end.

(** A directory configuration with the given server list. *)
Definition directory_conf (url : string) (startTLS : bool) : ldap.Configuration :=
  ldap.mkConfiguration url "" "" "" "" "" "" "" false startTLS "" "" false false
    "tls12" "tls12".

Definition svc_entry : activedirectory.Entry :=
  activedirectory.mkEntry "CN=svc,OU=Service Accounts,DC=example,DC=com" [].

(** A network that accepts [n] more connections and a directory in which
    one entry matches the filter (cn=svc). *)
Definition ad_world (n : nat) : activedirectory.world net_env :=
  activedirectory.mkWorld (mk_net_env n 0 [("(cn=svc)", svc_entry)]) [].

(** A client with one server, and one with three. *)
Definition dc1 : activedirectory.client :=
  activedirectory.mkClient (directory_conf "ldap://dc1.example.com" false).

Definition three_hosts : activedirectory.client :=
  activedirectory.mkClient
    (directory_conf "ldap://dc1.example.com,ldaps://dc2.example.com:3269,http://dc3" true).

(** A client with one server that is asked to upgrade with STARTTLS. *)
Definition dc1_starttls : activedirectory.client :=
  activedirectory.mkClient (directory_conf "ldap://dc1.example.com" true).

#[export] Instance library : activedirectory.Library := {
  activedirectory.url_Parse := sim_url_Parse;
  activedirectory.net_SplitHostPort := sim_SplitHostPort;
  activedirectory.AppendCertsFromPEM := fun s => Contains s "-----BEGIN CERTIFICATE-----";
  activedirectory.utf16le_String := fun s => inr (utf16le_ascii s)
}.

End sim.

(** * Properties *)

Unset Implicit Arguments.

(** ** The SQL connection producer *)

Module ProducerFacts.
Import connutil.

Ltac run :=
  unfold Initialize, verify, Connection, Close, PingContext, DB_Close, Open,
    call, emit, modify_c, get_c, bind, ret in *;
  cbn [c env trace fst snd] in *.

Section Facts.
Context {Env : Type} `{Driver Env} `{Decoding}.

Lemma Connection_uninitialized (s : state Env) :
  Initialized (c s) = false -> Connection s = (Err ErrNotInitialized, s).
Proof. intros Hi. run. now rewrite Hi. Qed.

Lemma Connection_no_handle (s : state Env) :
  Initialized (c s) = true -> db (c s) = None ->
  Connection s
  = rebuilt (c s) (trace s) (sql_Open (dbType (c s)) (connString (c s)) (env s)).
Proof.
  intros Hi Hd. run. rewrite Hi, Hd. cbn.
  destruct (sql_Open _ _ _) as [[err|h] e]; cbn; [reflexivity|].
  now rewrite <- !app_assoc.
Qed.

Lemma Connection_ping_ok (s : state Env) (h : DB) (e : Env) :
  Initialized (c s) = true -> db (c s) = Some h ->
  db_PingContext h (env s) = (None, e) ->
  Connection s = (Ok h, mkState (c s) e (trace s ++ [EvPing h])).
Proof. intros Hi Hd Hp. run. rewrite Hi, Hd. cbn. now rewrite Hp. Qed.

Lemma Connection_ping_failed (s : state Env) (h : DB) (perr : string) (e : Env) :
  Initialized (c s) = true -> db (c s) = Some h ->
  db_PingContext h (env s) = (Some perr, e) ->
  Connection s
  = rebuilt (c s) (trace s ++ [EvPing h] ++ [EvClose h])
      (sql_Open (dbType (c s)) (connString (c s)) (snd (db_Close h e))).
Proof.
  intros Hi Hd Hp. run. rewrite Hi, Hd. cbn. rewrite Hp. cbn.
  destruct (db_Close h e) as [cerr e1]. cbn.
  destruct (sql_Open _ _ _) as [[err|h'] e2]; cbn.
  - now rewrite <- !app_assoc.
  - now rewrite <- !app_assoc.
Qed.

(** [Connection] touches no field of the producer but [db]. *)
Lemma Connection_fields (s : state Env) :
  exists d, c (snd (Connection s)) = set_db d (c s).
Proof.
  destruct (Initialized (c s)) eqn:Hi.
  - destruct (db (c s)) as [h|] eqn:Hd.
    + destruct (db_PingContext h (env s)) as [[perr|] e] eqn:Hp.
      * rewrite (Connection_ping_failed _ _ _ _ Hi Hd Hp).
        destruct (sql_Open _ _ _) as [[err|h'] e2]; cbn; eauto.
      * rewrite (Connection_ping_ok _ _ _ Hi Hd Hp). cbn.
        exists (Some h). destruct (c s); cbn in *; now subst.
    + rewrite (Connection_no_handle _ Hi Hd).
      destruct (sql_Open _ _ _) as [[err|h'] e2]; cbn; eauto.
  - rewrite (Connection_uninitialized _ Hi). cbn.
    exists (db (c s)). now destruct (c s).
Qed.

(** After a successful [Connection] the producer holds the handle. *)
Lemma Connection_Ok_db (s : state Env) (h : DB) :
  fst (Connection s) = Ok h -> db (c (snd (Connection s))) = Some h.
Proof.
  destruct (Initialized (c s)) eqn:Hi.
  - destruct (db (c s)) as [h0|] eqn:Hd.
    + destruct (db_PingContext h0 (env s)) as [[perr|] e] eqn:Hp.
      * rewrite (Connection_ping_failed _ _ _ _ Hi Hd Hp).
        destruct (sql_Open _ _ _) as [[err|h'] e2]; cbn; congruence.
      * rewrite (Connection_ping_ok _ _ _ Hi Hd Hp). cbn. congruence.
    + rewrite (Connection_no_handle _ Hi Hd).
      destruct (sql_Open _ _ _) as [[err|h'] e2]; cbn; congruence.
  - rewrite (Connection_uninitialized _ Hi). cbn. discriminate.
Qed.

Lemma Connection_ErrNotInitialized (s : state Env) :
  fst (Connection s) = Err ErrNotInitialized <-> Initialized (c s) = false.
Proof.
  split.
  - destruct (Initialized (c s)) eqn:Hi; [|reflexivity].
    destruct (db (c s)) as [h0|] eqn:Hd.
    + destruct (db_PingContext h0 (env s)) as [[perr|] e] eqn:Hp.
      * rewrite (Connection_ping_failed _ _ _ _ Hi Hd Hp).
        destruct (sql_Open _ _ _) as [[err|h'] e2]; cbn; discriminate.
      * rewrite (Connection_ping_ok _ _ _ Hi Hd Hp). cbn. discriminate.
    + rewrite (Connection_no_handle _ Hi Hd).
      destruct (sql_Open _ _ _) as [[err|h'] e2]; cbn; discriminate.
  - intros Hi. now rewrite (Connection_uninitialized _ Hi).
Qed.

Lemma verify_fields (s : state Env) :
  exists d, c (snd (verify s)) = set_db d (c s).
Proof.
  unfold verify, bind.
  destruct (Connection_fields s) as [d Hd].
  destruct (Connection s) as [r s1]. cbn in Hd.
  destruct r as [h|e]; cbn; [|eauto].
  destruct (db (c s1)) as [h1|]; cbn; [|eauto].
  unfold PingContext, call.
  destruct (db_PingContext h1 (env s1)) as [[perr|] e1]; cbn; eauto.
Qed.

(** [Initialize] either stops in validation, whatever [verifyConnection]
    is, or leaves the validated producer, up to its handle. *)
Lemma Initialize_cases (conf : Conf) (v : bool) (s : state Env) :
  (is_Ok (fst (Initialize conf v s)) = false
   /\ is_Ok (fst (Initialize conf false s)) = false)
  \/ (is_Ok (fst (Initialize conf false s)) = true
      /\ exists d,
           c (snd (Initialize conf v s))
           = set_db d (validated (snd (WeakDecode conf (c s))))).
Proof.
  unfold Initialize, validated, bind, get_c, modify_c, ret. cbn.
  destruct (WeakDecode conf (c s)) as [[derr|] c1]; cbn; [now left|].
  destruct (len (ConnectionURL c1) =? 0); cbn; [now left|].
  destruct (negb (len (Username c1) =? 0) && negb (len (Password c1) =? 0)
            && (negb (Contains (ConnectionURL c1) "{{username}}")
                || negb (Contains (ConnectionURL c1) "{{password}}")));
    cbn; [now left|].
  set (c2 := defaultLifetimeRaw (clampMaxIdle (defaultMaxIdle (defaultMaxOpen c1)))).
  destruct (ParseDurationSecond (rawLifetime c2)) as [d [perr|]]; cbn; [now left|].
  right. split; [reflexivity|].
  destruct v; cbn.
  - match goal with |- context [verify ?s0] =>
      destruct (verify_fields s0) as [dv Hv]; destruct (verify s0) as [verr s3]
    end.
    cbn in Hv. exists dv. destruct verr; cbn; exact Hv.
  - exists (db c2).
    destruct c2; reflexivity.
Qed.

Lemma Initialize_Ok_validated (conf : Conf) (v : bool) (s : state Env) :
  is_Ok (fst (Initialize conf v s)) = true ->
  is_Ok (fst (Initialize conf false s)) = true.
Proof.
  intros Hok. destruct (Initialize_cases conf v s) as [[Hf _]|[Ht _]]; congruence.
Qed.

(** When validation fails, [verifyConnection] plays no part and the flag is
    as the decoding left it. *)
Lemma Initialize_invalid (conf : Conf) (v : bool) (s : state Env) :
  is_Ok (fst (Initialize conf false s)) = false ->
  Initialize conf v s = Initialize conf false s
  /\ Initialized (c (snd (Initialize conf v s)))
     = Initialized (snd (WeakDecode conf (c s))).
Proof.
  unfold Initialize, bind, get_c, modify_c, ret. cbn.
  destruct (WeakDecode conf (c s)) as [[derr|] c1]; cbn; [now split|].
  destruct (len (ConnectionURL c1) =? 0); cbn; [now split|].
  destruct (negb (len (Username c1) =? 0) && negb (len (Password c1) =? 0)
            && (negb (Contains (ConnectionURL c1) "{{username}}")
                || negb (Contains (ConnectionURL c1) "{{password}}")));
    cbn; [now split|].
  set (c2 := defaultLifetimeRaw (clampMaxIdle (defaultMaxIdle (defaultMaxOpen c1)))).
  destruct (ParseDurationSecond (rawLifetime c2)) as [d [perr|]]; cbn;
    [|discriminate].
  intros _. split; [reflexivity|]. subst c2.
  unfold defaultLifetimeRaw, clampMaxIdle, defaultMaxIdle, defaultMaxOpen.
  destruct c1 as [url mo mi raw u pw ty life ini h]. cbn.
  repeat match goal with
         | |- context [if ?b then _ else _] => destruct b; cbn
         | |- context [match ?r with Some _ => _ | None => _ end] => destruct r; cbn
         end; reflexivity.
Qed.

Lemma Close_spec (s : state Env) :
  Close s
  = (None,
     match db (c s) with
     | Some h =>
         mkState (set_db None (c s)) (snd (db_Close h (env s))) (trace s ++ [EvClose h])
     | None => mkState (set_db None (c s)) (env s) (trace s)
     end).
Proof.
  run. destruct (db (c s)) as [h|]; cbn; [|reflexivity].
  now destruct (db_Close h (env s)).
Qed.

(** C6.  Whenever [Initialize] accepts a configuration, the pool bounds it
    leaves are the defaulted ones: with [c1] the decoded producer, an unset
    (zero) max-open becomes 2; an unset max-idle becomes the resulting
    max-open; a max-idle above the resulting max-open is clamped to it; any
    other max-idle is kept.  In particular max-open 5 with max-idle 0 gives
    idle 5, and with max-idle 10 gives idle 5. *)
Theorem Initialize_pool_defaults (conf : Conf) (v : bool) (s : state Env) (saveConf : Conf) :
  fst (Initialize conf v s) = Ok saveConf ->
  let c1 := snd (WeakDecode conf (c s)) in
  let c' := c (snd (Initialize conf v s)) in
  (MaxOpenConnections c1 = 0 -> MaxOpenConnections c' = 2)
  /\ (MaxOpenConnections c1 <> 0 -> MaxOpenConnections c' = MaxOpenConnections c1)
  /\ (MaxIdleConnections c1 = 0 -> MaxIdleConnections c' = MaxOpenConnections c')
  /\ (MaxIdleConnections c1 > MaxOpenConnections c' ->
      MaxIdleConnections c' = MaxOpenConnections c')
  /\ (MaxIdleConnections c1 <> 0 -> MaxIdleConnections c1 <= MaxOpenConnections c' ->
      MaxIdleConnections c' = MaxIdleConnections c1)
  /\ (MaxOpenConnections c1 = 5 -> MaxIdleConnections c1 = 0 ->
      MaxIdleConnections c' = 5)
  /\ (MaxOpenConnections c1 = 5 -> MaxIdleConnections c1 = 10 ->
      MaxIdleConnections c' = 5).
Proof.
  intros Hok c1 c'.
  destruct (Initialize_cases conf v s) as [[Hf _]|[_ [d Hc]]].
  { rewrite Hok in Hf. discriminate. }
  subst c'. rewrite Hc. fold c1.
  unfold validated, defaultLifetimeRaw, clampMaxIdle, defaultMaxIdle, defaultMaxOpen.
  destruct c1 as [url mo mi raw u pw ty life ini h]. cbn.
  destruct (Z.eqb_spec mo 0) as [Hmo|Hmo]; cbn;
    destruct (Z.eqb_spec mi 0) as [Hmi|Hmi]; cbn;
    repeat match goal with
           | |- context [?a >? ?b] => destruct (Z.gtb_spec a b); cbn
           | |- context [match ?r with Some _ => _ | None => _ end] => destruct r; cbn
           end;
    repeat split; intros; lia.
Qed.

(** C2, as amended.  [Connection] answers with the not-initialized error
    exactly when the [Initialized] flag of the producer is unset.
    [Initialize] sets the flag once validation has passed and before the
    optional verification: it is set whenever [Initialize] returns without
    error, and equally when validation passes (the same call without
    verification succeeds) and the verification fails, after which
    [Connection] does not answer with the not-initialized error.  It is set
    only then: when validation fails, [Initialize] returns the validation
    error whatever [verifyConnection] is and leaves the flag as the decoding
    of the configuration left it.  So on a producer whose decoded flag is
    unset, the flag is set after [Initialize] exactly when validation has
    passed, and [Connection] then answers with the not-initialized error
    exactly when validation has failed. *)
Theorem Initialized_flag (conf : Conf) (v : bool) (s : state Env) :
  (fst (Connection s) = Err ErrNotInitialized <-> Initialized (c s) = false)
  /\ (is_Ok (fst (Initialize conf v s)) = true ->
      Initialized (c (snd (Initialize conf v s))) = true)
  /\ (is_Ok (fst (Initialize conf false s)) = true ->
      Initialized (c (snd (Initialize conf v s))) = true
      /\ fst (Connection (snd (Initialize conf v s))) <> Err ErrNotInitialized)
  /\ (is_Ok (fst (Initialize conf false s)) = false ->
      fst (Initialize conf v s) = fst (Initialize conf false s)
      /\ Initialized (c (snd (Initialize conf v s)))
         = Initialized (snd (WeakDecode conf (c s))))
  /\ (Initialized (snd (WeakDecode conf (c s))) = false ->
      (Initialized (c (snd (Initialize conf v s))) = true
       <-> is_Ok (fst (Initialize conf false s)) = true)
      /\ (fst (Connection (snd (Initialize conf v s))) = Err ErrNotInitialized
          <-> is_Ok (fst (Initialize conf false s)) = false)).
Proof.
  assert (Hinv : is_Ok (fst (Initialize conf false s)) = false ->
                 fst (Initialize conf v s) = fst (Initialize conf false s)
                 /\ Initialized (c (snd (Initialize conf v s)))
                    = Initialized (snd (WeakDecode conf (c s)))).
  { intros Hf. destruct (Initialize_invalid conf v s Hf) as [He Hi].
    split; [now rewrite He|exact Hi]. }
  assert (Hval : is_Ok (fst (Initialize conf false s)) = true ->
                 Initialized (c (snd (Initialize conf v s))) = true).
  { intros Hok. destruct (Initialize_cases conf v s) as [[_ Hf]|[_ [d Hc]]];
      [congruence|]. rewrite Hc. reflexivity. }
  split; [apply Connection_ErrNotInitialized|].
  split; [|split; [|split; [exact Hinv|]]].
  - intros Hok. apply Hval. now apply Initialize_Ok_validated with (v := v).
  - intros Hok. split; [now apply Hval|].
    intros Hn. apply Connection_ErrNotInitialized in Hn.
    rewrite (Hval Hok) in Hn. discriminate.
  - intros Hd.
    assert (Hiff : Initialized (c (snd (Initialize conf v s))) = true
                   <-> is_Ok (fst (Initialize conf false s)) = true).
    { split; [|exact Hval]. intros Ht.
      destruct (is_Ok (fst (Initialize conf false s))) eqn:Hok; [reflexivity|].
      destruct (Hinv eq_refl) as [_ Hi]. congruence. }
    split; [exact Hiff|].
    rewrite Connection_ErrNotInitialized.
    destruct (Initialized (c (snd (Initialize conf v s))));
      destruct (is_Ok (fst (Initialize conf false s)));
      destruct Hiff as [H1 H2]; split; intros Hx;
      try reflexivity; try discriminate;
      try (specialize (H1 eq_refl); discriminate);
      try (specialize (H2 eq_refl); discriminate).
Qed.

(** C7, as amended.  For an initialized producer: a pooled handle whose ping
    succeeds is returned as it is and nothing is opened; a handle whose ping
    fails is closed and a new one is opened; without a handle a new one is
    opened.  Every opening maps the driver type mssql to sqlserver and
    appends the UTC time-zone parameter to a postgres:// or postgresql://
    connection string; when it succeeds the three configured pool bounds
    are set on the new handle, which is stored and returned; when it fails
    its error is returned and the producer keeps no handle. *)
Theorem Connection_behaviour (s : state Env) :
  Initialized (c s) = true ->
  let c0 := c s in
  let opened (t : list event) (h' : DB) (e' : Env) :=
    (Ok h',
     mkState (set_db (Some h') c0) e'
       (t ++ [EvOpen (dbType c0) (connString c0);
              EvSetMaxOpenConns h' (MaxOpenConnections c0);
              EvSetMaxIdleConns h' (MaxIdleConnections c0);
              EvSetConnMaxLifetime h' (maxConnectionLifetime c0)])) in
  let refused (t : list event) (err : string) (e' : Env) : result DB * state Env :=
    (Err (Foreign err),
     mkState (set_db None c0) e' (t ++ [EvOpen (dbType c0) (connString c0)])) in
  (forall h e, db c0 = Some h -> db_PingContext h (env s) = (None, e) ->
     Connection s = (Ok h, mkState c0 e (trace s ++ [EvPing h])))
  /\ (forall h perr e h' e', db c0 = Some h ->
       db_PingContext h (env s) = (Some perr, e) ->
       sql_Open (dbType c0) (connString c0) (snd (db_Close h e)) = (inr h', e') ->
       Connection s = opened (trace s ++ [EvPing h; EvClose h])%list h' e')
  /\ (forall h perr e err e', db c0 = Some h ->
       db_PingContext h (env s) = (Some perr, e) ->
       sql_Open (dbType c0) (connString c0) (snd (db_Close h e)) = (inl err, e') ->
       Connection s = refused (trace s ++ [EvPing h; EvClose h])%list err e')
  /\ (forall h' e', db c0 = None ->
       sql_Open (dbType c0) (connString c0) (env s) = (inr h', e') ->
       Connection s = opened (trace s) h' e')
  /\ (forall err e', db c0 = None ->
       sql_Open (dbType c0) (connString c0) (env s) = (inl err, e') ->
       Connection s = refused (trace s) err e')
  /\ (Type_ c0 = "mssql" -> dbType c0 = "sqlserver")
  /\ (Type_ c0 <> "mssql" -> dbType c0 = Type_ c0)
  /\ (HasPrefix (ConnectionURL c0) "postgres://" = true
      \/ HasPrefix (ConnectionURL c0) "postgresql://" = true ->
      (Contains (ConnectionURL c0) "?" = true ->
       connString c0 = ConnectionURL c0 +:+ "&timezone=utc")
      /\ (Contains (ConnectionURL c0) "?" = false ->
          connString c0 = ConnectionURL c0 +:+ "?timezone=utc"))
  /\ (HasPrefix (ConnectionURL c0) "postgres://" = false ->
      HasPrefix (ConnectionURL c0) "postgresql://" = false ->
      connString c0 = ConnectionURL c0).
Proof.
  intros Hi c0 opened refused. subst c0 opened refused. cbn zeta.
  repeat apply conj.
  - intros h e Hd Hp. now apply Connection_ping_ok.
  - intros h perr e h' e' Hd Hp Ho.
    rewrite (Connection_ping_failed _ _ _ _ Hi Hd Hp), Ho. cbn.
    now rewrite <- !app_assoc.
  - intros h perr e err e' Hd Hp Ho.
    rewrite (Connection_ping_failed _ _ _ _ Hi Hd Hp), Ho. cbn.
    now rewrite <- !app_assoc.
  - intros h' e' Hd Ho. now rewrite (Connection_no_handle _ Hi Hd), Ho.
  - intros err e' Hd Ho. now rewrite (Connection_no_handle _ Hi Hd), Ho.
  - intros Ht. unfold dbType. now rewrite Ht.
  - intros Ht. unfold dbType.
    destruct (String.eqb_spec (Type_ (c s)) "mssql"); [contradiction|reflexivity].
  - intros Hp. unfold connString.
    assert (Hor : HasPrefix (ConnectionURL (c s)) "postgres://"
                  || HasPrefix (ConnectionURL (c s)) "postgresql://" = true)
      by (destruct Hp as [-> | ->]; [reflexivity|apply orb_true_r]).
    rewrite Hor. split; intros ->; reflexivity.
  - intros H1 H2. unfold connString. now rewrite H1, H2.
Qed.

End Facts.

Section Examples.
Import sim.

(** C6 on the stand-in decoder: max-open 5 with max-idle 10 is accepted and
    leaves max-idle 5. *)
Lemma Initialize_pool_defaults_witness :
  fst (Initialize conf_5_10 true (fresh "postgres" true)) = Ok conf_5_10
  /\ MaxIdleConnections (c (snd (Initialize conf_5_10 true (fresh "postgres" true)))) = 5.
Proof.
  assert (Hok : fst (Initialize conf_5_10 true (fresh "postgres" true)) = Ok conf_5_10)
    by (vm_compute; reflexivity).
  split; [exact Hok|].
  destruct (Initialize_pool_defaults conf_5_10 true (fresh "postgres" true) conf_5_10 Hok)
    as (_ & _ & _ & _ & _ & _ & H10).
  apply H10; vm_compute; reflexivity.
Defined.

(** C2 as stated fails: with a server that does not answer the verification
    ping, [Initialize] returns an error, and yet the producer is marked
    initialized and the next [Connection] hands out a handle instead of the
    not-initialized error. *)
Lemma Initialized_flag_counterexample :
  fst (Initialize conf_5_10 true (fresh "postgres" false))
  = Err (fmt_Errorf "error verifying connection: %s"
           [ArgError (Foreign "dial tcp: connection refused")])
  /\ Initialized (c (snd (Initialize conf_5_10 true (fresh "postgres" false)))) = true
  /\ fst (Connection (snd (Initialize conf_5_10 true (fresh "postgres" false))))
     = Ok 1%nat.
Proof. vm_compute. repeat split. Qed.

(** The amended C2 on the same run, and on a configuration without a
    connection string, which validation rejects: the flag of the new
    producer stays unset and [Connection] answers with the not-initialized
    error. *)
Lemma Initialized_flag_witness :
  (is_Ok (fst (Initialize conf_5_10 false (fresh "postgres" false))) = true
   /\ Initialized (c (snd (Initialize conf_5_10 true (fresh "postgres" false)))) = true)
  /\ (Initialized (snd (WeakDecode ∅ (c (fresh "postgres" true)))) = false
      /\ is_Ok (fst (Initialize ∅ false (fresh "postgres" true))) = false
      /\ fst (Initialize ∅ true (fresh "postgres" true))
         = Err (fmt_Errorf "connection_url cannot be empty" [])
      /\ Initialized (c (snd (Initialize ∅ true (fresh "postgres" true)))) = false
      /\ fst (Connection (snd (Initialize ∅ true (fresh "postgres" true))))
         = Err ErrNotInitialized).
Proof.
  assert (Hok : is_Ok (fst (Initialize conf_5_10 false (fresh "postgres" false))) = true)
    by (vm_compute; reflexivity).
  assert (Hd : Initialized (snd (WeakDecode ∅ (c (fresh "postgres" true)))) = false)
    by (vm_compute; reflexivity).
  assert (Hf : is_Ok (fst (Initialize ∅ false (fresh "postgres" true))) = false)
    by (vm_compute; reflexivity).
  split.
  - split; [exact Hok|].
    destruct (Initialized_flag conf_5_10 true (fresh "postgres" false))
      as (_ & _ & H3 & _).
    exact (proj1 (H3 Hok)).
  - destruct (Initialized_flag ∅ true (fresh "postgres" true))
      as (_ & _ & _ & H4 & H5).
    destruct (H4 Hf) as [He Hi]. destruct (H5 Hd) as [_ Hc].
    split; [exact Hd|]. split; [exact Hf|].
    split; [rewrite He; vm_compute; reflexivity|].
    split; [rewrite Hi; exact Hd|]. apply Hc. exact Hf.
Defined.

(** C7 as stated fails: the producer is initialized and holds handle 0, which
    it opened as a mysql pool; its driver type has since been set to a name
    no driver is registered under.  The ping of the handle fails and the
    handle is closed, but [sql.Open] does not know the driver, so no new
    handle is built: [Connection] returns the error and the producer is left
    without a handle. *)
Lemma Connection_behaviour_counterexample :
  Initialized (c reconfigured) = true
  /\ db (c reconfigured) = Some 0%nat
  /\ Type_ (c reconfigured) = "oracle"
  /\ fst (Connection reconfigured) = Err (Foreign "sql: unknown driver")
  /\ db (c (snd (Connection reconfigured))) = None
  /\ trace (snd (Connection reconfigured))
     = [EvOpen "mysql" "app:secret@tcp(db:3306)/";
        EvSetMaxOpenConns 0%nat 2; EvSetMaxIdleConns 0%nat 2;
        EvSetConnMaxLifetime 0%nat 0;
        EvPing 0%nat; EvClose 0%nat; EvOpen "oracle" "app:secret@tcp(db:3306)/"].
Proof. vm_compute. repeat split. Qed.

(** The amended C7 on the same state. *)
Lemma Connection_behaviour_witness :
  Initialized (c reconfigured) = true
  /\ Connection reconfigured
     = (Err (Foreign "sql: unknown driver"),
        mkState (set_db None (c reconfigured)) (env reconfigured)
          (trace reconfigured
           ++ [EvPing 0%nat; EvClose 0%nat]
           ++ [EvOpen (dbType (c reconfigured)) (connString (c reconfigured))])).
Proof.
  assert (Hi : Initialized (c reconfigured) = true) by (vm_compute; reflexivity).
  split; [exact Hi|].
  destruct (Connection_behaviour reconfigured Hi) as (_ & _ & H3 & _).
  rewrite (H3 0%nat "dial tcp: connection refused" (env reconfigured)
             "sql: unknown driver" (env reconfigured));
    [now rewrite <- app_assoc | vm_compute; reflexivity ..].
Defined.

End Examples.

End ProducerFacts.

(** ** The connection cache *)

Module CacheFacts.
Import database.

Section Facts.
Context {Env Database StorageEntry : Type}
        `{Capability Env Database} `{ConfigDecoder StorageEntry}.

Ltac run :=
  unfold GetConnection, ClearConnection, call, modify_connections,
    get_connections, bind, ret in *;
  cbn [connections env trace fst snd] in *.

Lemma ClearConnection_absent (b : databaseBackend Env Database) (name : string) :
  connections b !! name = None -> ClearConnection name b = (None, b).
Proof. intros Hm. run. now rewrite Hm. Qed.

Lemma ClearConnection_present (b : databaseBackend Env Database) (name : string)
    (d : Database) :
  connections b !! name = Some d ->
  ClearConnection name b
  = match db_Close d (env b) with
    | (None, env') =>
        (None, mkBackend (delete name (connections b)) env' (trace b ++ [EvClose d]))
    | (Some err, env') =>
        (Some err, mkBackend (connections b) env' (trace b ++ [EvClose d]))
    end.
Proof.
  intros Hm. run. rewrite Hm.
  destruct (db_Close d (env b)) as [[err|] env']; reflexivity.
Qed.

(** C3.  For a cached name, [ClearConnection] closes the instance; when
    [Close] reports no error the entry is deleted and nil is returned; when
    [Close] reports an error that error is returned and the map is left as
    it was; so the entry is gone afterwards exactly when [Close] reported no
    error.  For a name that is not cached nothing happens and nil is
    returned. *)
Theorem ClearConnection_behaviour (b : databaseBackend Env Database) (name : string) :
  (forall d env', connections b !! name = Some d ->
     db_Close d (env b) = (None, env') ->
     ClearConnection name b
     = (None, mkBackend (delete name (connections b)) env' (trace b ++ [EvClose d])))
  /\ (forall d err env', connections b !! name = Some d ->
      db_Close d (env b) = (Some err, env') ->
      ClearConnection name b
      = (Some err, mkBackend (connections b) env' (trace b ++ [EvClose d])))
  /\ (forall d, connections b !! name = Some d ->
      (connections (snd (ClearConnection name b)) !! name = None
       <-> fst (db_Close d (env b)) = None))
  /\ (connections b !! name = None -> ClearConnection name b = (None, b)).
Proof.
  repeat apply conj.
  - intros d env' Hm Hc. now rewrite (ClearConnection_present _ _ _ Hm), Hc.
  - intros d err env' Hm Hc. now rewrite (ClearConnection_present _ _ _ Hm), Hc.
  - intros d Hm. rewrite (ClearConnection_present _ _ _ Hm).
    destruct (db_Close d (env b)) as [[err|] env']; cbn.
    + rewrite Hm. split; discriminate.
    + rewrite lookup_delete_eq. split; reflexivity.
  - apply ClearConnection_absent.
Qed.

(** The four ways a construction attempt can end. *)
Lemma GetConnection_miss (b : databaseBackend Env Database)
    (s : Storage StorageEntry) (name : string) :
  connections b !! name = None ->
  GetConnection s name b
  = match DatabaseConfig s name with
    | Err err => (Err err, b)
    | Ok config =>
        match PluginFactory (PluginName config) (env b) with
        | (Err err, env1) =>
            (Err err,
             mkBackend (connections b) env1
               (trace b ++ [EvPluginFactory (PluginName config)]))
        | (Ok d, env1) =>
            match db_Initialize d (ConnectionDetails config) true env1 with
            | (Some err, env2) =>
                (Err err,
                 mkBackend (connections b) (snd (db_Close d env2))
                   (trace b ++ [EvPluginFactory (PluginName config);
                                EvInitialize d (ConnectionDetails config) true;
                                EvClose d]))
            | (None, env2) =>
                (Ok d,
                 mkBackend (<[name := d]> (connections b)) env2
                   (trace b ++ [EvPluginFactory (PluginName config);
                                EvInitialize d (ConnectionDetails config) true]))
            end
        end
    end.
Proof.
  intros Hm. run. rewrite Hm. cbn [connections env trace fst snd]. rewrite Hm.
  destruct (DatabaseConfig s name) as [config|err]; [|reflexivity].
  destruct (PluginFactory (PluginName config) (env b)) as [[d|err] env1]; cbn;
    [|reflexivity].
  destruct (db_Initialize d (ConnectionDetails config) true env1) as [[err|] env2]; cbn.
  - destruct (db_Close d env2) as [cerr env3]; cbn. now rewrite <- !app_assoc.
  - now rewrite <- !app_assoc.
Qed.

(** C1.  On a cache miss: when [Initialize] of the constructed instance
    returns an error, the instance is closed, that error is returned, and
    the map is left as it was; when it succeeds the instance is stored under
    the name and returned.  Conversely the map changes only by storing an
    instance whose [Initialize] succeeded, and every error return leaves the
    map as it was. *)
Theorem GetConnection_construction (b : databaseBackend Env Database)
    (s : Storage StorageEntry) (name : string) :
  connections b !! name = None ->
  (forall config d env1 err env2,
     DatabaseConfig s name = Ok config ->
     PluginFactory (PluginName config) (env b) = (Ok d, env1) ->
     db_Initialize d (ConnectionDetails config) true env1 = (Some err, env2) ->
     GetConnection s name b
     = (Err err,
        mkBackend (connections b) (snd (db_Close d env2))
          (trace b ++ [EvPluginFactory (PluginName config);
                       EvInitialize d (ConnectionDetails config) true;
                       EvClose d])))
  /\ (forall config d env1 env2,
      DatabaseConfig s name = Ok config ->
      PluginFactory (PluginName config) (env b) = (Ok d, env1) ->
      db_Initialize d (ConnectionDetails config) true env1 = (None, env2) ->
      GetConnection s name b
      = (Ok d,
         mkBackend (<[name := d]> (connections b)) env2
           (trace b ++ [EvPluginFactory (PluginName config);
                        EvInitialize d (ConnectionDetails config) true])))
  /\ (connections (snd (GetConnection s name b)) <> connections b ->
      exists config d env1 env2,
        DatabaseConfig s name = Ok config
        /\ PluginFactory (PluginName config) (env b) = (Ok d, env1)
        /\ db_Initialize d (ConnectionDetails config) true env1 = (None, env2)
        /\ fst (GetConnection s name b) = Ok d
        /\ connections (snd (GetConnection s name b)) = <[name := d]> (connections b))
  /\ (forall err, fst (GetConnection s name b) = Err err ->
      connections (snd (GetConnection s name b)) = connections b).
Proof.
  intros Hm. rewrite (GetConnection_miss _ _ _ Hm). repeat apply conj.
  - intros config d env1 err env2 -> -> ->. reflexivity.
  - intros config d env1 env2 -> -> ->. reflexivity.
  - destruct (DatabaseConfig s name) as [config|err]; cbn; [|congruence].
    destruct (PluginFactory (PluginName config) (env b)) as [[d|err] env1] eqn:Hf; cbn;
      [|congruence].
    destruct (db_Initialize d (ConnectionDetails config) true env1)
      as [[err|] env2] eqn:Hi; cbn; [congruence|].
    intros _. exists config, d, env1, env2. rewrite Hf. auto.
  - intros err.
    destruct (DatabaseConfig s name) as [config|err']; cbn; [|reflexivity].
    destruct (PluginFactory (PluginName config) (env b)) as [[d|err'] env1]; cbn;
      [|reflexivity].
    destruct (db_Initialize d (ConnectionDetails config) true env1)
      as [[err'|] env2]; cbn; [reflexivity|discriminate].
Qed.

End Facts.

(** *** Entries backed by SQL producers *)

Section SQL.
Import sqlplugin.
Context {E : Type} `{connutil.Driver E} `{connutil.Decoding}.

Lemma close_producer (h : nat) (p : connutil.SQLConnectionProducer) (e : Env E) :
  heap e !! h = Some p -> fst (close h e) = None.
Proof.
  intros Hh. unfold close, on_producer. rewrite Hh.
  rewrite ProducerFacts.Close_spec. reflexivity.
Qed.

(** C10.  [Close] of the SQL producer returns nil in every state and leaves
    the producer without a handle: a handle that is present is closed once
    and whatever the driver answers is dropped; without a handle the driver
    is not called; a repeated [Close] does nothing.  Hence
    [ClearConnection] on a cache entry whose instance is a SQL producer
    always returns nil and deletes the entry. *)
Theorem Close_returns_nil (s : connutil.state E) :
  fst (connutil.Close s) = None
  /\ connutil.db (connutil.c (snd (connutil.Close s))) = None
  /\ (forall h, connutil.db (connutil.c s) = Some h ->
      connutil.trace (snd (connutil.Close s)) = connutil.trace s ++ [connutil.EvClose h]
      /\ connutil.env (snd (connutil.Close s)) = snd (connutil.db_Close h (connutil.env s)))
  /\ (connutil.db (connutil.c s) = None ->
      connutil.trace (snd (connutil.Close s)) = connutil.trace s
      /\ connutil.env (snd (connutil.Close s)) = connutil.env s)
  /\ connutil.Close (snd (connutil.Close s)) = (None, snd (connutil.Close s))
  /\ (forall (b : databaseBackend (Env E) nat) (name : string) (h : nat)
        (p : connutil.SQLConnectionProducer),
      connections b !! name = Some h ->
      heap (env b) !! h = Some p ->
      fst (ClearConnection name b) = None
      /\ connections (snd (ClearConnection name b)) = delete name (connections b)).
Proof.
  rewrite !ProducerFacts.Close_spec. repeat apply conj.
  - reflexivity.
  - cbn. now destruct (connutil.db (connutil.c s)).
  - intros h ->. cbn. auto.
  - intros ->. cbn. auto.
  - cbn. destruct (connutil.db (connutil.c s)); reflexivity.
  - intros b name h p Hm Hh.
    rewrite (ClearConnection_present _ _ _ Hm).
    pose proof (close_producer _ _ _ Hh) as Hc. cbn.
    destruct (close h (env b)) as [cerr e']. cbn in Hc. subst cerr. auto.
Qed.

End SQL.

Section Examples.
Import sim sqlplugin.

(** C1 on a run: the stored configuration has no connection URL, so the
    producer's [Initialize] fails; nothing is cached. *)
Lemma GetConnection_construction_witness :
  connections (backend0 true) !! "pg" = None
  /\ GetConnection (store_pg ∅) "pg" (backend0 true)
     = (Err (fmt_Errorf "connection_url cannot be empty" []),
        mkBackend (connections (backend0 true))
          (snd (db_Close 0%nat
             (snd (db_Initialize 0%nat ∅ true
                (snd (PluginFactory "postgres" (env (backend0 true))))))))
          [EvPluginFactory "postgres"; EvInitialize 0%nat ∅ true; EvClose 0%nat]).
Proof.
  assert (Hm : connections (backend0 true) !! "pg" = None) by reflexivity.
  split; [exact Hm|].
  destruct (GetConnection_construction (backend0 true) (store_pg ∅) "pg" Hm)
    as (H1 & _).
  apply (H1 (mkDatabaseConfig "postgres" ∅) 0%nat
            (snd (PluginFactory "postgres" (env (backend0 true))))
            (fmt_Errorf "connection_url cannot be empty" [])
            (snd (db_Initialize 0%nat ∅ true
               (snd (PluginFactory "postgres" (env (backend0 true)))))));
    vm_compute; reflexivity.
Defined.

(** C3 on a run: an instance that refuses to close stays cached. *)
Lemma ClearConnection_behaviour_witness :
  connections stuck !! "pg" = Some 0%nat
  /\ @ClearConnection bool nat stubborn "pg" stuck
     = (Some (Foreign "rpc: close failed"),
        mkBackend (connections stuck) true [EvClose 0%nat]).
Proof.
  assert (Hm : connections stuck !! "pg" = Some 0%nat) by reflexivity.
  split; [exact Hm|].
  destruct (@ClearConnection_behaviour bool nat stubborn stuck "pg") as (_ & H2 & _).
  apply (H2 0%nat (Foreign "rpc: close failed") true Hm). reflexivity.
Defined.

(** C10 on a run: clearing the entry built by [GetConnection]. *)
Lemma Close_returns_nil_witness :
  connections cached !! "pg" = Some 0%nat
  /\ fst (ClearConnection "pg" cached) = None
  /\ connections (snd (ClearConnection "pg" cached)) = delete "pg" (connections cached).
Proof.
  assert (Hm : connections cached !! "pg" = Some 0%nat) by (vm_compute; reflexivity).
  split; [exact Hm|].
  destruct (Close_returns_nil (connutil.mkState (connutil.zero "postgres")
              (mk_sql_env [] true 0) [])) as (_ & _ & _ & _ & _ & H6).
  assert (Hp : is_Some (heap (env cached) !! 0%nat)) by (vm_compute; eauto).
  destruct Hp as [p Hp].
  exact (H6 cached "pg" 0%nat p Hm Hp).
Defined.

End Examples.

End CacheFacts.

(** ** Role records *)

Module RoleFacts.
Import database json.

Lemma fold_members_app {S : Type} (f : string -> value -> S -> result S)
    (ms1 ms2 : list (string * value)) (s : S) :
  fold_members f (ms1 ++ ms2) s
  = match fold_members f ms1 s with
    | Err e => Err e
    | Ok s' => fold_members f ms2 s'
    end.
Proof.
  revert s. induction ms1 as [|[k v] ms1 IH]; intros s; cbn; [reflexivity|].
  destruct (f k v s); [apply IH|reflexivity].
Qed.

(** The legacy decoder steps over every member that is not a statement
    set. *)
Lemma upgradeCheck_skips (ms : list (string * value)) (u : upgradeCheck) :
  forallb other_member ms = true ->
  fold_members member_upgradeCheck ms u = Ok u.
Proof.
  induction ms as [|[k v] ms IH]; cbn; [reflexivity|].
  intros Hall. apply andb_true_iff in Hall as [Hk Hms].
  unfold other_member in Hk. cbn [fst] in Hk.
  apply andb_true_iff in Hk as [Hk _]. apply negb_true_iff in Hk.
  unfold member_upgradeCheck at 1. rewrite Hk. now apply IH.
Qed.

Section Canonical.
Context {Rest : Type} `{RestDecoder Rest}.

(** The canonical decoder hands every such member to the other fields. *)
Lemma roleEntry_others (ms : list (string * value)) (st : Statements_) (r : Rest) :
  forallb other_member ms = true ->
  fold_members member_roleEntry ms (mkRoleEntry st r)
  = match fold_members rest_member ms r with
    | Err e => Err e
    | Ok r' => Ok (mkRoleEntry st r')
    end.
Proof.
  revert r. induction ms as [|[k v] ms IH]; intros r; cbn; [reflexivity|].
  intros Hall. apply andb_true_iff in Hall as [Hk Hms].
  unfold other_member in Hk. cbn [fst] in Hk.
  apply andb_true_iff in Hk as [_ Hk]. apply negb_true_iff in Hk.
  unfold member_roleEntry at 1. rewrite Hk. cbn.
  destruct (rest_member k v r) as [r'|e]; [now apply IH|reflexivity].
Qed.

Lemma legacy_upgradeCheck (before after : list (string * value)) (st : Statements_) :
  forallb other_member before = true -> forallb other_member after = true ->
  decode_upgradeCheck (Some (legacy_record before after st)) = Ok (as_upgrade st).
Proof.
  intros Hb Ha. unfold decode_upgradeCheck, legacy_record, into_struct.
  rewrite fold_members_app, (upgradeCheck_skips _ _ Hb). cbn.
  now apply upgradeCheck_skips.
Qed.

Lemma canonical_upgradeCheck (before after : list (string * value)) (st : Statements_) :
  forallb other_member before = true -> forallb other_member after = true ->
  decode_upgradeCheck (Some (canonical_record before after st)) = Ok empty.
Proof.
  intros Hb Ha. unfold decode_upgradeCheck, canonical_record, into_struct.
  rewrite fold_members_app, (upgradeCheck_skips _ _ Hb). cbn.
  now apply upgradeCheck_skips.
Qed.

Lemma legacy_roleEntry (before after : list (string * value)) (st : Statements_) :
  forallb other_member before = true -> forallb other_member after = true ->
  (forall v r, rest_member "statments" v r = Ok r) ->
  decode_roleEntry (Some (legacy_record before after st))
  = match fold_members rest_member (before ++ after) rest_zero with
    | Err e => Err e
    | Ok r' => Ok (mkRoleEntry (mkStatements "" "" "" "") r')
    end.
Proof.
  intros Hb Ha Hign. unfold decode_roleEntry, legacy_record, into_struct.
  rewrite !fold_members_app, (roleEntry_others _ _ _ Hb).
  destruct (fold_members rest_member before rest_zero) as [r1|e]; [|reflexivity].
  cbn [fold_members]. unfold member_roleEntry at 1.
  change (equalFoldRight "statements" "statments") with false.
  cbn [rest Statements]. rewrite Hign. now apply roleEntry_others.
Qed.

Lemma canonical_roleEntry (before after : list (string * value)) (st : Statements_) :
  forallb other_member before = true -> forallb other_member after = true ->
  decode_roleEntry (Some (canonical_record before after st))
  = match fold_members rest_member (before ++ after) rest_zero with
    | Err e => Err e
    | Ok r' => Ok (mkRoleEntry st r')
    end.
Proof.
  intros Hb Ha. unfold decode_roleEntry, canonical_record, into_struct.
  rewrite !fold_members_app, (roleEntry_others _ _ _ Hb).
  destruct (fold_members rest_member before rest_zero) as [r1|e]; [|reflexivity].
  cbn. destruct st as [a b c d]. cbn. now apply roleEntry_others.
Qed.

Lemma Role_store_of (roleName : string) (record : value) :
  Role (store_of roleName record) roleName
  = match decode_upgradeCheck (Some record) with
    | Err err => Err err
    | Ok upgradeCh =>
        match decode_roleEntry (Some record) with
        | Err err => Err err
        | Ok result =>
            if decide (upgradeCh = empty) then Ok (Some result)
            else Ok (Some (override result upgradeCh))
        end
    end.
Proof. unfold Role, store_of. cbn. now rewrite String.eqb_refl. Qed.

Lemma Role_legacy (roleName : string) (before after : list (string * value))
    (st : Statements_) :
  forallb other_member before = true -> forallb other_member after = true ->
  (forall v r, rest_member "statments" v r = Ok r) ->
  Role (store_of roleName (legacy_record before after st)) roleName
  = match fold_members rest_member (before ++ after) rest_zero with
    | Err e => Err e
    | Ok r' => Ok (Some (mkRoleEntry st r'))
    end.
Proof.
  intros Hb Ha Hign.
  rewrite Role_store_of, (legacy_upgradeCheck _ _ _ Hb Ha),
    (legacy_roleEntry _ _ _ Hb Ha Hign).
  destruct (fold_members rest_member (before ++ after) rest_zero) as [r'|e];
    [|reflexivity].
  destruct (decide (as_upgrade st = empty)) as [He|He].
  - destruct st as [a b c d]. unfold as_upgrade, empty in He. cbn in He.
    now inversion He.
  - unfold override. cbn. now destruct st.
Qed.

Lemma Role_canonical (roleName : string) (before after : list (string * value))
    (st : Statements_) :
  forallb other_member before = true -> forallb other_member after = true ->
  Role (store_of roleName (canonical_record before after st)) roleName
  = match fold_members rest_member (before ++ after) rest_zero with
    | Err e => Err e
    | Ok r' => Ok (Some (mkRoleEntry st r'))
    end.
Proof.
  intros Hb Ha.
  rewrite Role_store_of, (canonical_upgradeCheck _ _ _ Hb Ha),
    (canonical_roleEntry _ _ _ Hb Ha).
  destruct (fold_members rest_member (before ++ after) rest_zero) as [r'|e];
    [|reflexivity].
  destruct (decide (empty = empty)); [reflexivity|contradiction].
Qed.

End Canonical.

(** C5.  [Role] returns the canonical decoding of the stored record, except
    that when the legacy view differs from its zero value the four statement
    fields are those of the legacy view (the other fields stay as decoded).
    Consequently a record that carries its statement set only under the
    legacy names and the same record written under the canonical names
    decode to the same role entry, whose statement set is the stored one;
    and for the canonical record the legacy view is the zero value, so
    [Role] returns its canonical decoding with no override. *)
Theorem Role_migration {Rest : Type} `{RestDecoder Rest}
    (roleName : string) (before after : list (string * value)) (st : Statements_) :
  forallb other_member before = true ->
  forallb other_member after = true ->
  (forall v r, rest_member "statments" v r = Ok r) ->
  (forall (StorageEntry : Type) (RD : RoleDecoder StorageEntry Rest)
          (s : Storage StorageEntry) (name : string) (entry : StorageEntry)
          (upgradeCh : upgradeCheck) (result : roleEntry Rest),
      Get s ("role/" +:+ name) = Ok (Some entry) ->
      DecodeJSON_upgradeCheck entry = Ok upgradeCh ->
      DecodeJSON_roleEntry entry = Ok result ->
      (upgradeCh = empty -> Role s name = Ok (Some result))
      /\ (upgradeCh <> empty ->
          Role s name
          = Ok (Some (mkRoleEntry
                        (mkStatements
                           (up_CreationStatements (up_Statements upgradeCh))
                           (up_RevocationStatements (up_Statements upgradeCh))
                           (up_RollbackStatements (up_Statements upgradeCh))
                           (up_RenewStatements (up_Statements upgradeCh)))
                        (rest result)))))
  /\ (forall r,
        Role (store_of roleName (legacy_record before after st)) roleName = Ok (Some r)
        <-> Role (store_of roleName (canonical_record before after st)) roleName
            = Ok (Some r))
  /\ (forall r,
        Role (store_of roleName (legacy_record before after st)) roleName = Ok (Some r) ->
        Statements r = st)
  /\ decode_upgradeCheck (Some (canonical_record before after st)) = Ok empty
  /\ (forall r,
        Role (store_of roleName (canonical_record before after st)) roleName = Ok (Some r) ->
        decode_roleEntry (Some (canonical_record before after st)) = Ok r).
Proof.
  intros Hb Ha Hign. repeat apply conj.
  - intros StorageEntry RD s name entry upgradeCh result Hg Hu Hr.
    unfold Role. rewrite Hg, Hu, Hr. split; intros Hz.
    + destruct (decide (upgradeCh = empty)); [reflexivity|contradiction].
    + destruct (decide (upgradeCh = empty)); [contradiction|reflexivity].
  - intros r. now rewrite (Role_legacy _ _ _ _ Hb Ha Hign), (Role_canonical _ _ _ _ Hb Ha).
  - intros r. rewrite (Role_legacy _ _ _ _ Hb Ha Hign).
    destruct (fold_members rest_member (before ++ after) rest_zero); [|discriminate].
    intros Hr. inversion Hr. reflexivity.
  - now apply canonical_upgradeCheck.
  - intros r. rewrite (Role_canonical _ _ _ _ Hb Ha), (canonical_roleEntry _ _ _ Hb Ha).
    destruct (fold_members rest_member (before ++ after) rest_zero); [|discriminate].
    intros Hr. inversion Hr. reflexivity.
Qed.

Section Examples.
Import sim.

(** C5 on a record: the legacy record decodes to what the canonical one
    decodes to. *)
Lemma Role_migration_witness :
  forallb other_member role_before = true
  /\ forallb other_member role_after = true
  /\ Role (store_of "app-admin" (legacy_record role_before role_after role_statements))
          "app-admin"
     = Ok (Some (mkRoleEntry role_statements "app")).
Proof.
  assert (Hb : forallb other_member role_before = true) by reflexivity.
  assert (Ha : forallb other_member role_after = true) by reflexivity.
  assert (Hign : forall (v : value) (r : string), rest_member "statments" v r = Ok r)
    by (intros v r; reflexivity).
  split; [exact Hb|]. split; [exact Ha|].
  destruct (Role_migration (Rest := string) "app-admin" role_before role_after
              role_statements Hb Ha Hign) as (_ & Hiff & _).
  apply (proj2 (Hiff (mkRoleEntry role_statements "app"))).
  vm_compute. reflexivity.
Defined.

End Examples.

End RoleFacts.

(** ** Directory configuration *)

Module ConfigFacts.
Import tlsutil ldap.

Section Facts.
Context `{Parsers} `{Lookup}.

(** Whatever the other fields hold, a failing version check fails the
    parse. *)
Lemma tls_check_fails (fd : FieldData) (err : error) :
  check_tls_versions (Get_tls_min_version fd) (Get_tls_max_version fd) = Some err ->
  is_Ok (NewConfiguration fd) = false.
Proof.
  intros Hc. unfold NewConfiguration. rewrite Hc.
  destruct (check_groupfilter _); [reflexivity|].
  destruct (check_certificate _); reflexivity.
Qed.

(** C8, as amended.  The identifiers of the supported-version table being
    ordered like the versions they name: parsing fails when tls_min_version
    or tls_max_version is empty or not in the table, and when
    tls_max_version names a lower version than tls_min_version; a
    configuration that passes these checks and whose group filter and
    certificate, where given, pass theirs is accepted with both version
    identifiers stored. *)
Theorem NewConfiguration_tls_versions (fd : FieldData) :
  ordered_like_versions ->
  let tlsMin := Get_tls_min_version fd in
  let tlsMax := Get_tls_max_version fd in
  (tlsMin = "" \/ TLSLookup !! tlsMin = None \/ tlsMax = "" \/ TLSLookup !! tlsMax = None ->
   is_Ok (NewConfiguration fd) = false)
  /\ (forall vmin vmax,
      TLSLookup !! tlsMin = Some vmin -> TLSLookup !! tlsMax = Some vmax ->
      vmax < vmin -> is_Ok (NewConfiguration fd) = false)
  /\ (forall vmin vmax,
      tlsMin <> "" -> tlsMax <> "" ->
      TLSLookup !! tlsMin = Some vmin -> TLSLookup !! tlsMax = Some vmax ->
      vmin <= vmax ->
      check_groupfilter (Get_groupfilter fd) = None ->
      check_certificate (Get_certificate fd) = None ->
      exists conf,
        NewConfiguration fd = Ok conf
        /\ TLSMinVersion conf = tlsMin /\ TLSMaxVersion conf = tlsMax).
Proof.
  intros Hord tlsMin tlsMax. repeat apply conj.
  - intros Hbad.
    assert (exists err, check_tls_versions tlsMin tlsMax = Some err) as [err Hc].
    { unfold check_tls_versions.
      destruct (String.eqb_spec tlsMin ""); [eauto|].
      destruct (TLSLookup !! tlsMin) eqn:Hmin; [|eauto].
      destruct (String.eqb_spec tlsMax ""); [eauto|].
      destruct (TLSLookup !! tlsMax) eqn:Hmax; [|eauto].
      destruct Hbad as [?|[?|[?|?]]]; congruence. }
    now apply tls_check_fails with (err := err).
  - intros vmin vmax Hmin Hmax Hlt.
    assert (exists err, check_tls_versions tlsMin tlsMax = Some err) as [err Hc].
    { unfold check_tls_versions.
      destruct (String.eqb_spec tlsMin ""); [eauto|]. rewrite Hmin.
      destruct (String.eqb_spec tlsMax ""); [eauto|]. rewrite Hmax.
      rewrite (proj2 (Hord tlsMax tlsMin vmax vmin Hmax Hmin) Hlt). eauto. }
    now apply tls_check_fails with (err := err).
  - intros vmin vmax Hne1 Hne2 Hmin Hmax Hle Hg Hc.
    assert (Ht : check_tls_versions tlsMin tlsMax = None).
    { unfold check_tls_versions.
      destruct (String.eqb_spec tlsMin ""); [contradiction|]. rewrite Hmin.
      destruct (String.eqb_spec tlsMax ""); [contradiction|]. rewrite Hmax.
      destruct (string_lt tlsMax tlsMin) eqn:Hlt; [|reflexivity].
      apply (Hord tlsMax tlsMin vmax vmin Hmax Hmin) in Hlt. lia. }
    unfold NewConfiguration. fold tlsMin tlsMax. rewrite Hg, Hc, Ht.
    eexists. split; [reflexivity|]. split; reflexivity.
Qed.

End Facts.

Section Examples.
Import sim.

(** The identifiers tls10, tls11, tls12 are ordered like their versions. *)
Lemma tls_table_ordered : ordered_like_versions.
Proof.
  intros a b va vb Ha Hb. unfold TLSLookup, tls_table in Ha, Hb.
  apply lookup_insert_Some in Ha as [[<- <-]|[_ Ha]];
    [|apply lookup_insert_Some in Ha as [[<- <-]|[_ Ha]];
      [|apply lookup_singleton_Some in Ha as [<- <-]]];
    (apply lookup_insert_Some in Hb as [[<- <-]|[_ Hb]];
     [|apply lookup_insert_Some in Hb as [[<- <-]|[_ Hb]];
       [|apply lookup_singleton_Some in Hb as [<- <-]]]);
    vm_compute; split; intros; congruence.
Qed.

(** C8 as stated fails: both version identifiers are in the table and the
    maximum is not below the minimum, so the version checks pass, and yet
    the configuration is rejected, because its certificate is not a PEM
    block. *)
Lemma NewConfiguration_tls_versions_counterexample :
  TLSLookup !! "tls10" = Some 769
  /\ TLSLookup !! "tls12" = Some 771
  /\ check_tls_versions "tls10" "tls12" = None
  /\ NewConfiguration (field_data "not a certificate" "tls10" "tls12")
     = Err (fmt_Errorf "failed to decode PEM block in the certificate" []).
Proof. vm_compute. repeat split. Qed.

(** The amended C8 on field data without a certificate. *)
Lemma NewConfiguration_tls_versions_witness :
  ordered_like_versions
  /\ exists conf,
       NewConfiguration (field_data "" "tls10" "tls12") = Ok conf
       /\ TLSMinVersion conf = "tls10" /\ TLSMaxVersion conf = "tls12".
Proof.
  split; [exact tls_table_ordered|].
  destruct (NewConfiguration_tls_versions (field_data "" "tls10" "tls12")
              tls_table_ordered) as (_ & _ & H3).
  apply (H3 769 771); first [discriminate | reflexivity | lia].
Defined.

End Examples.

End ConfigFacts.

(** ** The directory client *)

Module ClientFacts.
Import tlsutil ldap activedirectory.

Section Facts.
Context {Env : Type} `{Network Env} `{Library} `{Lookup}.

Lemma modifies_snoc (t : list event) (e : event) :
  is_modify e = false -> modifies (t ++ [e]) = modifies t.
Proof.
  intros He. unfold modifies. rewrite List.filter_app. cbn. rewrite He.
  apply app_nil_r.
Qed.

Lemma call_modifies {A : Type} (e : event) (f : Env -> A * Env) (w : world Env) :
  is_modify e = false ->
  modifies (trace (snd (call e f w))) = modifies (trace w).
Proof.
  intros He. unfold call. destruct (f (env w)). cbn. now apply modifies_snoc.
Qed.

(** Establishing a connection sends no modify request. *)
Lemma connect_modifies (c : client) (uut : string) (w : world Env) :
  modifies (trace (snd (connect c uut w))) = modifies (trace w).
Proof.
  unfold connect, bind, ret.
  destruct (url_Parse uut) as [err|u]; [reflexivity|].
  destruct (hostPort u) as [host port].
  destruct (String.eqb (Scheme u) "ldap").
  - match goal with |- context [call ?e ?f w] =>
      pose proof (call_modifies e f w eq_refl) as Hd; destruct (call e f w) as [r w1]
    end.
    cbn in Hd. destruct r as [err|conn]; [exact Hd|].
    destruct (StartTLS (conf c)); [|exact Hd].
    destruct (getTLSConfig c host) as [cfg|err]; [|exact Hd].
    match goal with |- context [call ?e ?f w1] =>
      pose proof (call_modifies e f w1 eq_refl) as Hs; destruct (call e f w1) as [r w2]
    end.
    cbn in Hs. rewrite <- Hd, <- Hs. now destruct r.
  - destruct (String.eqb (Scheme u) "ldaps"); [|reflexivity].
    destruct (getTLSConfig c host) as [cfg|err]; [|reflexivity].
    match goal with |- context [call ?e ?f w] =>
      pose proof (call_modifies e f w eq_refl) as Hd; destruct (call e f w) as [r w1]
    end.
    cbn in Hd. now destruct r.
Qed.

Lemma tryURLs_modifies (c : client) (urls : list string) (retErr : list error)
    (w : world Env) :
  modifies (trace (snd (tryURLs c urls retErr w))) = modifies (trace w).
Proof.
  revert retErr w. induction urls as [|uut urls IH]; intros retErr w; [reflexivity|].
  cbn [tryURLs]. unfold bind.
  pose proof (connect_modifies c uut w) as Hc.
  destruct (connect c uut w) as [[conn|err] w1]; cbn in Hc.
  - exact Hc.
  - now rewrite IH.
Qed.

Lemma getConnection_modifies (c : client) (w : world Env) :
  modifies (trace (snd (getConnection c w))) = modifies (trace w).
Proof. apply tryURLs_modifies. Qed.

(** Searching sends no modify request. *)
Lemma Search_modifies (c : client) (baseDN filter : string) (w : world Env) :
  modifies (trace (snd (Search c baseDN filter w))) = modifies (trace w).
Proof.
  unfold Search, bind, ret.
  pose proof (getConnection_modifies c w) as Hg.
  destruct (getConnection c w) as [[conn|err] w1]; cbn in Hg; [|exact Hg].
  match goal with |- context [call ?e ?f w1] =>
    pose proof (call_modifies e f w1 eq_refl) as Hs; destruct (call e f w1) as [sr w2]
  end.
  cbn in Hs. unfold Close.
  match goal with |- context [call ?e ?f w2] =>
    pose proof (call_modifies e f w2 eq_refl) as Hcl; destruct (call e f w2) as [u w3]
  end.
  cbn in Hcl. rewrite <- Hg, <- Hs, <- Hcl. now destruct sr.
Qed.

(** [Split] cuts at every separator and nowhere else: the pieces joined by
    the separator give the string back, there is at least one piece, and no
    piece holds the separator. *)
Lemma Split_nonempty (s : string) (sep : ascii) : Split s sep <> [].
Proof.
  destruct s as [|a s]; cbn; [discriminate|].
  destruct (Ascii.eqb a sep); [discriminate|].
  destruct (Split s sep); discriminate.
Qed.

Lemma Split_join (s : string) (sep : ascii) :
  String.concat (String sep EmptyString) (Split s sep) = s.
Proof.
  induction s as [|a s IH]; cbn; [reflexivity|].
  destruct (Ascii.eqb_spec a sep) as [->|Hne].
  - pose proof (Split_nonempty s sep) as Hn.
    destruct (Split s sep) as [|p ps]; [contradiction|].
    cbn in *. now rewrite IH.
  - pose proof (Split_nonempty s sep) as Hn.
    destruct (Split s sep) as [|p ps]; [contradiction|].
    destruct ps as [|q qs]; cbn in *; now rewrite <- IH.
Qed.

Lemma Split_pieces (s : string) (sep : ascii) :
  Forall (fun piece => Contains piece (String sep EmptyString) = false) (Split s sep).
Proof.
  induction s as [|a s IH]; cbn.
  - constructor; [reflexivity|constructor].
  - destruct (Ascii.eqb_spec a sep) as [->|Hne].
    + constructor; [reflexivity|exact IH].
    + destruct (Split s sep) as [|p ps]; cbn.
      * constructor; [|constructor]. cbn.
        destruct (ascii_dec sep a); [congruence|reflexivity].
      * inversion IH as [|? ? Hp Hps]; subst. constructor; [|exact Hps].
        cbn. destruct (ascii_dec sep a); [congruence|]. exact Hp.
Qed.

(** The loop returns a connection exactly when some URL connects after all
    the URLs before it have failed. *)
Lemma tryURLs_Ok (c : client) (urls : list string) (retErr : list error)
    (w : world Env) (conn : Conn) (w' : world Env) :
  tryURLs c urls retErr w = (Ok conn, w')
  <-> exists pre uut post errs w1,
        urls = pre ++ uut :: post
        /\ all_fail c pre w errs w1
        /\ connect c uut w1 = (Ok conn, w').
Proof.
  revert retErr w. induction urls as [|u urls IH]; intros retErr w.
  - cbn. split; [discriminate|].
    intros (pre & uut & post & errs & w1 & Hu & _). now destruct pre.
  - cbn [tryURLs]. unfold bind.
    destruct (connect c u w) as [[conn0|err] w1] eqn:Hc.
    + split.
      * intros Heq. exists [], u, urls, [], w. cbn.
        repeat split; [constructor|]. now rewrite Hc.
      * intros (pre & uut & post & errs & w2 & Hu & Hf & Hok).
        destruct pre as [|p pre]; cbn in Hu; inversion Hu; subst.
        -- inversion Hf; subst. now rewrite Hok in Hc.
        -- inversion Hf; subst. congruence.
    + rewrite IH. split.
      * intros (pre & uut & post & errs & w2 & Hu & Hf & Hok).
        exists (u :: pre), uut, post, (hostError u err :: errs), w2. subst urls.
        repeat split; [|exact Hok]. econstructor; eauto.
      * intros (pre & uut & post & errs & w2 & Hu & Hf & Hok).
        destruct pre as [|p pre]; cbn in Hu; inversion Hu; subst.
        -- inversion Hf; subst. congruence.
        -- inversion Hf; subst.
           match goal with Hc' : connect c p w = _ |- _ =>
             rewrite Hc in Hc'; inversion Hc'; subst end.
           eauto 10.
Qed.

(** The loop returns an error exactly when every URL has failed, and the
    error lists the failures in order after those already collected. *)
Lemma tryURLs_Err (c : client) (urls : list string) (retErr : list error)
    (w : world Env) (err : error) (w' : world Env) :
  tryURLs c urls retErr w = (Err err, w')
  <-> exists errs, all_fail c urls w errs w' /\ err = multierror (retErr ++ errs).
Proof.
  revert retErr w. induction urls as [|u urls IH]; intros retErr w.
  - cbn. unfold ret. split.
    + intros Heq. inversion Heq; subst. exists []. rewrite app_nil_r.
      split; [constructor|reflexivity].
    + intros (errs & Hf & ->). inversion Hf; subst. now rewrite app_nil_r.
  - cbn [tryURLs]. unfold bind.
    destruct (connect c u w) as [[conn0|e] w1] eqn:Hc.
    + split; [discriminate|].
      intros (errs & Hf & _). inversion Hf; subst. congruence.
    + rewrite IH. split.
      * intros (errs & Hf & ->). exists (hostError u e :: errs).
        split; [econstructor; eauto|]. now rewrite <- app_assoc.
      * intros (errs & Hf & ->). inversion Hf; subst.
        match goal with Hc' : connect c u w = _ |- _ =>
          rewrite Hc in Hc'; inversion Hc'; subst end.
        eexists. split; [eassumption|]. now rewrite <- app_assoc.
Qed.

(** C9.  [getConnection] splits the configured URL string on commas and
    tries the pieces in order.  It returns a connection exactly when some
    URL connects after every URL before it has failed, and then the world is
    the one right after that connect: no later URL is tried.  It returns an
    error exactly when every URL has failed, and the error aggregates the
    failure of each host, in order.  For one URL: the scheme ldap dials
    plaintext, on port 389 unless the URL names one, and upgrades with
    STARTTLS when the configuration asks for it; the scheme ldaps dials with
    TLS, on port 636 unless the URL names one; any other scheme fails
    without dialing. *)
Theorem getConnection_failover (c : client) (w : world Env) :
  let urls := Split (Url (conf c)) "," in
  (forall conn w',
     getConnection c w = (Ok conn, w')
     <-> exists pre uut post errs w1,
           urls = pre ++ uut :: post
           /\ all_fail c pre w errs w1
           /\ connect c uut w1 = (Ok conn, w'))
  /\ (forall err w',
      getConnection c w = (Err err, w')
      <-> exists errs, all_fail c urls w errs w' /\ err = multierror errs)
  /\ (forall uut u host port,
      url_Parse uut = inr u -> hostPort u = (host, port) ->
      (Scheme u = "ldap" ->
       let addr := net_JoinHostPort host (if String.eqb port "" then "389" else port) in
       let dialled (e1 : Env) := mkWorld e1 (trace w ++ [EvDial "tcp" addr]) in
       connect c uut w
       = match ldap_Dial "tcp" addr (env w) with
         | (inl err, e1) => (Err (Foreign err), dialled e1)
         | (inr conn, e1) =>
             if StartTLS (conf c) then
               match getTLSConfig c host with
               | Err err => (Err err, dialled e1)
               | Ok tlsConfig =>
                   match conn_StartTLS conn tlsConfig e1 with
                   | (Some err, e2) =>
                       (Err (Foreign err),
                        mkWorld e2 (trace w ++ [EvDial "tcp" addr;
                                                EvStartTLS conn tlsConfig]))
                   | (None, e2) =>
                       (Ok conn,
                        mkWorld e2 (trace w ++ [EvDial "tcp" addr;
                                                EvStartTLS conn tlsConfig]))
                   end
               end
             else (Ok conn, dialled e1)
         end)
      /\ (Scheme u = "ldaps" ->
          let addr := net_JoinHostPort host (if String.eqb port "" then "636" else port) in
          connect c uut w
          = match getTLSConfig c host with
            | Err err => (Err err, w)
            | Ok tlsConfig =>
                match ldap_DialTLS "tcp" addr tlsConfig (env w) with
                | (inl err, e1) =>
                    (Err (Foreign err),
                     mkWorld e1 (trace w ++ [EvDialTLS "tcp" addr tlsConfig]))
                | (inr conn, e1) =>
                    (Ok conn, mkWorld e1 (trace w ++ [EvDialTLS "tcp" addr tlsConfig]))
                end
            end)
      /\ (Scheme u <> "ldap" -> Scheme u <> "ldaps" ->
          connect c uut w
          = (Err (fmt_Errorf "invalid LDAP scheme in url %q"
                    [ArgString (net_JoinHostPort host port)]), w)))
  /\ (forall uut err, url_Parse uut = inl err -> connect c uut w = (Err (Foreign err), w)).
Proof.
  intros urls. repeat apply conj.
  - intros conn w'. apply tryURLs_Ok.
  - intros err w'. unfold getConnection. now rewrite tryURLs_Err.
  - intros uut u host port Hu Hhp. repeat apply conj.
    + intros Hs.
      unfold connect, bind, ret, call. rewrite Hu, Hhp, Hs. cbn.
      destruct (ldap_Dial _ _ _) as [[err|conn] e1]; cbn; [reflexivity|].
      destruct (StartTLS (conf c)); [|reflexivity].
      destruct (getTLSConfig c host) as [cfg|err]; cbn; [|reflexivity].
      destruct (conn_StartTLS conn cfg e1) as [[err|] e2]; cbn;
        now rewrite <- app_assoc.
    + intros Hs.
      unfold connect, bind, ret, call. rewrite Hu, Hhp, Hs. cbn.
      destruct (getTLSConfig c host) as [cfg|err]; cbn; [|reflexivity].
      destruct (ldap_DialTLS _ _ _ _) as [[err|conn] e1]; reflexivity.
    + intros Hn1 Hn2.
      unfold connect, bind, ret, call. rewrite Hu, Hhp.
      destruct (String.eqb_spec (Scheme u) "ldap"); [contradiction|].
      destruct (String.eqb_spec (Scheme u) "ldaps"); [contradiction|]. reflexivity.
  - intros uut err Hu. unfold connect. now rewrite Hu.
Qed.

(** What [Search] does once a connection is there. *)
Lemma Search_connected (c : client) (baseDN filter : string) (w : world Env)
    (conn : Conn) (w1 : world Env) :
  getConnection c w = (Ok conn, w1) ->
  Search c baseDN filter w
  = (match fst (conn_Search conn (mkSearchRequest baseDN 2 filter) (env w1)) with
     | inl err => Err (Foreign err)
     | inr entries => Ok entries
     end,
     mkWorld
       (conn_Close conn (snd (conn_Search conn (mkSearchRequest baseDN 2 filter) (env w1))))
       (trace w1 ++ [EvSearch conn (mkSearchRequest baseDN 2 filter); EvClose conn])).
Proof.
  intros Hg. unfold Search, bind, ret, Close, call. rewrite Hg. cbn.
  destruct (conn_Search _ _ _) as [[err|entries] e2]; cbn; now rewrite <- app_assoc.
Qed.

(** C4, as amended.  When the search yields no entry or more than one,
    [UpdatePassword] fails and no modify request is sent.  When it yields
    exactly one entry and the quoted password encodes, a second connection
    is opened: if that succeeds, exactly one request is sent on it, which
    replaces the attribute unicodePwd of that entry's DN by the encoding of
    the new password in double quotes, and the connection is released; if
    it fails, its error is returned and no modify request is sent. *)
Theorem UpdatePassword_behaviour (c : client) (baseDN filter newPassword : string)
    (w : world Env) :
  let found := Search c baseDN filter w in
  let updated := UpdatePassword c baseDN filter newPassword w in
  (forall entries,
     fst found = Ok entries -> List.length entries <> 1%nat ->
     updated
     = (Some (fmt_Errorf "password filter of %s doesn't match just one entry: %s"
                [ArgString filter; ArgOpaque]),
        snd found)
     /\ modifies (trace (snd updated)) = modifies (trace w))
  /\ (forall entry pwdEncoded,
      fst found = Ok [entry] ->
      utf16le_String (quote +:+ newPassword +:+ quote) = inr pwdEncoded ->
      let req :=
        mkModifyRequest (DN entry) [mkPartialAttribute "unicodePwd" [pwdEncoded]] in
      (forall conn w2,
         getConnection c (snd found) = (Ok conn, w2) ->
         updated
         = (match fst (conn_Modify conn req (env w2)) with
            | Some err => Some (Foreign err)
            | None => None
            end,
            mkWorld (conn_Close conn (snd (conn_Modify conn req (env w2))))
              (trace w2 ++ [EvModify conn req; EvClose conn]))
         /\ modifies (trace (snd updated)) = modifies (trace w) ++ [EvModify conn req])
      /\ (forall err w2,
          getConnection c (snd found) = (Err err, w2) ->
          updated = (Some err, w2)
          /\ modifies (trace (snd updated)) = modifies (trace w))).
Proof.
  intros found updated. subst found updated.
  pose proof (Search_modifies c baseDN filter w) as Hsm.
  unfold UpdatePassword, bind, ret.
  destruct (Search c baseDN filter w) as [r w1]. cbn [fst snd] in *. split.
  - intros entries -> Hlen.
    destruct (Nat.eqb_spec (List.length entries) 1); [contradiction|]. cbn.
    split; [reflexivity|exact Hsm].
  - intros entry pwdEncoded -> Henc. cbn. rewrite Henc. unfold passReq.
    set (req := mkModifyRequest (DN entry) [mkPartialAttribute "unicodePwd" [pwdEncoded]]).
    split.
    + intros conn w2 Hg.
      pose proof (getConnection_modifies c w1) as Hgm.
      rewrite Hg in *. cbn in Hgm. unfold Close, call. cbn. fold req.
      destruct (conn_Modify conn req (env w2)) as [merr e3] eqn:Hm. cbn.
      split.
      * rewrite <- app_assoc. now destruct merr.
      * assert (Ht : forall x : option error,
                  modifies (trace (snd (x,
                     mkWorld (conn_Close conn e3)
                       ((trace w2 ++ [EvModify conn req]) ++ [EvClose conn]))))
                  = modifies (trace w) ++ [EvModify conn req]).
        { intros x. cbn. rewrite modifies_snoc by reflexivity.
          unfold modifies. rewrite List.filter_app. cbn.
          fold (modifies (trace w2)). now rewrite Hgm, Hsm. }
        destruct merr; apply Ht.
    + intros err w2 Hg.
      pose proof (getConnection_modifies c w1) as Hgm.
      rewrite Hg in *. cbn in *. split; [reflexivity|]. now rewrite Hgm.
Qed.

End Facts.

Section Examples.
Import sim.

(** C9 on a run: no server accepts a connection, the three hosts are tried
    in order and the error lists the three failures. *)
Lemma getConnection_failover_witness :
  Split (Url (conf three_hosts)) ","
  = ["ldap://dc1.example.com"; "ldaps://dc2.example.com:3269"; "http://dc3"]
  /\ exists w',
       getConnection three_hosts (ad_world 0)
       = (Err (multierror
                 [hostError "ldap://dc1.example.com"
                    (Foreign "LDAP Result Code 200: connection refused");
                  hostError "ldaps://dc2.example.com:3269"
                    (Foreign "LDAP Result Code 200: connection refused");
                  hostError "http://dc3"
                    (fmt_Errorf "invalid LDAP scheme in url %q" [ArgString "dc3:"])]),
          w').
Proof.
  split; [reflexivity|].
  destruct (getConnection_failover three_hosts (ad_world 0)) as (_ & Herr & _).
  eexists. apply Herr. eexists. split; [|reflexivity].
  change (Split (Url (conf three_hosts)) ",")
    with ["ldap://dc1.example.com"; "ldaps://dc2.example.com:3269"; "http://dc3"].
  repeat (eapply all_fail_cons; [vm_compute; reflexivity|]).
  apply all_fail_nil.
Defined.

(** C4 as stated fails: the search finds exactly one entry, but the server
    accepts no second connection, so [UpdatePassword] returns the connection
    error and no modify request is sent. *)
Lemma UpdatePassword_behaviour_counterexample :
  fst (Search dc1 "DC=example,DC=com" "(cn=svc)" (ad_world 1)) = Ok [svc_entry]
  /\ fst (UpdatePassword dc1 "DC=example,DC=com" "(cn=svc)" "pw" (ad_world 1))
     = Some (multierror
               [hostError "ldap://dc1.example.com"
                  (Foreign "LDAP Result Code 200: connection refused")])
  /\ modifies (trace (snd (UpdatePassword dc1 "DC=example,DC=com" "(cn=svc)" "pw"
                            (ad_world 1)))) = [].
Proof. vm_compute. repeat split. Qed.

(** The amended C4 on a server that accepts both connections: one request,
    carrying the quoted password in UTF-16LE. *)
Lemma UpdatePassword_behaviour_witness :
  fst (Search dc1 "DC=example,DC=com" "(cn=svc)" (ad_world 2)) = Ok [svc_entry]
  /\ modifies (trace (snd (UpdatePassword dc1 "DC=example,DC=com" "(cn=svc)" "pw"
                            (ad_world 2))))
     = [EvModify 1%nat
          (mkModifyRequest "CN=svc,OU=Service Accounts,DC=example,DC=com"
             [mkPartialAttribute "unicodePwd"
                [String "034" (String "000" (String "p" (String "000"
                  (String "w" (String "000" (String "034" (String "000" "")))))))]])].
Proof.
  assert (Hs : fst (Search dc1 "DC=example,DC=com" "(cn=svc)" (ad_world 2))
               = Ok [svc_entry]) by (vm_compute; reflexivity).
  split; [exact Hs|].
  destruct (UpdatePassword_behaviour dc1 "DC=example,DC=com" "(cn=svc)" "pw" (ad_world 2))
    as (_ & H2).
  destruct (H2 svc_entry (utf16le_ascii (quote +:+ "pw" +:+ quote)) Hs eq_refl) as (Hok & _).
  destruct (Hok 1%nat
              (snd (getConnection dc1
                      (snd (Search dc1 "DC=example,DC=com" "(cn=svc)" (ad_world 2))))))
    as (_ & Hm).
  - vm_compute. reflexivity.
  - rewrite Hm. vm_compute. reflexivity.
Defined.

End Examples.

End ClientFacts.

(** ** Further properties of the connection cache *)

Module CacheExtra.
Import database.

Lemma prefix_append (p s : string) : String.prefix p (p +:+ s) = true.
Proof.
  induction p as [|a p IH]; simpl; [now destruct s|].
  destruct (ascii_dec a a); [exact IH|contradiction].
Qed.

Lemma slice_from_append (p s : string) : slice_from (String.length p) (p +:+ s) = s.
Proof. induction p as [|a p IH]; simpl; [now destruct s|exact IH]. Qed.

Lemma TrimPrefix_append (p s : string) : TrimPrefix (p +:+ s) p = s.
Proof.
  unfold TrimPrefix, HasPrefix. rewrite prefix_append. apply slice_from_append.
Qed.

Section Facts.
Context {Env Database StorageEntry : Type}
        `{Capability Env Database} `{ConfigDecoder StorageEntry}.

Lemma GetConnection_hit (b : databaseBackend Env Database)
    (s : Storage StorageEntry) (name : string) (d : Database) :
  connections b !! name = Some d -> GetConnection s name b = (Ok d, b).
Proof.
  intros Hm. unfold GetConnection, get_connections, bind, ret. cbn. now rewrite Hm.
Qed.

(** X1.  Once [GetConnection] has built and returned an instance for a name
    that was not cached, a further [GetConnection] for that name, with any
    storage, returns the same instance and changes nothing: no configuration
    is read, nothing is constructed, initialized or closed. *)
Theorem GetConnection_reuses (b : databaseBackend Env Database)
    (s s' : Storage StorageEntry) (name : string) (d : Database) :
  connections b !! name = None ->
  fst (GetConnection s name b) = Ok d ->
  GetConnection s' name (snd (GetConnection s name b))
  = (Ok d, snd (GetConnection s name b)).
Proof.
  intros Hm. rewrite (CacheFacts.GetConnection_miss _ _ _ Hm).
  destruct (DatabaseConfig s name) as [config|err]; cbn [fst snd]; [|discriminate].
  destruct (PluginFactory (PluginName config) (env b)) as [[d0|err] env1];
    cbn [fst snd]; [|discriminate].
  destruct (db_Initialize d0 (ConnectionDetails config) true env1) as [[err|] env2];
    cbn [fst snd]; [discriminate|].
  intros Hd. inversion Hd; subst d0. apply GetConnection_hit. cbn [connections].
  apply lookup_insert_eq.
Qed.

(** X2.  [ClearConnection] followed by [GetConnection] for the same name:
    when the clear returned nil the name is no longer cached, so an instance
    is returned only after the configuration has been read again and a new
    instance has been constructed and initialized; when the clear returned
    the error of [Close] the old instance is still cached and is returned
    as it is, with nothing constructed. *)
Theorem Clear_then_Get (b : databaseBackend Env Database)
    (s : Storage StorageEntry) (name : string) :
  let b1 := snd (ClearConnection name b) in
  (fst (ClearConnection name b) = None ->
   connections b1 !! name = None
   /\ forall d, fst (GetConnection s name b1) = Ok d ->
        exists config env1 env2,
          DatabaseConfig s name = Ok config
          /\ PluginFactory (PluginName config) (env b1) = (Ok d, env1)
          /\ db_Initialize d (ConnectionDetails config) true env1 = (None, env2))
  /\ (forall err, fst (ClearConnection name b) = Some err ->
      exists d0, connections b !! name = Some d0
                 /\ GetConnection s name b1 = (Ok d0, b1)).
Proof.
  intros b1. subst b1. split.
  - intros Hnil.
    assert (Hgone : connections (snd (ClearConnection name b)) !! name = None).
    { destruct (connections b !! name) as [d0|] eqn:Hm.
      - rewrite (CacheFacts.ClearConnection_present _ _ _ Hm) in *.
        destruct (db_Close d0 (env b)) as [[err|] env']; cbn in *; [discriminate|].
        apply lookup_delete_eq.
      - now rewrite (CacheFacts.ClearConnection_absent _ _ Hm). }
    split; [exact Hgone|]. intros d.
    rewrite (CacheFacts.GetConnection_miss _ _ _ Hgone).
    destruct (DatabaseConfig s name) as [config|err]; cbn; [|discriminate].
    destruct (PluginFactory (PluginName config) _) as [[d1|err] env1] eqn:Hf; cbn;
      [|discriminate].
    destruct (db_Initialize d1 (ConnectionDetails config) true env1)
      as [[err|] env2] eqn:Hi; cbn; [discriminate|].
    intros Hd. inversion Hd; subst d1. eauto 6.
  - intros err Herr.
    destruct (connections b !! name) as [d0|] eqn:Hm.
    + exists d0. split; [reflexivity|]. apply GetConnection_hit.
      rewrite (CacheFacts.ClearConnection_present _ _ _ Hm) in *.
      destruct (db_Close d0 (env b)) as [[err'|] env']; cbn in *;
        [exact Hm|discriminate].
    + rewrite (CacheFacts.ClearConnection_absent _ _ Hm) in Herr. discriminate.
Qed.

(** X3.  Neither [ClearConnection] nor [GetConnection] touches the entry of
    any other name. *)
Theorem other_names_untouched (b : databaseBackend Env Database)
    (s : Storage StorageEntry) (name name' : string) :
  name <> name' ->
  connections (snd (ClearConnection name b)) !! name' = connections b !! name'
  /\ connections (snd (GetConnection s name b)) !! name' = connections b !! name'.
Proof.
  intros Hne. split.
  - destruct (connections b !! name) as [d0|] eqn:Hm.
    + rewrite (CacheFacts.ClearConnection_present _ _ _ Hm).
      destruct (db_Close d0 (env b)) as [[err|] env']; cbn; [reflexivity|].
      now apply lookup_delete_ne.
    + now rewrite (CacheFacts.ClearConnection_absent _ _ Hm).
  - destruct (connections b !! name) as [d0|] eqn:Hm.
    + now rewrite (GetConnection_hit _ s _ _ Hm).
    + rewrite (CacheFacts.GetConnection_miss _ _ _ Hm).
      destruct (DatabaseConfig s name) as [config|err]; cbn; [|reflexivity].
      destruct (PluginFactory (PluginName config) _) as [[d1|err] env1]; cbn;
        [|reflexivity].
      destruct (db_Initialize d1 (ConnectionDetails config) true env1)
        as [[err|] env2]; cbn; [reflexivity|].
      now apply lookup_insert_ne.
Qed.

(** X4.  A miss for a name whose configuration cannot be obtained fails and
    leaves the backend exactly as it was, with no plugin call at all: an
    absent entry gives the not-found error naming the connection, a storage
    error is wrapped, and a decoding error is returned as it is. *)
Theorem GetConnection_without_config (b : databaseBackend Env Database)
    (s : Storage StorageEntry) (name : string) :
  connections b !! name = None ->
  (Get s ("config/" +:+ name) = Ok None ->
   GetConnection s name b
   = (Err (fmt_Errorf "failed to find entry for connection with name: %s"
             [ArgString name]), b))
  /\ (forall err, Get s ("config/" +:+ name) = Err err ->
      GetConnection s name b
      = (Err (fmt_Errorf "failed to read connection configuration: %s"
                [ArgError err]), b))
  /\ (forall entry err, Get s ("config/" +:+ name) = Ok (Some entry) ->
      DecodeJSON_DatabaseConfig entry = Err err ->
      GetConnection s name b = (Err err, b)).
Proof.
  intros Hm. rewrite (CacheFacts.GetConnection_miss _ _ _ Hm).
  unfold DatabaseConfig. repeat apply conj.
  - intros ->. reflexivity.
  - intros err ->. reflexivity.
  - intros entry err -> ->. reflexivity.
Qed.

(** X5.  [invalidate] acts on the keys that begin with database/config/ and
    on no other: for such a key it leaves the backend as [ClearConnection]
    of the rest of the key does, dropping its result; any other key leaves
    the backend unchanged.  In particular a key config/NAME, the path
    under which [DatabaseConfig] reads the configuration of NAME, clears
    nothing. *)
Theorem invalidate_keys (b : databaseBackend Env Database) :
  (forall name,
     invalidate (databaseConfigPath +:+ name) b = (tt, snd (ClearConnection name b)))
  /\ (forall key, HasPrefix key databaseConfigPath = false -> invalidate key b = (tt, b))
  /\ (forall name, invalidate ("config/" +:+ name) b = (tt, b)).
Proof.
  repeat apply conj.
  - intros name. unfold invalidate, HasPrefix.
    rewrite prefix_append, TrimPrefix_append. unfold bind, ret.
    now destruct (ClearConnection name b).
  - intros key Hk. unfold invalidate. now rewrite Hk.
  - intros name. unfold invalidate. reflexivity.
Qed.

Lemma closeEach_spec (ds : list Database) (b : databaseBackend Env Database) :
  exists env',
    closeEach ds b = (tt, mkBackend (connections b) env' (trace b ++ map EvClose ds)).
Proof.
  revert b. induction ds as [|d ds IH]; intros b.
  - exists (env b). cbn. rewrite app_nil_r. now destruct b.
  - cbn [closeEach]. unfold bind, call.
    destruct (db_Close d (env b)) as [cerr env1].
    destruct (IH (mkBackend (connections b) env1 (trace b ++ [EvClose d]))) as [env' Hc].
    exists env'. rewrite Hc. cbn. now rewrite <- app_assoc.
Qed.

(** X6.  [closeAllDBs], in whatever order it visits the map: the map is
    empty afterwards; the calls it makes are the [Close] calls of the
    visited instances, one for each entry of the map, so every cached
    instance is closed; and no result of a [Close] stops the loop or keeps
    an entry. *)
Theorem closeAllDBs_empties (b : databaseBackend Env Database)
    (visit : list (string * Database)) :
  visit ≡ₚ map_to_list (connections b) ->
  let b' := snd (closeAllDBs visit b) in
  connections b' = ∅
  /\ trace b' = trace b ++ map EvClose (map snd visit)
  /\ length (map EvClose (map snd visit)) = size (connections b)
  /\ (forall name d, connections b !! name = Some d ->
      In (EvClose d) (map EvClose (map snd visit)))
  /\ (forall name, connections b' !! name = None).
Proof.
  intros Hp b'. subst b'. unfold closeAllDBs, bind, modify_connections.
  destruct (closeEach_spec (map snd visit) b) as [env' Hc]. rewrite Hc. cbn.
  repeat apply conj.
  - reflexivity.
  - reflexivity.
  - rewrite !length_map, Hp. apply length_map_to_list.
  - intros name d Hm. apply in_map, in_map_iff. exists (name, d). split; [reflexivity|].
    apply list_elem_of_In. rewrite Hp. now apply elem_of_map_to_list.
  - intros name. apply lookup_empty.
Qed.

End Facts.

(** *** Entries backed by SQL producers *)

Section SQL.
Import sqlplugin.
Context {E : Type} `{connutil.Driver E} `{connutil.Decoding}.

(** X7.  For a cache entry whose instance is a SQL producer,
    [CloseIfShutdown] with an error the switch recognises always evicts the
    entry, because the producer's [Close] cannot fail; with any other error
    it leaves the backend as it was. *)
Theorem CloseIfShutdown_evicts (is_shutdown : error -> bool)
    (b : databaseBackend (Env E) nat) (name : string) (h : nat)
    (p : connutil.SQLConnectionProducer) (err : error) :
  connections b !! name = Some h ->
  heap (env b) !! h = Some p ->
  (is_shutdown err = true ->
   connections (snd (CloseIfShutdown is_shutdown name err b))
   = delete name (connections b))
  /\ (is_shutdown err = false -> CloseIfShutdown is_shutdown name err b = (tt, b)).
Proof.
  intros Hm Hh. split; intros Hs; unfold CloseIfShutdown; rewrite Hs; [|reflexivity].
  unfold bind, ret. rewrite (CacheFacts.ClearConnection_present _ _ _ Hm).
  pose proof (CacheFacts.close_producer _ _ _ Hh) as Hc. cbn.
  destruct (close h (env b)) as [cerr e']. cbn in Hc. subst cerr. reflexivity.
Qed.

End SQL.

Section Examples.
Import sim sqlplugin.

Lemma GetConnection_reuses_witness :
  connections (backend0 true) !! "pg" = None
  /\ fst (GetConnection (store_pg conf_5_10) "pg" (backend0 true)) = Ok 0%nat
  /\ GetConnection (store_pg ∅) "pg" cached = (Ok 0%nat, cached).
Proof.
  assert (Hm : connections (backend0 true) !! "pg" = None) by reflexivity.
  assert (Hok : fst (GetConnection (store_pg conf_5_10) "pg" (backend0 true)) = Ok 0%nat)
    by (vm_compute; reflexivity).
  split; [exact Hm|]. split; [exact Hok|].
  exact (GetConnection_reuses (backend0 true) (store_pg conf_5_10) (store_pg ∅)
           "pg" 0%nat Hm Hok).
Defined.

Lemma Clear_then_Get_witness :
  fst (ClearConnection "pg" cached) = None
  /\ connections (snd (ClearConnection "pg" cached)) !! "pg" = None.
Proof.
  assert (Hnil : fst (ClearConnection "pg" cached) = None) by (vm_compute; reflexivity).
  split; [exact Hnil|].
  destruct (Clear_then_Get cached (store_pg conf_5_10) "pg") as (H1 & _).
  exact (proj1 (H1 Hnil)).
Defined.

Lemma other_names_untouched_witness :
  "other" <> "pg"
  /\ connections (snd (ClearConnection "other" cached)) !! "pg" = connections cached !! "pg".
Proof.
  assert (Hne : "other" <> "pg") by discriminate.
  split; [exact Hne|].
  exact (proj1 (other_names_untouched cached (store_pg conf_5_10) "other" "pg" Hne)).
Defined.

Lemma GetConnection_without_config_witness :
  connections (backend0 true) !! "mysql" = None
  /\ GetConnection (store_pg conf_5_10) "mysql" (backend0 true)
     = (Err (fmt_Errorf "failed to find entry for connection with name: %s"
               [ArgString "mysql"]), backend0 true).
Proof.
  assert (Hm : connections (backend0 true) !! "mysql" = None) by reflexivity.
  split; [exact Hm|].
  destruct (GetConnection_without_config (backend0 true) (store_pg conf_5_10) "mysql" Hm)
    as (H1 & _).
  apply H1. reflexivity.
Defined.

Lemma invalidate_keys_witness :
  HasPrefix "role/app-admin" databaseConfigPath = false
  /\ invalidate "role/app-admin" cached = (tt, cached)
  /\ connections (snd (invalidate "database/config/pg" cached)) !! "pg" = None.
Proof.
  assert (Hk : HasPrefix "role/app-admin" databaseConfigPath = false) by reflexivity.
  split; [exact Hk|].
  destruct (invalidate_keys cached) as (H1 & H2 & _).
  split; [exact (H2 "role/app-admin" Hk)|].
  change "database/config/pg" with (databaseConfigPath +:+ "pg").
  rewrite (H1 "pg"). vm_compute. reflexivity.
Defined.

Lemma closeAllDBs_empties_witness :
  map_to_list (connections cached) ≡ₚ map_to_list (connections cached)
  /\ connections (snd (closeAllDBs (map_to_list (connections cached)) cached)) = ∅.
Proof.
  assert (Hp : map_to_list (connections cached) ≡ₚ map_to_list (connections cached))
    by reflexivity.
  split; [exact Hp|].
  exact (proj1 (closeAllDBs_empties cached (map_to_list (connections cached)) Hp)).
Defined.

Lemma CloseIfShutdown_evicts_witness :
  connections cached !! "pg" = Some 0%nat
  /\ connections (snd (CloseIfShutdown (fun _ => true) "pg" (Foreign "connection is shut down")
                         cached))
     = delete "pg" (connections cached).
Proof.
  assert (Hm : connections cached !! "pg" = Some 0%nat) by (vm_compute; reflexivity).
  assert (Hp : is_Some (heap (env cached) !! 0%nat)) by (vm_compute; eauto).
  destruct Hp as [p Hp].
  split; [exact Hm|].
  exact (proj1 (CloseIfShutdown_evicts (fun _ => true) cached "pg" 0%nat p
                  (Foreign "connection is shut down") Hm Hp) eq_refl).
Defined.

End Examples.

End CacheExtra.

(** ** Further properties of the SQL connection producer *)

Module ProducerExtra.
Import connutil.

Lemma len_zero (s : string) : (len s =? 0) = true <-> s = "".
Proof.
  unfold len. destruct s; cbn; split; intros Hs; try reflexivity; discriminate.
Qed.

Section Facts.
Context {Env : Type} `{Driver Env} `{Decoding}.

Lemma rawLifetime_defaults (c1 : SQLConnectionProducer) :
  rawLifetime (defaultLifetimeRaw (clampMaxIdle (defaultMaxIdle (defaultMaxOpen c1))))
  = rawLifetime c1.
Proof.
  unfold rawLifetime, defaultLifetimeRaw, clampMaxIdle, defaultMaxIdle, defaultMaxOpen.
  destruct c1 as [url mo mi raw u pw ty life ini h]. cbn.
  destruct (mo =? 0); cbn; destruct (mi =? 0); cbn;
    repeat match goal with
           | |- context [?a >? ?b] => destruct (a >? b); cbn
           end;
    destruct raw; reflexivity.
Qed.

Lemma templated_check (c1 : SQLConnectionProducer) :
  negb (len (Username c1) =? 0) && negb (len (Password c1) =? 0)
  && (negb (Contains (ConnectionURL c1) "{{username}}")
      || negb (Contains (ConnectionURL c1) "{{password}}")) = false
  <-> (Username c1 <> "" -> Password c1 <> "" ->
       Contains (ConnectionURL c1) "{{username}}" = true
       /\ Contains (ConnectionURL c1) "{{password}}" = true).
Proof.
  destruct (len (Username c1) =? 0) eqn:Hu; cbn.
  { apply len_zero in Hu. split; [intros _ Hn; contradiction|reflexivity]. }
  destruct (len (Password c1) =? 0) eqn:Hp; cbn.
  { apply len_zero in Hp. split; [intros _ _ Hn; contradiction|reflexivity]. }
  assert (Hu' : Username c1 <> "") by (intros Hz; apply len_zero in Hz; congruence).
  assert (Hp' : Password c1 <> "") by (intros Hz; apply len_zero in Hz; congruence).
  destruct (Contains (ConnectionURL c1) "{{username}}"),
           (Contains (ConnectionURL c1) "{{password}}"); cbn;
    split; intros Hx; try reflexivity; try discriminate; auto;
    destruct (Hx Hu' Hp'); discriminate.
Qed.

Lemma Initialize_unverified (conf : Conf) (s : state Env) :
  env (snd (Initialize conf false s)) = env s
  /\ trace (snd (Initialize conf false s)) = trace s
  /\ (is_Ok (fst (Initialize conf false s)) = true
      <-> valid (fst (WeakDecode conf (c s))) (snd (WeakDecode conf (c s)))).
Proof.
  unfold Initialize, valid, bind, get_c, modify_c, ret. cbn.
  destruct (WeakDecode conf (c s)) as [[derr|] c1]; cbn.
  { repeat split; try discriminate. intros (Hd & _). discriminate. }
  destruct (len (ConnectionURL c1) =? 0) eqn:Hurl; cbn.
  { apply len_zero in Hurl. repeat split; try discriminate.
    intros (_ & Hn & _). contradiction. }
  assert (Hurl' : ConnectionURL c1 <> "")
    by (intros Hz; apply len_zero in Hz; congruence).
  pose proof (templated_check c1) as Ht.
  destruct (negb (len (Username c1) =? 0) && negb (len (Password c1) =? 0)
            && (negb (Contains (ConnectionURL c1) "{{username}}")
                || negb (Contains (ConnectionURL c1) "{{password}}"))); cbn.
  { repeat split; try discriminate. intros (_ & _ & Hc & _).
    apply Ht in Hc. discriminate. }
  rewrite rawLifetime_defaults.
  destruct (ParseDurationSecond (rawLifetime c1)) as [d [perr|]]; cbn.
  { repeat split; try discriminate. intros (_ & _ & _ & Hp). discriminate. }
  split; [reflexivity|]. split; [reflexivity|]. split; [|reflexivity].
  intros _. repeat split; auto; now apply Ht.
Qed.

(** X8.  [Initialize] accepts a configuration without verification exactly
    when the map decodes, the decoded connection URL is not empty, the URL
    holds both placeholders in case a user name and a password are both
    given, and the (defaulted) connection lifetime parses; with
    verification these conditions remain necessary. *)
Theorem Initialize_accepts_iff (conf : Conf) (v : bool) (s : state Env) :
  let derr := fst (WeakDecode conf (c s)) in
  let c1 := snd (WeakDecode conf (c s)) in
  let accepted :=
    derr = None
    /\ ConnectionURL c1 <> ""
    /\ (Username c1 <> "" -> Password c1 <> "" ->
        Contains (ConnectionURL c1) "{{username}}" = true
        /\ Contains (ConnectionURL c1) "{{password}}" = true)
    /\ snd (ParseDurationSecond (rawLifetime c1)) = None in
  (is_Ok (fst (Initialize conf false s)) = true <-> accepted)
  /\ (is_Ok (fst (Initialize conf v s)) = true -> accepted).
Proof.
  cbn zeta. destruct (Initialize_unverified conf s) as (_ & _ & Hiff).
  split; [exact Hiff|]. intros Hok. apply Hiff.
  now apply ProducerFacts.Initialize_Ok_validated with (v := v).
Qed.

(** X9.  Without verification [Initialize] does not call the driver at all;
    and when validation fails, asking for verification changes nothing:
    the result and the state are those of the call without verification,
    so again the driver is not called. *)
Theorem Initialize_driver_calls (conf : Conf) (s : state Env) :
  env (snd (Initialize conf false s)) = env s
  /\ trace (snd (Initialize conf false s)) = trace s
  /\ (is_Ok (fst (Initialize conf false s)) = false ->
      Initialize conf true s = Initialize conf false s).
Proof.
  destruct (Initialize_unverified conf s) as (He & Ht & _).
  split; [exact He|]. split; [exact Ht|].
  unfold Initialize, bind, get_c, modify_c, ret. cbn.
  destruct (WeakDecode conf (c s)) as [[derr|] c1]; cbn; [reflexivity|].
  destruct (len (ConnectionURL c1) =? 0); cbn; [reflexivity|].
  destruct (negb (len (Username c1) =? 0) && negb (len (Password c1) =? 0)
            && (negb (Contains (ConnectionURL c1) "{{username}}")
                || negb (Contains (ConnectionURL c1) "{{password}}"))); cbn;
    [reflexivity|].
  destruct (ParseDurationSecond _) as [d [perr|]]; cbn; [reflexivity|discriminate].
Qed.

(** X10.  Whenever validation passes, with or without verification and
    whatever the verification answers, the producer is left with pool
    bounds that are both non-zero, with max-idle at most max-open, and with
    a connection lifetime setting that is not nil; the connection URL and
    the driver type are those of the decoded configuration. *)
Theorem Initialize_bounds_invariant (conf : Conf) (v : bool) (s : state Env) :
  is_Ok (fst (Initialize conf false s)) = true ->
  let c1 := snd (WeakDecode conf (c s)) in
  let c' := c (snd (Initialize conf v s)) in
  MaxIdleConnections c' <= MaxOpenConnections c'
  /\ MaxOpenConnections c' <> 0
  /\ MaxIdleConnections c' <> 0
  /\ MaxConnectionLifetimeRaw c' <> None
  /\ ConnectionURL c' = ConnectionURL c1
  /\ Type_ c' = Type_ c1.
Proof.
  intros Hok c1 c'.
  destruct (ProducerFacts.Initialize_cases conf v s) as [[_ Hf]|[_ [d Hc]]];
    [congruence|].
  subst c'. rewrite Hc. fold c1.
  unfold validated, defaultLifetimeRaw, clampMaxIdle, defaultMaxIdle, defaultMaxOpen.
  destruct c1 as [url mo mi raw u pw ty life ini h]. cbn.
  destruct (Z.eqb_spec mo 0) as [Hmo|Hmo]; cbn;
    destruct (Z.eqb_spec mi 0) as [Hmi|Hmi]; cbn;
    repeat match goal with
           | |- context [?a >? ?b] => destruct (Z.gtb_spec a b); cbn
           end;
    destruct raw; cbn; repeat split; try lia; discriminate.
Qed.

(** X11.  For an initialized producer the result of [Connection] and the
    stored handle agree: a returned handle is the one the producer holds
    afterwards, and after an error the producer holds none. *)
Theorem Connection_result_stored (s : state Env) :
  Initialized (c s) = true ->
  (forall h, fst (Connection s) = Ok h -> db (c (snd (Connection s))) = Some h)
  /\ (forall e, fst (Connection s) = Err e -> db (c (snd (Connection s))) = None).
Proof.
  intros Hi. split; [intros h; apply ProducerFacts.Connection_Ok_db|].
  intros e.
  destruct (db (c s)) as [h0|] eqn:Hd.
  - destruct (db_PingContext h0 (env s)) as [[perr|] e1] eqn:Hp.
    + rewrite (ProducerFacts.Connection_ping_failed _ _ _ _ Hi Hd Hp).
      destruct (sql_Open _ _ _) as [[err|h'] e2]; cbn; [reflexivity|discriminate].
    + rewrite (ProducerFacts.Connection_ping_ok _ _ _ Hi Hd Hp). cbn. discriminate.
  - rewrite (ProducerFacts.Connection_no_handle _ Hi Hd).
    destruct (sql_Open _ _ _) as [[err|h'] e2]; cbn; [reflexivity|discriminate].
Qed.

Lemma verify_nil (s : state Env) :
  fst (verify s) = None ->
  exists h, db (c (snd (verify s))) = Some h
            /\ trace (snd (verify s)) = trace (snd (Connection s)) ++ [EvPing h].
Proof.
  unfold verify, bind, get_c, ret, PingContext, call.
  destruct (Connection s) as [[h0|e] s1]; cbn; [|discriminate].
  destruct (db (c s1)) as [h|] eqn:Hd; cbn; [|discriminate].
  destruct (db_PingContext h (env s1)) as [[perr|] e1]; cbn; [discriminate|].
  intros _. eauto.
Qed.

(** X12.  When [Initialize] with verification returns without error, it
    returns the configuration map it was given, the producer holds a
    handle, and the last thing asked of the driver is the ping of that
    handle. *)
Theorem Initialize_verified_handle (conf saveConf : Conf) (s : state Env) :
  fst (Initialize conf true s) = Ok saveConf ->
  saveConf = conf
  /\ exists h t,
       db (c (snd (Initialize conf true s))) = Some h
       /\ trace (snd (Initialize conf true s)) = t ++ [EvPing h].
Proof.
  unfold Initialize, bind, get_c, modify_c, ret. cbn.
  destruct (WeakDecode conf (c s)) as [[derr|] c1]; cbn; [discriminate|].
  destruct (len (ConnectionURL c1) =? 0); cbn; [discriminate|].
  destruct (negb (len (Username c1) =? 0) && negb (len (Password c1) =? 0)
            && (negb (Contains (ConnectionURL c1) "{{username}}")
                || negb (Contains (ConnectionURL c1) "{{password}}"))); cbn;
    [discriminate|].
  destruct (ParseDurationSecond _) as [d [perr|]]; cbn; [discriminate|].
  match goal with |- context [verify ?s0] =>
    pose proof (verify_nil s0) as Hv; destruct (verify s0) as [verr s3]
  end.
  cbn in Hv. destruct verr as [e|]; cbn; [discriminate|].
  intros Hr. inversion Hr. split; [reflexivity|].
  destruct (Hv eq_refl) as (h & Hd & Ht). eauto.
Qed.

(** X13.  [Close] does not undo [Initialize]: on an initialized producer a
    [Connection] after [Close] never answers with the not-initialized
    error; it pings nothing and goes straight to [sql.Open] with the
    producer's driver type and connection string. *)
Theorem Close_then_Connection (s : state Env) :
  Initialized (c s) = true ->
  let s1 := snd (Close s) in
  fst (Connection s1) <> Err ErrNotInitialized
  /\ exists rest,
       trace (snd (Connection s1))
       = trace s1 ++ EvOpen (dbType (c s)) (connString (c s)) :: rest.
Proof.
  intros Hi s1. subst s1. rewrite ProducerFacts.Close_spec. cbn [snd].
  set (s1 := match db (c s) with
             | Some h => mkState (set_db None (c s)) (snd (db_Close h (env s)))
                           (trace s ++ [EvClose h])
             | None => mkState (set_db None (c s)) (env s) (trace s)
             end).
  assert (Hc : c s1 = set_db None (c s)) by (subst s1; now destruct (db (c s))).
  assert (Hi1 : Initialized (c s1) = true) by (rewrite Hc; exact Hi).
  assert (Hd1 : db (c s1) = None) by (rewrite Hc; reflexivity).
  rewrite (ProducerFacts.Connection_no_handle _ Hi1 Hd1). rewrite Hc.
  change (dbType (set_db None (c s))) with (dbType (c s)).
  change (connString (set_db None (c s))) with (connString (c s)).
  destruct (sql_Open _ _ _) as [[err|h'] e2]; cbn.
  - split; [discriminate|]. eauto.
  - split; [discriminate|]. eauto.
Qed.

(** X14.  One call of [Connection] appends to the trace at most one
    [sql.Open], and it closes a handle only if that handle is the one the
    producer held and its ping has just failed. *)
Theorem Connection_events (s : state Env) :
  exists evs,
    trace (snd (Connection s)) = trace s ++ evs
    /\ (length (opens evs) <= 1)%nat
    /\ (forall h, In (EvClose h) evs ->
        db (c s) = Some h /\ fst (db_PingContext h (env s)) <> None).
Proof.
  destruct (Initialized (c s)) eqn:Hi.
  - destruct (db (c s)) as [h0|] eqn:Hd.
    + destruct (db_PingContext h0 (env s)) as [[perr|] e1] eqn:Hp.
      * rewrite (ProducerFacts.Connection_ping_failed _ _ _ _ Hi Hd Hp).
        destruct (sql_Open _ _ _) as [[err|h'] e2]; cbn;
          rewrite <- !app_assoc; eexists; (split; [reflexivity|]); cbn;
          (split; [lia|]); intros h Hin;
          repeat (destruct Hin as [Hin|Hin]; try discriminate; try contradiction);
          inversion Hin; subst; (split; [reflexivity|rewrite Hp; discriminate]).
      * rewrite (ProducerFacts.Connection_ping_ok _ _ _ Hi Hd Hp). cbn.
        eexists; split; [reflexivity|]. cbn. split; [lia|].
        intros h [Hin|[]]. discriminate.
    + rewrite (ProducerFacts.Connection_no_handle _ Hi Hd).
      destruct (sql_Open _ _ _) as [[err|h'] e2]; cbn;
        try rewrite <- !app_assoc; eexists; (split; [reflexivity|]); cbn;
        (split; [lia|]); intros h Hin;
        repeat (destruct Hin as [Hin|Hin]; try discriminate; try contradiction).
  - rewrite (ProducerFacts.Connection_uninitialized _ Hi). cbn.
    exists []. rewrite app_nil_r. split; [reflexivity|]. cbn. split; [lia|].
    intros h [].
Qed.

End Facts.

Section Examples.
Import sim.

Lemma Initialize_accepts_iff_witness :
  is_Ok (fst (Initialize conf_5_10 true (fresh "postgres" true))) = true
  /\ ConnectionURL (snd (WeakDecode conf_5_10 (c (fresh "postgres" true)))) <> "".
Proof.
  assert (Hok : is_Ok (fst (Initialize conf_5_10 true (fresh "postgres" true))) = true)
    by (vm_compute; reflexivity).
  split; [exact Hok|].
  destruct (Initialize_accepts_iff conf_5_10 true (fresh "postgres" true)) as (_ & H2).
  exact (proj1 (proj2 (H2 Hok))).
Defined.

Lemma Initialize_driver_calls_witness :
  is_Ok (fst (Initialize ∅ false (fresh "postgres" true))) = false
  /\ Initialize ∅ true (fresh "postgres" true) = Initialize ∅ false (fresh "postgres" true).
Proof.
  assert (Hf : is_Ok (fst (Initialize ∅ false (fresh "postgres" true))) = false)
    by (vm_compute; reflexivity).
  split; [exact Hf|].
  destruct (Initialize_driver_calls ∅ (fresh "postgres" true)) as (_ & _ & H3).
  exact (H3 Hf).
Defined.

Lemma Initialize_bounds_invariant_witness :
  is_Ok (fst (Initialize conf_5_10 false (fresh "postgres" false))) = true
  /\ MaxIdleConnections (c (snd (Initialize conf_5_10 true (fresh "postgres" false))))
     <= MaxOpenConnections (c (snd (Initialize conf_5_10 true (fresh "postgres" false)))).
Proof.
  assert (Hok : is_Ok (fst (Initialize conf_5_10 false (fresh "postgres" false))) = true)
    by (vm_compute; reflexivity).
  split; [exact Hok|].
  exact (proj1 (Initialize_bounds_invariant conf_5_10 true (fresh "postgres" false) Hok)).
Defined.

Lemma Connection_result_stored_witness :
  Initialized (c initialized) = true
  /\ fst (Connection initialized) = Ok 0%nat
  /\ db (c (snd (Connection initialized))) = Some 0%nat.
Proof.
  assert (Hi : Initialized (c initialized) = true) by (vm_compute; reflexivity).
  assert (Hok : fst (Connection initialized) = Ok 0%nat) by (vm_compute; reflexivity).
  split; [exact Hi|]. split; [exact Hok|].
  exact (proj1 (Connection_result_stored initialized Hi) 0%nat Hok).
Defined.

Lemma Initialize_verified_handle_witness :
  fst (Initialize conf_5_10 true (fresh "postgres" true)) = Ok conf_5_10
  /\ exists h t,
       db (c (snd (Initialize conf_5_10 true (fresh "postgres" true)))) = Some h
       /\ trace (snd (Initialize conf_5_10 true (fresh "postgres" true))) = t ++ [EvPing h].
Proof.
  assert (Hok : fst (Initialize conf_5_10 true (fresh "postgres" true)) = Ok conf_5_10)
    by (vm_compute; reflexivity).
  split; [exact Hok|].
  exact (proj2 (Initialize_verified_handle conf_5_10 conf_5_10 (fresh "postgres" true) Hok)).
Defined.

Lemma Close_then_Connection_witness :
  Initialized (c initialized) = true
  /\ fst (Connection (snd (Close initialized))) <> Err ErrNotInitialized.
Proof.
  assert (Hi : Initialized (c initialized) = true) by (vm_compute; reflexivity).
  split; [exact Hi|].
  exact (proj1 (Close_then_Connection initialized Hi)).
Defined.

End Examples.

End ProducerExtra.

(** ** Further properties of the directory configuration *)

Module ConfigExtra.
Import tlsutil ldap.

Lemma nonempty_false (s : string) : nonempty s = false <-> s = "".
Proof.
  unfold nonempty. destruct (String.eqb_spec s ""); cbn; split; congruence.
Qed.

Lemma guarded_copy (s : string) : (if nonempty s then s else "") = s.
Proof.
  destruct (nonempty s) eqn:Hn; [reflexivity|]. now apply nonempty_false in Hn.
Qed.

Section Facts.
Context `{Parsers} `{Lookup}.

Lemma check_groupfilter_None (groupfilter : string) :
  check_groupfilter groupfilter = None
  <-> groupfilter = "" \/ template_Parse groupfilter = None.
Proof.
  unfold check_groupfilter. destruct (nonempty groupfilter) eqn:Hn.
  - assert (groupfilter <> "") by (intros Hz; apply nonempty_false in Hz; congruence).
    destruct (template_Parse groupfilter); split; intros Hx; try discriminate; auto.
    destruct Hx; [contradiction|discriminate].
  - apply nonempty_false in Hn. split; auto.
Qed.

Lemma check_certificate_None (certificate : string) :
  check_certificate certificate = None
  <-> certificate = ""
      \/ exists block,
           pem_Decode certificate = Some block
           /\ Block_Type block = "CERTIFICATE"
           /\ x509_ParseCertificate (Block_Bytes block) = None.
Proof.
  unfold check_certificate. destruct (nonempty certificate) eqn:Hn.
  - assert (certificate <> "") by (intros Hz; apply nonempty_false in Hz; congruence).
    destruct (pem_Decode certificate) as [block|].
    + destruct (String.eqb_spec (Block_Type block) "CERTIFICATE") as [Ht|Ht]; cbn.
      * destruct (x509_ParseCertificate (Block_Bytes block)) eqn:Hx; split; intros Hy;
          try discriminate; eauto.
        destruct Hy as [?|(b & Hb & _ & Hp)]; [contradiction|].
        inversion Hb; subst. congruence.
      * split; [discriminate|].
        intros [?|(b & Hb & Hty & _)]; [contradiction|]. inversion Hb; subst.
        contradiction.
    + split; [discriminate|]. intros [?|(b & Hb & _)]; [contradiction|discriminate].
  - apply nonempty_false in Hn. split; auto.
Qed.

Lemma check_tls_versions_None (tlsMin tlsMax : string) :
  check_tls_versions tlsMin tlsMax = None
  <-> tlsMin <> "" /\ tlsMax <> ""
      /\ is_Some (TLSLookup !! tlsMin) /\ is_Some (TLSLookup !! tlsMax)
      /\ string_lt tlsMax tlsMin = false.
Proof.
  unfold check_tls_versions.
  destruct (String.eqb_spec tlsMin "") as [Hmin|Hmin].
  { split; [discriminate|]. intros (Hn & _). contradiction. }
  destruct (TLSLookup !! tlsMin) as [vmin|] eqn:Hlmin.
  2: { split; [discriminate|]. intros (_ & _ & [x Hx] & _). discriminate. }
  destruct (String.eqb_spec tlsMax "") as [Hmax|Hmax].
  { split; [discriminate|]. intros (_ & Hn & _). contradiction. }
  destruct (TLSLookup !! tlsMax) as [vmax|] eqn:Hlmax.
  2: { split; [discriminate|]. intros (_ & _ & _ & [x Hx] & _). discriminate. }
  destruct (string_lt tlsMax tlsMin) eqn:Hlt.
  - split; [discriminate|]. intros (_ & _ & _ & _ & Hf). discriminate.
  - split; [|reflexivity]. intros _. repeat split; eauto.
Qed.

(** X15.  [NewConfiguration] accepts field data exactly when the group
    filter is empty or parses as a template, the certificate is empty or is
    a PEM block of type CERTIFICATE whose bytes parse, both version
    identifiers are non-empty and in the table, and tls_max_version is not
    below tls_min_version in the order of strings. *)
Theorem NewConfiguration_accepts_iff (fd : FieldData) :
  is_Ok (NewConfiguration fd) = true
  <-> (Get_groupfilter fd = "" \/ template_Parse (Get_groupfilter fd) = None)
      /\ (Get_certificate fd = ""
          \/ exists block,
               pem_Decode (Get_certificate fd) = Some block
               /\ Block_Type block = "CERTIFICATE"
               /\ x509_ParseCertificate (Block_Bytes block) = None)
      /\ Get_tls_min_version fd <> "" /\ Get_tls_max_version fd <> ""
      /\ is_Some (TLSLookup !! Get_tls_min_version fd)
      /\ is_Some (TLSLookup !! Get_tls_max_version fd)
      /\ string_lt (Get_tls_max_version fd) (Get_tls_min_version fd) = false.
Proof.
  rewrite <- check_groupfilter_None, <- check_certificate_None.
  rewrite <- check_tls_versions_None. unfold NewConfiguration.
  destruct (check_groupfilter _); cbn.
  { split; [discriminate|]. intros (Hx & _). discriminate. }
  destruct (check_certificate _); cbn.
  { split; [discriminate|]. intros (_ & Hx & _). discriminate. }
  destruct (check_tls_versions _ _); cbn.
  { split; [discriminate|]. intros (_ & _ & Hx). discriminate. }
  split; auto.
Qed.

(** X16.  An accepted configuration reproduces the field data: every string
    and flag is stored as given, except the URL list and the user
    attribute, which are stored lower-cased (an empty one stays empty). *)
Theorem NewConfiguration_stores (fd : FieldData) (conf : Configuration) :
  NewConfiguration fd = Ok conf ->
  Url conf = (if nonempty (Get_url fd) then strings_ToLower (Get_url fd) else "")
  /\ UserAttr conf
     = (if nonempty (Get_userattr fd) then strings_ToLower (Get_userattr fd) else "")
  /\ UserDN conf = Get_userdn fd
  /\ GroupDN conf = Get_groupdn fd
  /\ GroupFilter conf = Get_groupfilter fd
  /\ GroupAttr conf = Get_groupattr fd
  /\ UPNDomain conf = Get_upndomain fd
  /\ Certificate conf = Get_certificate fd
  /\ InsecureTLS conf = Get_insecure_tls fd
  /\ StartTLS conf = Get_starttls fd
  /\ BindDN conf = Get_binddn fd
  /\ BindPassword conf = Get_bindpass fd
  /\ DenyNullBind conf = Get_deny_null_bind fd
  /\ DiscoverDN conf = Get_discoverdn fd
  /\ TLSMinVersion conf = Get_tls_min_version fd
  /\ TLSMaxVersion conf = Get_tls_max_version fd.
Proof.
  unfold NewConfiguration.
  destruct (check_groupfilter _); [discriminate|].
  destruct (check_certificate _); [discriminate|].
  destruct (check_tls_versions _ _); [discriminate|].
  intros Hc. inversion Hc; subst conf; clear Hc. cbn.
  rewrite !guarded_copy.
  repeat split;
    match goal with |- (if ?b then ?b else false) = ?b => destruct b; reflexivity end.
Qed.

End Facts.

Section Examples.
Import sim.

Lemma NewConfiguration_stores_witness :
  NewConfiguration (field_data "" "tls10" "tls12")
  = Ok (mkConfiguration "ldap://dc1.example.com" "" "" "" "" "" "cn" "" false false
          "" "" false false "tls10" "tls12")
  /\ Url (mkConfiguration "ldap://dc1.example.com" "" "" "" "" "" "cn" "" false false
            "" "" false false "tls10" "tls12")
     = sim_ToLower "LDAP://DC1.example.com".
Proof.
  assert (Hok : NewConfiguration (field_data "" "tls10" "tls12")
                = Ok (mkConfiguration "ldap://dc1.example.com" "" "" "" "" "" "cn" ""
                        false false "" "" false false "tls10" "tls12"))
    by (vm_compute; reflexivity).
  split; [exact Hok|].
  exact (proj1 (NewConfiguration_stores (field_data "" "tls10" "tls12") _ Hok)).
Defined.

End Examples.

End ConfigExtra.

(** ** Further properties of the directory client *)

Module ClientExtra.
Import tlsutil ldap activedirectory.

Section Facts.
Context {Env : Type} `{Network Env} `{Library} `{Lookup}.

Lemma call_setup {A : Type} (e : event) (f : Env -> A * Env) (w : world Env) :
  trace (snd (call e f w)) = trace w ++ [e].
Proof. unfold call. now destruct (f (env w)). Qed.

Lemma connect_setup (c : client) (uut : string) (w : world Env) :
  exists evs,
    trace (snd (connect c uut w)) = trace w ++ evs
    /\ forallb is_setup evs = true.
Proof.
  unfold connect, bind, ret.
  destruct (url_Parse uut) as [err|u].
  { exists []. now rewrite app_nil_r. }
  destruct (hostPort u) as [host port].
  destruct (String.eqb (Scheme u) "ldap").
  - match goal with |- context [call ?e ?f w] =>
      pose proof (call_setup e f w) as Hd; destruct (call e f w) as [r w1]
    end.
    cbn in Hd. destruct r as [err|conn]; [eexists; split; [exact Hd|reflexivity]|].
    destruct (StartTLS (conf c)); [|eexists; split; [exact Hd|reflexivity]].
    destruct (getTLSConfig c host) as [cfg|err];
      [|eexists; split; [exact Hd|reflexivity]].
    match goal with |- context [call ?e ?f w1] =>
      pose proof (call_setup e f w1) as Hs; destruct (call e f w1) as [r w2]
    end.
    cbn in Hs. rewrite Hd, <- app_assoc in Hs.
    destruct r; eexists; (split; [exact Hs|reflexivity]).
  - destruct (String.eqb (Scheme u) "ldaps").
    + destruct (getTLSConfig c host) as [cfg|err].
      * match goal with |- context [call ?e ?f w] =>
          pose proof (call_setup e f w) as Hd; destruct (call e f w) as [r w1]
        end.
        cbn in Hd. destruct r; eexists; (split; [exact Hd|reflexivity]).
      * exists []. now rewrite app_nil_r.
    + exists []. now rewrite app_nil_r.
Qed.

Lemma tryURLs_setup (c : client) (urls : list string) (retErr : list error)
    (w : world Env) :
  exists evs,
    trace (snd (tryURLs c urls retErr w)) = trace w ++ evs
    /\ forallb is_setup evs = true.
Proof.
  revert retErr w. induction urls as [|uut urls IH]; intros retErr w.
  { exists []. cbn. now rewrite app_nil_r. }
  cbn [tryURLs]. unfold bind.
  destruct (connect_setup c uut w) as (evs1 & Ht1 & Hs1).
  destruct (connect c uut w) as [[conn|err] w1]; cbn in Ht1.
  - exists evs1. auto.
  - destruct (IH (retErr ++ [hostError uut err]) w1) as (evs2 & Ht2 & Hs2).
    exists (evs1 ++ evs2). rewrite Ht2, Ht1, <- app_assoc. split; [reflexivity|].
    rewrite forallb_app, Hs1, Hs2. reflexivity.
Qed.

Lemma closes_setup (evs : list event) :
  forallb is_setup evs = true -> closes evs = [] /\ modifies evs = [].
Proof.
  induction evs as [|e evs IH]; cbn; [auto|].
  intros Ha. apply andb_true_iff in Ha as [He Ha]. destruct (IH Ha) as [Hc Hm].
  unfold closes, modifies in *. cbn. rewrite Hc, Hm. now destruct e.
Qed.

(** X17.  Establishing a connection only dials and upgrades: whatever
    happens, [getConnection] sends no search and no modify request and
    releases no connection.  In particular, when a host has been dialled
    and its STARTTLS upgrade is then refused, [connect] returns the error
    and the connection it dialled is not released. *)
Theorem getConnection_only_sets_up (c : client) (w : world Env) :
  (exists evs,
     trace (snd (getConnection c w)) = trace w ++ evs
     /\ forallb is_setup evs = true
     /\ closes (trace (snd (getConnection c w))) = closes (trace w))
  /\ (forall uut u host port conn e1 tlsConfig err e2,
      url_Parse uut = inr u -> hostPort u = (host, port) ->
      Scheme u = "ldap" -> StartTLS (conf c) = true ->
      ldap_Dial "tcp" (net_JoinHostPort host (if String.eqb port "" then "389" else port))
        (env w) = (inr conn, e1) ->
      getTLSConfig c host = Ok tlsConfig ->
      conn_StartTLS conn tlsConfig e1 = (Some err, e2) ->
      fst (connect c uut w) = Err (Foreign err)
      /\ closes (trace (snd (connect c uut w))) = closes (trace w)).
Proof.
  split.
  - destruct (tryURLs_setup c (Split (Url (conf c)) ",") [] w) as (evs & Ht & Hs).
    exists evs. fold (getConnection c) in Ht. repeat split; auto.
    rewrite Ht. unfold closes. rewrite List.filter_app.
    destruct (closes_setup evs Hs) as [Hc _]. unfold closes in Hc. rewrite Hc.
    apply app_nil_r.
  - intros uut u host port conn e1 cfg err e2 Hu Hhp Hs Hst Hd Hcfg Hup.
    destruct (connect_setup c uut w) as (evs & Ht & Hse).
    split.
    + unfold connect, bind, ret, call. rewrite Hu, Hhp, Hs. cbn.
      rewrite Hd. cbn. rewrite Hst, Hcfg. cbn. now rewrite Hup.
    + rewrite Ht. unfold closes. rewrite List.filter_app.
      destruct (closes_setup evs Hse) as [Hc _]. unfold closes in Hc. rewrite Hc.
      apply app_nil_r.
Qed.

(** X18.  [Search] sends one subtree-scope request with the given base and
    filter on the connection it obtained and then releases that connection,
    whether the search succeeded or not; without a connection it sends
    nothing and returns the connection error. *)
Theorem Search_releases (c : client) (baseDN filter : string) (w : world Env) :
  (forall conn w1,
     getConnection c w = (Ok conn, w1) ->
     trace (snd (Search c baseDN filter w))
     = trace w1 ++ [EvSearch conn (mkSearchRequest baseDN 2 filter); EvClose conn]
     /\ fst (Search c baseDN filter w)
        = match fst (conn_Search conn (mkSearchRequest baseDN 2 filter) (env w1)) with
          | inl err => Err (Foreign err)
          | inr entries => Ok entries
          end
     /\ closes (trace (snd (Search c baseDN filter w)))
        = closes (trace w) ++ [EvClose conn])
  /\ (forall err w1,
      getConnection c w = (Err err, w1) ->
      Search c baseDN filter w = (Err err, w1)).
Proof.
  split.
  - intros conn w1 Hg. rewrite (ClientFacts.Search_connected _ _ _ _ _ _ Hg). cbn.
    repeat split.
    destruct (tryURLs_setup c (Split (Url (conf c)) ",") [] w) as (evs & Ht & Hs).
    fold (getConnection c) in Ht. rewrite Hg in Ht. cbn in Ht. rewrite Ht.
    unfold closes. rewrite !List.filter_app.
    destruct (closes_setup evs Hs) as [Hc _]. unfold closes in Hc. rewrite Hc.
    cbn. now rewrite app_nil_r.
  - intros err w1 Hg. unfold Search, bind, ret. now rewrite Hg.
Qed.

(** X19.  [UpdateUsername]: when the search yields no entry or more than
    one, it fails and no modify request is sent; when it yields exactly one
    entry, a second connection is opened: if that succeeds, exactly one
    request is sent on it, which replaces the attribute givenName of that
    entry's DN by the new name as given, and the connection is released; if
    it fails, its error is returned and no modify request is sent. *)
Theorem UpdateUsername_behaviour (c : client) (baseDN filter newUsername : string)
    (w : world Env) :
  let found := Search c baseDN filter w in
  let updated := UpdateUsername c baseDN filter newUsername w in
  (forall entries,
     fst found = Ok entries -> List.length entries <> 1%nat ->
     updated
     = (Some (fmt_Errorf "update filter of %s doesn't match just one entry: %s"
                [ArgString filter; ArgOpaque]),
        snd found)
     /\ modifies (trace (snd updated)) = modifies (trace w))
  /\ (forall entry,
      fst found = Ok [entry] ->
      let req :=
        mkModifyRequest (DN entry) [mkPartialAttribute "givenName" [newUsername]] in
      (forall conn w2,
         getConnection c (snd found) = (Ok conn, w2) ->
         updated
         = (match fst (conn_Modify conn req (env w2)) with
            | Some err => Some (Foreign err)
            | None => None
            end,
            mkWorld (conn_Close conn (snd (conn_Modify conn req (env w2))))
              (trace w2 ++ [EvModify conn req; EvClose conn]))
         /\ modifies (trace (snd updated)) = modifies (trace w) ++ [EvModify conn req])
      /\ (forall err w2,
          getConnection c (snd found) = (Err err, w2) ->
          updated = (Some err, w2)
          /\ modifies (trace (snd updated)) = modifies (trace w))).
Proof.
  intros found updated. subst found updated.
  pose proof (ClientFacts.Search_modifies c baseDN filter w) as Hsm.
  unfold UpdateUsername, bind, ret.
  destruct (Search c baseDN filter w) as [r w1]. cbn [fst snd] in *. split.
  - intros entries -> Hlen.
    destruct (Nat.eqb_spec (List.length entries) 1); [contradiction|]. cbn.
    split; [reflexivity|exact Hsm].
  - intros entry ->. cbn. unfold modifyRequest.
    set (req := mkModifyRequest (DN entry) [mkPartialAttribute "givenName" [newUsername]]).
    split.
    + intros conn w2 Hg.
      pose proof (ClientFacts.getConnection_modifies c w1) as Hgm.
      rewrite Hg in *. cbn in Hgm. unfold Close, call. cbn. fold req.
      destruct (conn_Modify conn req (env w2)) as [merr e3] eqn:Hm. cbn.
      split.
      * rewrite <- app_assoc. now destruct merr.
      * assert (Ht : forall x : option error,
                  modifies (trace (snd (x,
                     mkWorld (conn_Close conn e3)
                       ((trace w2 ++ [EvModify conn req]) ++ [EvClose conn]))))
                  = modifies (trace w) ++ [EvModify conn req]).
        { intros x. cbn. rewrite ClientFacts.modifies_snoc by reflexivity.
          unfold modifies. rewrite List.filter_app. cbn.
          fold (modifies (trace w2)). now rewrite Hgm, Hsm. }
        destruct merr; apply Ht.
    + intros err w2 Hg.
      pose proof (ClientFacts.getConnection_modifies c w1) as Hgm.
      rewrite Hg in *. cbn in *. split; [reflexivity|]. now rewrite Hgm.
Qed.

Lemma all_fail_failures (c : client) (urls : list string) (w w' : world Env)
    (errs : list error) :
  all_fail c urls w errs w' ->
  exists causes,
    failures c urls w causes w'
    /\ errs = zip_with (fun uut cause =>
                          fmt_Errorf "error parsing url %q: %s"
                            [ArgString uut; ArgError cause]) urls causes
    /\ length causes = length urls.
Proof.
  induction 1 as [w|uut urls w w1 w2 err errs Hc Hf (causes & IHf & IHe & IHl)].
  - exists []. repeat split. constructor.
  - exists (err :: causes). split; [econstructor; eauto|].
    split; [cbn; now rewrite <- IHe|cbn; now rewrite IHl].
Qed.

(** X20.  When [getConnection] fails, every piece of the comma-separated URL
    string has been tried in order, each attempt starting in the world the
    one before it left, and [connect] has failed on each.  The error returned
    is the aggregate that has, for each piece and in the same order, one
    entry formatted from [error parsing url %q: %s] with that URL and the
    error [connect] returned for it, and the world returned is the one after
    the last attempt.  The aggregate is never empty, since even an empty URL
    string is one piece. *)
Theorem getConnection_error_entries (c : client) (w w' : world Env) (err : error) :
  getConnection c w = (Err err, w') ->
  exists causes,
    failures c (Split (Url (conf c)) ",") w causes w'
    /\ err = multierror
               (zip_with (fun uut cause =>
                            fmt_Errorf "error parsing url %q: %s"
                              [ArgString uut; ArgError cause])
                  (Split (Url (conf c)) ",") causes)
    /\ length causes = length (Split (Url (conf c)) ",")
    /\ causes <> [].
Proof.
  intros Hg. apply ClientFacts.tryURLs_Err in Hg as (errs & Hf & ->).
  apply all_fail_failures in Hf as (causes & Hf & -> & Hl).
  exists causes. split; [exact Hf|]. split; [reflexivity|]. split; [exact Hl|].
  intros ->. cbn in Hl.
  pose proof (ClientFacts.Split_nonempty (Url (conf c)) ",") as Hn.
  destruct (Split (Url (conf c)) ","); [contradiction|discriminate].
Qed.

(** X21.  [getTLSConfig] fails exactly when a non-empty version identifier
    is not in the table or a non-empty certificate cannot be added to the
    pool.  When it succeeds, the server name is the host, verification is
    skipped exactly when the configuration says so, each version bound is
    the table's value for its identifier (zero for an empty identifier),
    and the trust roots are the configured certificate, if any. *)
Theorem getTLSConfig_result (c : client) (host : string) :
  (is_Ok (getTLSConfig c host) = false
   <-> (TLSMinVersion (conf c) <> "" /\ TLSLookup !! TLSMinVersion (conf c) = None)
       \/ (TLSMaxVersion (conf c) <> "" /\ TLSLookup !! TLSMaxVersion (conf c) = None)
       \/ (Certificate (conf c) <> "" /\ AppendCertsFromPEM (Certificate (conf c)) = false))
  /\ (forall tlsConfig,
      getTLSConfig c host = Ok tlsConfig ->
      ServerName tlsConfig = host
      /\ InsecureSkipVerify tlsConfig = InsecureTLS (conf c)
      /\ (TLSMinVersion (conf c) = "" -> MinVersion tlsConfig = 0)
      /\ (TLSMinVersion (conf c) <> "" ->
          TLSLookup !! TLSMinVersion (conf c) = Some (MinVersion tlsConfig))
      /\ (TLSMaxVersion (conf c) = "" -> MaxVersion tlsConfig = 0)
      /\ (TLSMaxVersion (conf c) <> "" ->
          TLSLookup !! TLSMaxVersion (conf c) = Some (MaxVersion tlsConfig))
      /\ (Certificate (conf c) = "" -> RootCAs tlsConfig = None)
      /\ (Certificate (conf c) <> "" -> RootCAs tlsConfig = Some (Certificate (conf c)))).
Proof.
  unfold getTLSConfig.
  destruct (nonempty (TLSMinVersion (conf c))) eqn:Hmin;
    [assert (Hmin' : TLSMinVersion (conf c) <> "")
       by (intros Hz; apply ConfigExtra.nonempty_false in Hz; congruence)
    |apply ConfigExtra.nonempty_false in Hmin];
  (destruct (nonempty (TLSMaxVersion (conf c))) eqn:Hmax;
    [assert (Hmax' : TLSMaxVersion (conf c) <> "")
       by (intros Hz; apply ConfigExtra.nonempty_false in Hz; congruence)
    |apply ConfigExtra.nonempty_false in Hmax]);
  (destruct (nonempty (Certificate (conf c))) eqn:Hcert;
    [assert (Hcert' : Certificate (conf c) <> "")
       by (intros Hz; apply ConfigExtra.nonempty_false in Hz; congruence)
    |apply ConfigExtra.nonempty_false in Hcert]);
  destruct (TLSLookup !! TLSMinVersion (conf c)) as [vmin|] eqn:Hlmin;
  destruct (TLSLookup !! TLSMaxVersion (conf c)) as [vmax|] eqn:Hlmax;
  destruct (AppendCertsFromPEM (Certificate (conf c))) eqn:Happ;
  destruct (InsecureTLS (conf c)); cbn;
  (split;
   [split;
    [intros Hx; try discriminate; tauto
    |intros [[? ?]|[[? ?]|[? ?]]]; try reflexivity; congruence]
   |intros cfg Hc; try discriminate; inversion Hc; subst cfg; cbn;
    repeat split; intros; congruence]).
Qed.

(** X22.  A configuration accepted by [NewConfiguration] never makes
    [getTLSConfig] fail on a version identifier: the TLS configuration is
    built with the two versions the table gives, and the only possible
    failure is that of adding the certificate to the pool. *)
Theorem accepted_versions_resolve `{Parsers} (fd : FieldData) (conf : Configuration)
    (host : string) :
  NewConfiguration fd = Ok conf ->
  (exists tlsConfig,
     getTLSConfig (mkClient conf) host = Ok tlsConfig
     /\ TLSLookup !! Get_tls_min_version fd = Some (MinVersion tlsConfig)
     /\ TLSLookup !! Get_tls_max_version fd = Some (MaxVersion tlsConfig))
  \/ getTLSConfig (mkClient conf) host
     = Err (fmt_Errorf "could not append CA certificate" []).
Proof.
  intros Hok.
  unfold NewConfiguration in Hok.
  destruct (check_groupfilter _); [discriminate|].
  destruct (check_certificate _); [discriminate|].
  destruct (check_tls_versions _ _) eqn:Htls; [discriminate|].
  apply ConfigExtra.check_tls_versions_None in Htls
    as (Hmin & Hmax & [vmin Hlmin] & [vmax Hlmax] & _).
  inversion Hok; subst conf; clear Hok.
  unfold getTLSConfig. cbn.
  assert (Hn1 : nonempty (Get_tls_min_version fd) = true).
  { destruct (nonempty (Get_tls_min_version fd)) eqn:Hn; [reflexivity|].
    apply ConfigExtra.nonempty_false in Hn. contradiction. }
  assert (Hn2 : nonempty (Get_tls_max_version fd) = true).
  { destruct (nonempty (Get_tls_max_version fd)) eqn:Hn; [reflexivity|].
    apply ConfigExtra.nonempty_false in Hn. contradiction. }
  rewrite Hn1, Hn2, Hlmin, Hlmax. cbn.
  destruct (if Get_insecure_tls fd then Get_insecure_tls fd else false); cbn;
    (destruct (nonempty (if nonempty (Get_certificate fd)
                         then Get_certificate fd else "")); cbn;
     [destruct (AppendCertsFromPEM _); cbn; [left; eauto|right; reflexivity]
     |left; eauto]).
Qed.

End Facts.

Section Examples.
Import sim.

Lemma getConnection_only_sets_up_witness :
  fst (@connect net_env refusing_starttls library tls_table dc1_starttls
         "ldap://dc1.example.com" (ad_world 1))
  = Err (Foreign "LDAP Result Code 2: unsupported extended operation")
  /\ closes (trace (snd (@connect net_env refusing_starttls library tls_table dc1_starttls
                          "ldap://dc1.example.com" (ad_world 1)))) = [].
Proof.
  destruct (@getConnection_only_sets_up net_env refusing_starttls library tls_table
              dc1_starttls (ad_world 1)) as (_ & H2).
  apply (H2 "ldap://dc1.example.com" (mkURL "ldap" "dc1.example.com")
            "dc1.example.com" "" 0%nat
            (mk_net_env 0 1 [("(cn=svc)", svc_entry)])
            (mkTlsConfig "dc1.example.com" 771 771 false None)
            "LDAP Result Code 2: unsupported extended operation"
            (mk_net_env 0 1 [("(cn=svc)", svc_entry)])); reflexivity.
Defined.

Lemma Search_releases_witness :
  getConnection dc1 (ad_world 2) = (Ok 0%nat, snd (getConnection dc1 (ad_world 2)))
  /\ closes (trace (snd (Search dc1 "DC=example,DC=com" "(cn=svc)" (ad_world 2))))
     = [EvClose 0%nat].
Proof.
  assert (Hg : getConnection dc1 (ad_world 2)
               = (Ok 0%nat, snd (getConnection dc1 (ad_world 2))))
    by (vm_compute; reflexivity).
  split; [exact Hg|].
  destruct (Search_releases dc1 "DC=example,DC=com" "(cn=svc)" (ad_world 2)) as (H1 & _).
  destruct (H1 0%nat _ Hg) as (_ & _ & Hc). exact Hc.
Defined.

Lemma UpdateUsername_behaviour_witness :
  fst (Search dc1 "DC=example,DC=com" "(cn=svc)" (ad_world 2)) = Ok [svc_entry]
  /\ modifies (trace (snd (UpdateUsername dc1 "DC=example,DC=com" "(cn=svc)" "Ada"
                            (ad_world 2))))
     = [EvModify 1%nat
          (mkModifyRequest "CN=svc,OU=Service Accounts,DC=example,DC=com"
             [mkPartialAttribute "givenName" ["Ada"]])].
Proof.
  assert (Hs : fst (Search dc1 "DC=example,DC=com" "(cn=svc)" (ad_world 2))
               = Ok [svc_entry]) by (vm_compute; reflexivity).
  split; [exact Hs|].
  destruct (UpdateUsername_behaviour dc1 "DC=example,DC=com" "(cn=svc)" "Ada" (ad_world 2))
    as (_ & H2).
  destruct (H2 svc_entry Hs) as (Hok & _).
  destruct (Hok 1%nat
              (snd (getConnection dc1
                      (snd (Search dc1 "DC=example,DC=com" "(cn=svc)" (ad_world 2))))))
    as (_ & Hm).
  - vm_compute. reflexivity.
  - rewrite Hm. vm_compute. reflexivity.
Defined.

(** X20 on three hosts none of which connects: two refuse the dial, the
    third has a scheme [connect] does not know. *)
Lemma getConnection_error_entries_witness :
  fst (getConnection three_hosts (ad_world 0))
  = Err (multierror
           [fmt_Errorf "error parsing url %q: %s"
              [ArgString "ldap://dc1.example.com";
               ArgError (Foreign "LDAP Result Code 200: connection refused")];
            fmt_Errorf "error parsing url %q: %s"
              [ArgString "ldaps://dc2.example.com:3269";
               ArgError (Foreign "LDAP Result Code 200: connection refused")];
            fmt_Errorf "error parsing url %q: %s"
              [ArgString "http://dc3";
               ArgError (fmt_Errorf "invalid LDAP scheme in url %q" [ArgString "dc3:"])]])
  /\ exists causes : list error,
       failures three_hosts
         ["ldap://dc1.example.com"; "ldaps://dc2.example.com:3269"; "http://dc3"]
         (ad_world 0) causes (snd (getConnection three_hosts (ad_world 0)))
       /\ length causes = 3%nat.
Proof.
  split; [vm_compute; reflexivity|].
  destruct (getConnection_error_entries three_hosts (ad_world 0)
              (snd (getConnection three_hosts (ad_world 0)))
              (multierror
                 [fmt_Errorf "error parsing url %q: %s"
                    [ArgString "ldap://dc1.example.com";
                     ArgError (Foreign "LDAP Result Code 200: connection refused")];
                  fmt_Errorf "error parsing url %q: %s"
                    [ArgString "ldaps://dc2.example.com:3269";
                     ArgError (Foreign "LDAP Result Code 200: connection refused")];
                  fmt_Errorf "error parsing url %q: %s"
                    [ArgString "http://dc3";
                     ArgError (fmt_Errorf "invalid LDAP scheme in url %q"
                                 [ArgString "dc3:"])]]))
    as (causes & Hf & _ & Hl & _); [vm_compute; reflexivity|].
  exists causes. split; [exact Hf|exact Hl].
Defined.

Lemma getTLSConfig_result_witness :
  getTLSConfig dc1 "dc1.example.com"
  = Ok (mkTlsConfig "dc1.example.com" 771 771 false None)
  /\ ServerName (mkTlsConfig "dc1.example.com" 771 771 false None) = "dc1.example.com".
Proof.
  assert (Hc : getTLSConfig dc1 "dc1.example.com"
               = Ok (mkTlsConfig "dc1.example.com" 771 771 false None))
    by (vm_compute; reflexivity).
  split; [exact Hc|].
  destruct (getTLSConfig_result dc1 "dc1.example.com") as (_ & H2).
  exact (proj1 (H2 _ Hc)).
Defined.

Lemma accepted_versions_resolve_witness :
  NewConfiguration (field_data "" "tls10" "tls12")
  = Ok (mkConfiguration "ldap://dc1.example.com" "" "" "" "" "" "cn" "" false false
          "" "" false false "tls10" "tls12")
  /\ is_Ok (getTLSConfig
              (mkClient (mkConfiguration "ldap://dc1.example.com" "" "" "" "" "" "cn" ""
                           false false "" "" false false "tls10" "tls12"))
              "dc1.example.com") = true.
Proof.
  assert (Hok : NewConfiguration (field_data "" "tls10" "tls12")
                = Ok (mkConfiguration "ldap://dc1.example.com" "" "" "" "" "" "cn" ""
                        false false "" "" false false "tls10" "tls12"))
    by (vm_compute; reflexivity).
  split; [exact Hok|].
  destruct (accepted_versions_resolve (field_data "" "tls10" "tls12") _
              "dc1.example.com" Hok) as [(cfg & Hc & _)|Herr].
  - now rewrite Hc.
  - vm_compute in Herr. discriminate.
Defined.

End Examples.

End ClientExtra.

(** ** Further properties of role records *)

Module RoleExtra.
Import database json.

Section Facts.
Context {Rest : Type} `{RestDecoder Rest}.

Lemma mixed_upgradeCheck (before mid after : list (string * value))
    (legacy canonical : Statements_) :
  forallb other_member before = true -> forallb other_member mid = true ->
  forallb other_member after = true ->
  decode_upgradeCheck (Some (mixed_record before mid after legacy canonical))
  = Ok (as_upgrade legacy).
Proof.
  intros Hb Hm Ha. unfold decode_upgradeCheck, mixed_record, into_struct.
  rewrite RoleFacts.fold_members_app, (RoleFacts.upgradeCheck_skips _ _ Hb).
  cbn [fold_members]. unfold member_upgradeCheck at 1.
  change (equalFoldRight "statments" "statments") with true.
  replace (into_struct member_upgradeStatements
             (statements_object "creation_statments" legacy) (up_Statements empty))
    with (Ok (up_Statements (as_upgrade legacy))) by reflexivity.
  rewrite RoleFacts.fold_members_app, (RoleFacts.upgradeCheck_skips _ _ Hm).
  cbn [fold_members]. unfold member_upgradeCheck at 1.
  change (equalFoldRight "statments" "statements") with false.
  now apply RoleFacts.upgradeCheck_skips.
Qed.

Lemma mixed_roleEntry (before mid after : list (string * value))
    (legacy canonical : Statements_) :
  forallb other_member before = true -> forallb other_member mid = true ->
  forallb other_member after = true ->
  (forall v r, rest_member "statments" v r = Ok r) ->
  decode_roleEntry (Some (mixed_record before mid after legacy canonical))
  = match fold_members rest_member (before ++ mid ++ after) rest_zero with
    | Err e => Err e
    | Ok r' => Ok (mkRoleEntry canonical r')
    end.
Proof.
  intros Hb Hm Ha Hign. unfold decode_roleEntry, mixed_record, into_struct.
  rewrite !RoleFacts.fold_members_app, (RoleFacts.roleEntry_others _ _ _ Hb).
  destruct (fold_members rest_member before rest_zero) as [r1|e]; [|reflexivity].
  cbn [fold_members]. unfold member_roleEntry at 1.
  change (equalFoldRight "statements" "statments") with false.
  cbn [rest Statements]. rewrite Hign.
  rewrite !RoleFacts.fold_members_app, (RoleFacts.roleEntry_others _ _ _ Hm).
  destruct (fold_members rest_member mid r1) as [r2|e]; [|reflexivity].
  cbn [fold_members]. unfold member_roleEntry at 1.
  change (equalFoldRight "statements" "statements") with true.
  cbn [rest Statements].
  replace (into_struct member_Statements
             (statements_object "creation_statements" canonical)
             (mkStatements "" "" "" ""))
    with (Ok canonical) by (now destruct canonical).
  now apply RoleFacts.roleEntry_others.
Qed.

(** X23.  When a stored record carries a statement set under the legacy
    names and another under the canonical names, [Role] decides for the
    whole set at once: unless all four legacy statements are empty, the
    four statements returned are the legacy ones, also where a legacy
    statement is empty and the canonical one is not; if all four are empty,
    the canonical ones are returned. *)
Theorem Role_legacy_takes_precedence (roleName : string)
    (before mid after : list (string * value)) (legacy canonical : Statements_)
    (r : roleEntry Rest) :
  forallb other_member before = true ->
  forallb other_member mid = true ->
  forallb other_member after = true ->
  (forall v r0, rest_member "statments" v r0 = Ok r0) ->
  Role (store_of roleName (mixed_record before mid after legacy canonical)) roleName
  = Ok (Some r) ->
  (legacy <> mkStatements "" "" "" "" -> Statements r = legacy)
  /\ (legacy = mkStatements "" "" "" "" -> Statements r = canonical).
Proof.
  intros Hb Hm Ha Hign.
  rewrite RoleFacts.Role_store_of, (mixed_upgradeCheck _ _ _ _ _ Hb Hm Ha),
    (mixed_roleEntry _ _ _ _ _ Hb Hm Ha Hign).
  destruct (fold_members rest_member (before ++ mid ++ after) rest_zero) as [r'|e];
    [|discriminate].
  destruct (decide (as_upgrade legacy = empty)) as [He|He]; intros Hr;
    inversion Hr; subst r; cbn; split; intros Hl.
  - exfalso. apply Hl. destruct legacy. unfold as_upgrade, empty in He. cbn in He.
    now inversion He.
  - reflexivity.
  - now destruct legacy.
  - subst legacy. exfalso. now apply He.
Qed.

(** X24.  A record whose legacy key holds anything but an object or null
    cannot be read: [Role] returns an error, because the legacy view fails
    to decode, even though the canonical decoding does not look at that
    key. *)
Theorem Role_rejects_ill_typed_legacy (roleName : string)
    (before after : list (string * value)) (v : value) :
  forallb other_member before = true ->
  struct_like v = false ->
  is_Ok (Role (Rest := Rest) (store_of roleName (legacy_keyed_record before after v))
           roleName) = false.
Proof.
  intros Hb Hv. rewrite RoleFacts.Role_store_of.
  assert (Hd : decode_upgradeCheck (Some (legacy_keyed_record before after v))
               = Err typeError).
  { unfold decode_upgradeCheck, legacy_keyed_record, into_struct.
    rewrite RoleFacts.fold_members_app, (RoleFacts.upgradeCheck_skips _ _ Hb).
    cbn [fold_members]. unfold member_upgradeCheck at 1.
    change (equalFoldRight "statments" "statments") with true.
    destruct v; try discriminate; reflexivity. }
  now rewrite Hd.
Qed.

End Facts.

Section Examples.
Import sim.

Lemma Role_legacy_takes_precedence_witness :
  Role (store_of "app-admin"
          (mixed_record role_before [] role_after legacy_creation_only role_statements))
    "app-admin"
  = Ok (Some (mkRoleEntry legacy_creation_only "app"))
  /\ Statements (mkRoleEntry legacy_creation_only "app") = legacy_creation_only.
Proof.
  assert (Hr : Role (store_of "app-admin"
                       (mixed_record role_before [] role_after legacy_creation_only
                          role_statements)) "app-admin"
               = Ok (Some (mkRoleEntry legacy_creation_only "app")))
    by (vm_compute; reflexivity).
  assert (Hign : forall (v : value) (r : string), rest_member "statments" v r = Ok r)
    by (intros v r; reflexivity).
  split; [exact Hr|].
  apply (Role_legacy_takes_precedence (Rest := string) "app-admin" role_before []
           role_after legacy_creation_only role_statements _ eq_refl eq_refl eq_refl
           Hign Hr).
  discriminate.
Defined.

Lemma Role_rejects_ill_typed_legacy_witness :
  forallb other_member role_before = true
  /\ is_Ok (Role (Rest := string)
             (store_of "app-admin"
                (legacy_keyed_record role_before role_after (JString "none")))
             "app-admin") = false.
Proof.
  assert (Hb : forallb other_member role_before = true) by reflexivity.
  split; [exact Hb|].
  exact (Role_rejects_ill_typed_legacy (Rest := string) "app-admin" role_before
           role_after (JString "none") Hb eq_refl).
Defined.

End Examples.

End RoleExtra.
